(** * adb-reverse-proxy: a model of [server.py] and its verified properties

    The development embeds the ADB transport proxy of [server.py]:
    the frame codec ([send_cmd], [recv_cmd]), the host-ADB service client
    ([open_client_stream]), the per-stream object ([ProxyChannel]) with its
    pump task ([sink]), and the connection handler ([AdbDeviceProxy.run],
    [handle_connection]); then the device listing ([list_adb_devices]),
    the raw tunnel to the scrcpy server ([ScrcpyTcpProxy]) and the servers
    [main] starts.

    Conventions.
    - Python [bytes] are [list byte]; a Python [str] is a Rocq [string]
      holding its UTF-8 encoding, so that [str.encode()] is
      [list_byte_of_string] and [bytes.decode()] checks UTF-8 validity.
    - Python integers are [Z]; the range checks of [struct.pack] are
      written out.
    - A coroutine that can raise returns a [res]; what it does to the
      outside world (socket reads and writes, closes, task spawns, sleeps)
      is the list of [event]s it returns, in program order.  Mutations of
      [self] survive a raise, as they do in Python.
    - What the environment decides (what a socket delivers, whether a
      [drain()] finds the connection lost) is an argument of the step. *)

From Stdlib Require Import ZArith List Lia Bool String Ascii.
From coqutil Require Import Byte Word.LittleEndianList.
From stdpp Require Import gmap.
Import ListNotations.
Local Open Scope Z_scope.

(** ** Exceptions and the error monad *)

Inductive exn :=
| StructError                 (* struct.error *)
| IncompleteReadError         (* asyncio.IncompleteReadError *)
| ValueError
| UnicodeDecodeError
| ConnectionError             (* ConnectionResetError, ConnectionRefusedError *)
| PyException (msg : string)  (* raise Exception(msg) *).

Inductive res (A : Type) :=
| Ok (a : A)
| Raise (e : exn).
Arguments Ok {A} a.
Arguments Raise {A} e.

#[global] Instance res_ret : MRet res := @Ok.
#[global] Instance res_bind : MBind res := fun A B k r =>
  match r with
  | Ok a => k a
  | Raise e => Raise e
  end.

Definition is_ok {A} (r : res A) : bool :=
  match r with Ok _ => true | Raise _ => false end.

(** ** Bytes and strings *)

#[global] Instance byte_eq_decision : EqDecision byte := Byte.byte_eq_dec.

(** A byte string literal such as [b"OKAY"]. *)
Definition b (s : string) : list byte := list_byte_of_string s.

Definition bytes_eqb (x y : list byte) : bool :=
  bool_decide (x = y).

Fixpoint lstrip_nul (data : list byte) : list byte :=
  match data with
  | Byte.x00 :: t => lstrip_nul t
  | _ => data
  end.

(** [bytes.rstrip(b"\0")] *)
Definition rstrip_nul (data : list byte) : list byte :=
  rev (lstrip_nul (rev data)).

Definition in_range (c : byte) (lo hi : Z) : bool :=
  (lo <=? byte.unsigned c) && (byte.unsigned c <=? hi).

(** The well-formed UTF-8 byte sequences (the strict decoder of
    [bytes.decode()]: no overlong forms, no surrogates, at most U+10FFFF). *)
Fixpoint utf8_valid (l : list byte) : bool :=
  match l with
  | [] => true
  | c0 :: t0 =>
      if in_range c0 0x00 0x7F then utf8_valid t0
      else if in_range c0 0xC2 0xDF then
        match t0 with
        | c1 :: t1 => in_range c1 0x80 0xBF && utf8_valid t1
        | _ => false
        end
      else if in_range c0 0xE0 0xEF then
        match t0 with
        | c1 :: c2 :: t2 =>
            in_range c1 (if in_range c0 0xE0 0xE0 then 0xA0 else 0x80)
                        (if in_range c0 0xED 0xED then 0x9F else 0xBF)
            && in_range c2 0x80 0xBF && utf8_valid t2
        | _ => false
        end
      else if in_range c0 0xF0 0xF4 then
        match t0 with
        | c1 :: c2 :: c3 :: t3 =>
            in_range c1 (if in_range c0 0xF0 0xF0 then 0x90 else 0x80)
                        (if in_range c0 0xF4 0xF4 then 0x8F else 0xBF)
            && in_range c2 0x80 0xBF && in_range c3 0x80 0xBF && utf8_valid t3
        | _ => false
        end
      else false
  end.

(** [bytes.decode()] *)
Definition decode (data : list byte) : res string :=
  if utf8_valid data then Ok (string_of_list_byte data)
  else Raise UnicodeDecodeError.

(** [str.encode()] *)
Definition encode (s : string) : list byte := list_byte_of_string s.

(** ** Frame codec *)

Definition u32_max : Z := 0xFFFFFFFF.

Definition in_u32 (v : Z) : bool := (0 <=? v) && (v <=? u32_max).

(** [struct.pack("<I", v)] *)
Definition pack_u32 (v : Z) : res (list byte) :=
  if in_u32 v then Ok (le_split 4 v) else Raise StructError.

(** [struct.unpack("<I", x)] *)
Definition unpack_u32 (x : list byte) : res Z :=
  if (length x =? 4)%nat then Ok (le_combine x) else Raise StructError.

(** [struct.pack("<IIIIII", ...)] *)
Fixpoint pack_u32s (vs : list Z) : res (list byte) :=
  match vs with
  | [] => Ok []
  | v :: vs' =>
      x ← pack_u32 v;
      xs ← pack_u32s vs';
      Ok (x ++ xs)
  end.

(** [binascii.crc32]: the IEEE 802.3 CRC, reflected polynomial 0xEDB88320. *)
Definition crc32_bit (c : Z) : Z :=
  if Z.testbit c 0 then Z.lxor (Z.shiftr c 1) 0xEDB88320 else Z.shiftr c 1.

Definition crc32_byte (c : Z) (x : byte) : Z :=
  Nat.iter 8 crc32_bit (Z.lxor c (byte.unsigned x)).

Definition crc32 (data : list byte) : Z :=
  Z.lxor (fold_left crc32_byte data u32_max) u32_max.

(** The bytes [send_cmd] hands to [writer.write] (lines 12-14).  Every call
    site in the program passes [bytes] for [data], so the [str] branch of
    line 10 is never taken and [data] is a byte list here. *)
Definition frame_bytes (cmd : list byte) (arg0 arg1 : Z) (data : list byte)
  : res (list byte) :=
  cmd_id ← unpack_u32 cmd;
  header ← pack_u32s [cmd_id; arg0; arg1; Z.of_nat (length data);
                      crc32 data; Z.lxor cmd_id u32_max];
  Ok (header ++ data).

(** [StreamReader.readexactly(n)] on a reader whose remaining input is [rd]:
    everything the other end sends before the end of the stream. *)
Definition readexactly (n : Z) (rd : list byte) : res (list byte * list byte) :=
  if n <? 0 then Raise ValueError
  else if (Z.to_nat n <=? length rd)%nat
       then Ok (firstn (Z.to_nat n) rd, skipn (Z.to_nat n) rd)
       else Raise IncompleteReadError.

Record message := Message {
  m_cmd : list byte;
  m_arg0 : Z;
  m_arg1 : Z;
  m_data : list byte
}.

(** [recv_cmd]: the message read and the reader's remaining input. *)
Definition recv_cmd (rd : list byte) : res (message * list byte) :=
  '(header, rd1) ← readexactly 24 rd;
  let field (i : nat) := le_combine (firstn 4 (skipn (4 * i) header)) in
  let cmd_id := field 0%nat in
  let arg0 := field 1%nat in
  let arg1 := field 2%nat in
  let data_len := field 3%nat in
  let magic := field 5%nat in
  if negb (cmd_id =? Z.lxor magic u32_max)
  then Raise (PyException "Magic mismatch"%string)
  else
    '(data, rd2) ← readexactly data_len rd1;
    Ok (Message (firstn 4 header) arg0 arg1 data, rd2).

(** ** Events: what the program does to its sockets and tasks *)

Inductive event :=
| PeerRecv (m : message)      (* recv_cmd on the peer link returned m *)
| PeerWrite (x : list byte)   (* writer.write(header + data) on the peer link *)
| PeerClose                   (* writer.close() on the peer link *)
| HostConnect                 (* asyncio.open_connection( *adb_addr ) *)
| HostWrite (x : list byte)   (* write on the connection to the host ADB server *)
| HostClose                   (* close of that connection before it is a stream *)
| SpawnSink (rid : Z)         (* asyncio.create_task(self.sink()) *)
| CancelSink (rid : Z)        (* self.sink_task.cancel() *)
| DevWrite (rid : Z) (x : list byte)  (* self.writer.write(data) of a channel *)
| DevClose (rid : Z)          (* self.writer.close() of a channel *)
| Sleep (ms : Z)              (* asyncio.sleep, in milliseconds *).

(** What the environment decides during one step. *)
Record env := Env {
  peer_ok : bool;   (* drain() on the peer link does not raise *)
  dev_ok : bool;    (* drain() and wait_closed() on a channel's writer do not raise *)
  host : option (list byte)
    (* the host ADB server: None refuses the connection, Some x sends x
       and then ends the stream *)
}.


(** ** The monad of coroutines

    A coroutine over an object of type [S]: it may mutate the object, emits
    events, and returns or raises.  The state reached and the events emitted
    before a raise are kept. *)

Definition M (S A : Type) : Type := S -> S * list event * res A.

#[global] Instance M_ret {S} : MRet (M S) := fun A a s => (s, [], Ok a).
#[global] Instance M_bind {S} : MBind (M S) := fun A B k m s =>
  match m s with
  | (s1, es1, Ok a) => let '(s2, es2, r) := k a s1 in (s2, es1 ++ es2, r)
  | (s1, es1, Raise x) => (s1, es1, Raise x)
  end.

Definition emit {S} (ev : event) : M S unit := fun s => (s, [ev], Ok tt).
Definition throw {S A} (x : exn) : M S A := fun s => (s, [], Raise x).
Definition lift {S A} (r : res A) : M S A := fun s => (s, [], r).
Definition gets {S A} (f : S -> A) : M S A := fun s => (s, [], Ok (f s)).
Definition modify {S} (f : S -> S) : M S unit := fun s => (f s, [], Ok tt).

(** [try: m  except: h] *)
Definition try_except {S A} (m : M S A) (h : exn -> M S A) : M S A := fun s =>
  match m s with
  | (s1, es1, Raise x) => let '(s2, es2, r) := h x s1 in (s2, es1 ++ es2, r)
  | done => done
  end.

(** [send_cmd] (line 9): the frame is written, then [drain()] may raise. *)
Definition send_cmd {S} (e : env) (cmd : list byte) (arg0 arg1 : Z)
    (data : list byte) : M S unit :=
  wire ← lift (frame_bytes cmd arg0 arg1 data);
  _ ← emit (PeerWrite wire);
  if peer_ok e then mret tt else throw ConnectionError.

(** ** Host-ADB service client *)

(** One lowercase hexadecimal digit. *)
Definition hex_digit (d : Z) : byte :=
  nth (Z.to_nat d) (b "0123456789abcdef") Byte.x30.

Fixpoint hex_digits (fuel : nat) (n : Z) (acc : list byte) : list byte :=
  match fuel with
  | O => acc
  | S fuel' =>
      let acc' := hex_digit (n mod 16) :: acc in
      if n / 16 =? 0 then acc' else hex_digits fuel' (n / 16) acc'
  end.

(** [f"{n:04x}".encode()]: at least four digits, zero padded. *)
Definition format_04x (n : Z) : list byte :=
  let ds := hex_digits (S (Z.to_nat (Z.log2 n))) n [] in
  repeat Byte.x30 (4 - length ds) ++ ds.

(** [int(x, 16)] on bytes, as CPython parses it: surrounding ASCII
    whitespace, an optional sign, an optional [0x] prefix, then hexadecimal
    digits with single underscores between them. *)
Definition is_space (c : byte) : bool :=
  in_range c 0x09 0x0D || in_range c 0x20 0x20.

Fixpoint lstrip_space (x : list byte) : list byte :=
  match x with
  | c :: t => if is_space c then lstrip_space t else x
  | [] => []
  end.

Definition hex_value (c : byte) : option Z :=
  if in_range c 0x30 0x39 then Some (byte.unsigned c - 0x30)
  else if in_range c 0x61 0x66 then Some (byte.unsigned c - 0x61 + 10)
  else if in_range c 0x41 0x46 then Some (byte.unsigned c - 0x41 + 10)
  else None.

Fixpoint hex_number (x : list byte) (acc : Z) (after_underscore : bool)
  : option Z :=
  match x with
  | [] => if after_underscore then None else Some acc
  | c :: t =>
      if in_range c 0x5F 0x5F
      then if after_underscore then None else hex_number t acc true
      else match hex_value c with
           | Some d => hex_number t (16 * acc + d) false
           | None => None
           end
  end.

Definition py_int16 (x : list byte) : res Z :=
  let s := rev (lstrip_space (rev (lstrip_space x))) in
  let '(sign, s1) :=
    match s with
    | c :: t => if in_range c 0x2B 0x2B then (1, t)
                else if in_range c 0x2D 0x2D then (-1, t)
                else (1, s)
    | [] => (1, s)
    end in
  let s2 :=
    match s1 with
    | c0 :: c1 :: t =>
        if in_range c0 0x30 0x30 && (in_range c1 0x78 0x78 || in_range c1 0x58 0x58)
        then match t with
             | c2 :: t' => if in_range c2 0x5F 0x5F then t' else t
             | [] => t
             end
        else s1
    | _ => s1
    end in
  match s2 with
  | [] => Raise ValueError
  | c :: _ =>
      if in_range c 0x5F 0x5F then Raise ValueError
      else match hex_number s2 0 false with
           | Some v => Ok (sign * v)
           | None => Raise ValueError
           end
  end.

(** The [try] block of lines 109-114; it ends in a [raise]. *)
Definition read_failure {S} (rd : list byte) : M S unit :=
  '(len_b, rd1) ← lift (readexactly 4 rd);
  n ← lift (py_int16 len_b);
  '(err, rd2) ← lift (readexactly n rd1);
  msg ← lift (decode err);
  _ ← emit HostClose;
  throw (PyException ("Failed: " ++ msg)).

(** The [for] loop of lines 101-117 over the requests still to send; [rd]
    is what the host ADB server sends on this connection.  A connection
    lost while writing shows as a short read. *)
Fixpoint request_loop {S} (destination : string) (cmds : list string)
    (rd : list byte) : M S unit :=
  match cmds with
  | [] => mret tt
  | cmd :: cmds' =>
      let cmd_b := encode cmd in
      _ ← emit (HostWrite (format_04x (Z.of_nat (length cmd_b)) ++ cmd_b));
      '(status, rd1) ← lift (readexactly 4 rd);
      if negb (bytes_eqb status (b "OKAY"))
      then try_except (read_failure rd1)
             (fun _ =>
                _ ← emit HostClose;
                throw (PyException ("Failed to open " ++ destination)))
      else request_loop destination cmds' rd1
  end.

Definition open_client_stream {S} (e : env) (device_id destination : string)
  : M S unit :=
  _ ← emit HostConnect;
  match host e with
  | None => throw ConnectionError
  | Some rd =>
      request_loop destination
        [("host:transport:" ++ device_id)%string; destination] rd
  end.

(** ** ProxyChannel: one stream and its pump task *)

Module ProxyChannel.

(** Where the [sink] coroutine is suspended. *)
Inductive task :=
| AtLoop      (* at the head of the loop, up to and including acquire() *)
| AtRead      (* in reader.read(), line 62 *)
| AtSleep     (* in asyncio.sleep(0.1), line 69 *)
| Finished    (* the coroutine has returned or raised *)
| Cancelled   (* cancel() was called on the task *).

(** [Task.done()] *)
Definition done (k : task) : bool :=
  match k with
  | Finished | Cancelled => true
  | _ => false
  end.

Record t := Channel {
  name : string;
  local_id : Z;
  remote_id : Z;
  closed : bool;
  ready_to_send : Z;      (* the value of the semaphore *)
  sink_task : task
}.

Definition set_closed (v : bool) (c : t) : t :=
  Channel (name c) (local_id c) (remote_id c) v (ready_to_send c) (sink_task c).
Definition set_ready_to_send (v : Z) (c : t) : t :=
  Channel (name c) (local_id c) (remote_id c) (closed c) v (sink_task c).
Definition set_sink_task (v : task) (c : t) : t :=
  Channel (name c) (local_id c) (remote_id c) (closed c) (ready_to_send c) v.

(** [Semaphore.release()] *)
Definition release (c : t) : t := set_ready_to_send (ready_to_send c + 1) c.

(** [ready] (line 50) *)
Definition ready (c : t) : t := release c.

(** [__init__] (line 26): the semaphore starts at 0, the pump task is
    created, and one starter unit is released. *)
Definition init {S} (name : string) (local_id remote_id : Z) : M S t :=
  _ ← emit (SpawnSink remote_id);
  mret (ready (Channel name local_id remote_id false 0 AtLoop)).

(** [close] (line 83) *)
Definition close (e : env) : M t unit :=
  c ← gets closed;
  if negb c then
    _ ← modify (set_closed true);
    _ ← modify release;
    k ← gets sink_task;
    rid ← gets remote_id;
    lid ← gets local_id;
    _ ← (if negb (done k)
         then _ ← emit (CancelSink rid); modify (set_sink_task Cancelled)
         else mret tt);
    _ ← try_except
          (_ ← emit (DevClose rid);
           if dev_ok e then mret tt else throw ConnectionError)
          (fun _ => mret tt);
    send_cmd e (b "CLSE") rid lid []
  else mret tt.

(** [write] (line 39) *)
Definition write (e : env) (data : list byte) : M t unit :=
  try_except
    (rid ← gets remote_id;
     lid ← gets local_id;
     _ ← emit (DevWrite rid data);
     _ ← (if dev_ok e then mret tt else throw ConnectionError);
     send_cmd e (b "OKAY") rid lid [])
    (fun _ => close e).

(** What [reader.read(max_data_len)] gives the pump: at most [max_data_len]
    bytes, none at the end of the stream, or an error. *)
Inductive read_result :=
| ReadBytes (data : list byte)
| ReadError.

(** Leaving the loop of [sink]: the [finally] block (lines 79-81), after
    which the task is over.  A [close] called from here cancels the running
    task itself, which only marks it.  The [close] is taken in one piece
    here; in the source it is suspended at the [await] of line 92 with the
    flag already set, and sends its CLSE frame when it is resumed. *)
Definition sink_exit (e : env) : M t unit :=
  c ← gets closed;
  if negb c then close e else modify (set_sink_task Finished).

(** One body of the loop from [reader.read] on (lines 61-76); returns
    whether the loop is left by [break]. *)
Definition sink_read (e : env) (r : read_result) : M t bool :=
  try_except
    (match r with
     | ReadError => throw ConnectionError
     | ReadBytes data =>
         if bool_decide (data = []) then
           nm ← gets name;
           if String.prefix "shell:" nm then
             _ ← emit (Sleep 100);
             _ ← modify (set_sink_task AtSleep);
             mret false
           else mret true
         else
           rid ← gets remote_id;
           lid ← gets local_id;
           _ ← send_cmd e (b "WRTE") rid lid data;
           _ ← modify (set_sink_task AtLoop);
           mret false
     end)
    (fun _ => mret true).

(** [sink] (line 53), from one suspension point to the next.  A raise out
    of [sink] ends the task; nothing awaits it. *)
Definition sink (e : env) (r : read_result) : M t unit :=
  k ← gets sink_task;
  match k with
  | AtLoop =>
      c ← gets closed;
      if c : bool then sink_exit e
      else
        v ← gets ready_to_send;
        if v <=? 0 then mret tt
        else
          _ ← modify (set_ready_to_send (v - 1));
          c' ← gets closed;
          if c' : bool then sink_exit e else modify (set_sink_task AtRead)
  | AtRead =>
      brk ← sink_read e r;
      if brk : bool then sink_exit e else mret tt
  | AtSleep => modify (set_sink_task AtLoop)
  | Finished | Cancelled => mret tt
  end.

End ProxyChannel.

(** ** AdbDeviceProxy: the connection handler *)

Module AdbDeviceProxy.

Record t := Proxy {
  device_id : string;
  protocol_version : Z;
  max_data_len : Z;
  device_name : string;
  streams : gmap Z ProxyChannel.t;
  next_remote_id : Z
}.

Definition set_streams (v : gmap Z ProxyChannel.t) (p : t) : t :=
  Proxy (device_id p) (protocol_version p) (max_data_len p) (device_name p)
        v (next_remote_id p).
Definition set_next_remote_id (v : Z) (p : t) : t :=
  Proxy (device_id p) (protocol_version p) (max_data_len p) (device_name p)
        (streams p) v.

(** [__init__] (line 136) *)
Definition init (device_id : string) : t :=
  Proxy device_id 0x01000000 (256 * 1024) ("proxy_" ++ device_id) ∅ 1.

(** A method call on the channel object [ch] held in the table under
    [rid]: the table sees what the call does to the object. *)
Definition on_channel {A} (rid : Z) (ch : ProxyChannel.t)
    (m : M ProxyChannel.t A) : M t A := fun p =>
  let '(ch', es, r) := m ch in
  (set_streams (<[rid := ch']> (streams p)) p, es, r).

(** One pass of the [while True] body after [recv_cmd] (lines 162-195). *)
Definition dispatch (e : env) (m : message) : M t unit :=
  let cmd := m_cmd m in
  let local_id := m_arg0 m in
  let remote_id := m_arg1 m in
  let data := m_data m in
  if bytes_eqb cmd (b "OPEN") then
    destination ← lift (decode (rstrip_nul data));
    remote_id ← gets next_remote_id;
    _ ← modify (set_next_remote_id (remote_id + 1));
    dev ← gets device_id;
    try_except
      (_ ← open_client_stream e dev destination;
       channel ← ProxyChannel.init destination local_id remote_id;
       _ ← modify (fun p => set_streams (<[remote_id := channel]> (streams p)) p);
       send_cmd e (b "OKAY") remote_id local_id [])
      (fun _ => send_cmd e (b "CLSE") local_id 0 [])
  else if bytes_eqb cmd (b "WRTE") then
    tbl ← gets streams;
    match tbl !! remote_id with
    | Some channel => on_channel remote_id channel (ProxyChannel.write e data)
    | None => mret tt
    end
  else if bytes_eqb cmd (b "OKAY") then
    tbl ← gets streams;
    match tbl !! remote_id with
    | Some channel => on_channel remote_id channel (modify ProxyChannel.ready)
    | None => mret tt
    end
  else if bytes_eqb cmd (b "CLSE") then
    tbl ← gets streams;
    match tbl !! remote_id with
    | Some channel =>
        _ ← on_channel remote_id channel (ProxyChannel.close e);
        modify (fun p => set_streams (delete remote_id (streams p)) p)
    | None => send_cmd e (b "CLSE") local_id 0 []
    end
  else mret tt.

End AdbDeviceProxy.

(** ** The connection: main task, pump tasks, and their interleaving *)

(** Where [handle_connection] is: before the handshake of [run], in the
    dispatch loop, or returned. *)
Inductive main :=
| Handshake
| Loop
| Returned.

Record world := World {
  proxy : AdbDeviceProxy.t;
  reader : list byte;     (* what the peer still sends before it ends the stream *)
  main_task : main
}.

Definition set_proxy (v : AdbDeviceProxy.t) (w : world) : world :=
  World v (reader w) (main_task w).
Definition set_reader (v : list byte) (w : world) : world :=
  World (proxy w) v (main_task w).
Definition set_main_task (v : main) (w : world) : world :=
  World (proxy w) (reader w) v.

Definition on_proxy {A} (m : M AdbDeviceProxy.t A) : M world A := fun w =>
  let '(p, es, r) := m (proxy w) in (set_proxy p w, es, r).

(** [AdbDeviceProxy.recv_cmd] (line 150) *)
Definition proxy_recv_cmd : M world message := fun w =>
  match recv_cmd (reader w) with
  | Ok (m, rd) => (set_reader rd w, [PeerRecv m], Ok m)
  | Raise x => (w, [], Raise x)
  end.

(** [run], lines 155-159 (the text of the exception also shows the tag
    received). *)
Definition run_handshake (e : env) : M world unit :=
  m ← proxy_recv_cmd;
  if negb (bytes_eqb (m_cmd m) (b "CNXN"))
  then throw (PyException "Expected CNXN")
  else
    on_proxy
      (v ← gets AdbDeviceProxy.protocol_version;
       n ← gets AdbDeviceProxy.max_data_len;
       nm ← gets AdbDeviceProxy.device_name;
       send_cmd e (b "CNXN") v n
         (encode ("device::" ++ nm ++ String (ascii_of_nat 0) "")))%string.

(** [run], one turn of the loop of line 160. *)
Definition run_loop (e : env) : M world unit :=
  m ← proxy_recv_cmd;
  on_proxy (AdbDeviceProxy.dispatch e m).

(** [handle_connection] (line 197), advanced by one turn of [run]: an
    exception out of [run] is logged, and [finally] closes the peer link. *)
Definition handle_connection (e : env) (w : world) : world * list event :=
  match main_task w with
  | Returned => (w, [])
  | k =>
      let '(w1, es, r) :=
        match k with
        | Handshake => run_handshake e w
        | _ => run_loop e w
        end in
      match r with
      | Ok _ => (set_main_task Loop w1, es)
      | Raise _ => (set_main_task Returned w1, es ++ [PeerClose])
      end
  end.

(** One pump task advanced to its next suspension point. *)
Definition run_sink (rid : Z) (e : env) (r : ProxyChannel.read_result)
    (w : world) : world * list event :=
  match AdbDeviceProxy.streams (proxy w) !! rid with
  | Some ch =>
      let '(p, es, _) :=
        AdbDeviceProxy.on_channel rid ch (ProxyChannel.sink e r) (proxy w) in
      (set_proxy p w, es)
  | None => (w, [])
  end.

(** The scheduler's choices.  A turn of the main task is taken as one
    step: the pump tasks that would run during its awaits are scheduled
    after it.  The pump of another stream shares no state with the handler;
    the pump of the stream a frame addresses shares with it the semaphore,
    which the handler releases in one piece, and the peer link, on which
    both write whole frames; and [close] cancels the pump before its first
    await. *)
Inductive sched :=
| RunMain (e : env)
| RunSink (rid : Z) (e : env) (r : ProxyChannel.read_result).

Definition step (w : world) (s : sched) : world * list event :=
  match s with
  | RunMain e => handle_connection e w
  | RunSink rid e r => run_sink rid e r w
  end.

Fixpoint exec (w : world) (ss : list sched) : world * list event :=
  match ss with
  | [] => (w, [])
  | s :: ss' =>
      let '(w1, es1) := step w s in
      let '(w2, es2) := exec w1 ss' in
      (w2, es1 ++ es2)
  end.

(** A connection accepted for [device_id] on which the peer sends [input]. *)
Definition accept (device_id : string) (input : list byte) : world :=
  World (AdbDeviceProxy.init device_id) input Handshake.

(** ** Reading an event trace *)

(** The frame a write on the peer link carries. *)
Definition sent_frame (ev : event) : option message :=
  match ev with
  | PeerWrite x =>
      match recv_cmd x with
      | Ok (m, []) => Some m
      | _ => None
      end
  | _ => None
  end.

(** The payload limit the proxy announces, [MAX_PAYLOAD]. *)
Definition MAX_PAYLOAD : Z :=
  AdbDeviceProxy.max_data_len (AdbDeviceProxy.init "").

(** The wire bytes of a frame the peer sends ([[]] when it has none). *)
Definition frame (cmd : string) (arg0 arg1 : Z) (data : list byte) : list byte :=
  match frame_bytes (b cmd) arg0 arg1 data with
  | Ok wire => wire
  | Raise _ => []
  end.

(** What [send_cmd] writes and returns, whatever object it runs on. *)
Definition sending (e : env) (cmd : list byte) (arg0 arg1 : Z)
    (data : list byte) : list event * res unit :=
  match frame_bytes cmd arg0 arg1 data with
  | Ok wire =>
      ([PeerWrite wire], if peer_ok e then Ok tt else Raise ConnectionError)
  | Raise x => ([], Raise x)
  end.

(** The channel [close] leaves behind when it finds it open. *)
Definition closed_channel (c : ProxyChannel.t) : ProxyChannel.t :=
  ProxyChannel.Channel
    (ProxyChannel.name c) (ProxyChannel.local_id c) (ProxyChannel.remote_id c)
    true (ProxyChannel.ready_to_send c + 1)
    (if ProxyChannel.done (ProxyChannel.sink_task c)
     then ProxyChannel.sink_task c else ProxyChannel.Cancelled).

(** The events of [close] on an open channel, up to the CLSE frame. *)
Definition closing_events (c : ProxyChannel.t) : list event :=
  (if ProxyChannel.done (ProxyChannel.sink_task c) then []
   else [CancelSink (ProxyChannel.remote_id c)])
  ++ [DevClose (ProxyChannel.remote_id c)].

(** Channels used in the examples. *)
Definition shell_channel (credit : Z) : ProxyChannel.t :=
  ProxyChannel.Channel "shell:ls" 7 1 false credit ProxyChannel.AtRead.
Definition sync_channel : ProxyChannel.t :=
  ProxyChannel.Channel "sync:" 7 1 false 1 ProxyChannel.AtLoop.

Definition env_up : env := Env true true (Some (b "OKAYOKAY")).
Definition env_peer_lost : env := Env false true (Some (b "OKAYOKAY")).

(** *** Counting frames and tasks in a trace *)

Fixpoint count (f : event -> bool) (es : list event) : Z :=
  match es with
  | [] => 0
  | ev :: es' => (if f ev then 1 else 0) + count f es'
  end.

(** A WRTE frame written on the peer link for our stream [rid]. *)
Definition is_wrte (rid : Z) (ev : event) : bool :=
  match sent_frame ev with
  | Some m => bytes_eqb (m_cmd m) (b "WRTE") && (m_arg0 m =? rid)
  | None => false
  end.

(** An OKAY frame received from the peer and addressed to our stream [rid]. *)
Definition is_okay (rid : Z) (ev : event) : bool :=
  match ev with
  | PeerRecv m => bytes_eqb (m_cmd m) (b "OKAY") && (m_arg1 m =? rid)
  | _ => false
  end.

Definition wrte_sent (rid : Z) (es : list event) : Z := count (is_wrte rid) es.
Definition okay_received (rid : Z) (es : list event) : Z :=
  count (is_okay rid) es.

(** The OKAY frames received for stream [rid] since it was created: those
    that follow the start of its pump in the trace.  An OKAY received for
    an id that has no stream yet (lines 182-183 drop it) is not among
    them. *)
Fixpoint okay_credited (rid : Z) (es : list event) : Z :=
  match es with
  | [] => 0
  | SpawnSink r :: es' =>
      if r =? rid then okay_received rid es' else okay_credited rid es'
  | _ :: es' => okay_credited rid es'
  end.

(** An event other than the receipt of a frame. *)
Definition no_recv (ev : event) : bool :=
  match ev with PeerRecv _ => false | _ => true end.

(** The remote ids of the streams created, in order of creation. *)
Fixpoint spawned (es : list event) : list Z :=
  match es with
  | [] => []
  | SpawnSink rid :: es' => rid :: spawned es'
  | _ :: es' => spawned es'
  end.

(** An inbound CLSE addressed to our stream [rid] has been processed. *)
Definition clse_received (rid : Z) (es : list event) : Prop :=
  exists m, In (PeerRecv m) es /\ m_cmd m = b "CLSE" /\ m_arg1 m = rid.

(** The unit of credit the pump holds while it reads. *)
Definition pending (c : ProxyChannel.t) : Z :=
  match ProxyChannel.sink_task c with
  | ProxyChannel.AtRead => 1
  | _ => 0
  end.

(** The remote id the step assigns: line 165, reached by an OPEN frame whose
    destination decodes. *)
Definition assigned_id (w : world) (s : sched) : list Z :=
  match s with
  | RunMain _ =>
      match main_task w, recv_cmd (reader w) with
      | Loop, Ok (m, _) =>
          if bytes_eqb (m_cmd m) (b "OPEN")
             && is_ok (decode (rstrip_nul (m_data m)))
          then [AdbDeviceProxy.next_remote_id (proxy w)]
          else []
      | _, _ => []
      end
  | RunSink _ _ _ => []
  end.

(** The remote ids assigned along a run, in order. *)
Fixpoint ids_assigned (w : world) (ss : list sched) : list Z :=
  match ss with
  | [] => []
  | s :: ss' => assigned_id w s ++ ids_assigned (step w s).1 ss'
  end.

(** *** What one step does, in summary *)

(** What a method of a channel ([close], [write], [sink]) may do to it and
    emit. *)
Record chan_step (c c' : ProxyChannel.t) (es : list event) : Prop := {
  cs_remote_id : ProxyChannel.remote_id c' = ProxyChannel.remote_id c;
  cs_spawned : spawned es = [];
  cs_dev_close : forall r, In (DevClose r) es ->
    r = ProxyChannel.remote_id c /\
    ProxyChannel.closed c = false /\ ProxyChannel.closed c' = true;
  cs_closing : ProxyChannel.closed c = false -> ProxyChannel.closed c' = true ->
    In (DevClose (ProxyChannel.remote_id c)) es /\
    ProxyChannel.done (ProxyChannel.sink_task c') = true;
  cs_closed : ProxyChannel.closed c = true -> ProxyChannel.closed c' = true;
  cs_done : ProxyChannel.done (ProxyChannel.sink_task c) = true ->
    ProxyChannel.done (ProxyChannel.sink_task c') = true;
  cs_wrte_other : forall r, r <> ProxyChannel.remote_id c -> wrte_sent r es = 0;
  cs_wrte_done : ProxyChannel.done (ProxyChannel.sink_task c) = true ->
    wrte_sent (ProxyChannel.remote_id c) es = 0;
  cs_credit : 0 <= ProxyChannel.ready_to_send c ->
    0 <= ProxyChannel.ready_to_send c' /\
    0 <= wrte_sent (ProxyChannel.remote_id c) es /\
    wrte_sent (ProxyChannel.remote_id c) es
      + (if ProxyChannel.closed c' then 0
         else ProxyChannel.ready_to_send c' + pending c')
    <= ProxyChannel.ready_to_send c + pending c
}.

(** Events that touch no stream: no task spawned, no outbound writer
    closed, no WRTE frame written. *)
Definition quiet (es : list event) : Prop :=
  spawned es = [] /\ (forall r, ~ In (DevClose r) es) /\
  (forall r, wrte_sent r es = 0).

(** What one step of the connection does to the proxy; [ids] is the remote
    id it assigns, if any. *)
Inductive summary (p p' : AdbDeviceProxy.t) (es : list event)
  : list Z -> Prop :=
| sum_idle :
    p' = p -> quiet es -> summary p p' es []
| sum_open_fail :
    AdbDeviceProxy.streams p' = AdbDeviceProxy.streams p ->
    AdbDeviceProxy.next_remote_id p' = AdbDeviceProxy.next_remote_id p + 1 ->
    quiet es ->
    summary p p' es [AdbDeviceProxy.next_remote_id p]
| sum_open nm lid :
    let rid := AdbDeviceProxy.next_remote_id p in
    AdbDeviceProxy.streams p' =
      <[rid := ProxyChannel.Channel nm lid rid false 1 ProxyChannel.AtLoop]>
        (AdbDeviceProxy.streams p) ->
    AdbDeviceProxy.next_remote_id p' = rid + 1 ->
    spawned es = [rid] -> (forall r, ~ In (DevClose r) es) ->
    (forall r, wrte_sent r es = 0) ->
    summary p p' es [rid]
| sum_chan k c c' :
    AdbDeviceProxy.streams p !! k = Some c ->
    AdbDeviceProxy.streams p' = <[k := c']> (AdbDeviceProxy.streams p) ->
    AdbDeviceProxy.next_remote_id p' = AdbDeviceProxy.next_remote_id p ->
    chan_step c c' es ->
    summary p p' es []
| sum_ready k c m :
    AdbDeviceProxy.streams p !! k = Some c ->
    AdbDeviceProxy.streams p' =
      <[k := ProxyChannel.ready c]> (AdbDeviceProxy.streams p) ->
    AdbDeviceProxy.next_remote_id p' = AdbDeviceProxy.next_remote_id p ->
    es = [PeerRecv m] -> m_cmd m = b "OKAY" -> m_arg1 m = k ->
    summary p p' es []
| sum_delete k c c' m es1 :
    AdbDeviceProxy.streams p !! k = Some c ->
    AdbDeviceProxy.streams p' = delete k (AdbDeviceProxy.streams p) ->
    AdbDeviceProxy.next_remote_id p' = AdbDeviceProxy.next_remote_id p ->
    es = PeerRecv m :: es1 -> m_cmd m = b "CLSE" -> m_arg1 m = k ->
    chan_step c c' es1 -> ProxyChannel.closed c' = true ->
    summary p p' es [].

(** *** The invariant of a connection *)

(** What holds of our stream id [rid], given its table entry [o], the next
    id to assign and the trace so far. *)
Definition stream_inv (rid : Z) (o : option ProxyChannel.t) (next : Z)
    (es : list event) : Prop :=
  wrte_sent rid es <= 1 + okay_credited rid es /\
  (In (SpawnSink rid) es -> 1 <= rid < next) /\
  (In (DevClose rid) es -> In (SpawnSink rid) es) /\
  (In (SpawnSink rid) es \/ wrte_sent rid es = 0) /\
  match o with
  | Some c =>
      ProxyChannel.remote_id c = rid /\
      In (SpawnSink rid) es /\
      (ProxyChannel.closed c = true <-> In (DevClose rid) es) /\
      (ProxyChannel.closed c = true ->
       ProxyChannel.done (ProxyChannel.sink_task c) = true) /\
      (ProxyChannel.closed c = false ->
       0 <= ProxyChannel.ready_to_send c /\
       wrte_sent rid es + ProxyChannel.ready_to_send c + pending c
         <= 1 + okay_credited rid es)
  | None =>
      In (SpawnSink rid) es -> In (DevClose rid) es /\ clse_received rid es
  end.

Record Inv (p : AdbDeviceProxy.t) (es : list event) (ids : list Z) : Prop := {
  inv_ids : ids = Z.of_nat <$> seq 1 (length ids);
  inv_next : AdbDeviceProxy.next_remote_id p = 1 + Z.of_nat (length ids);
  inv_spawned : spawned es `sublist_of` ids;
  inv_streams : forall rid,
    stream_inv rid (AdbDeviceProxy.streams p !! rid)
      (AdbDeviceProxy.next_remote_id p) es
}.

(** *** Example runs *)

(** The peer connects, opens a stream to [destination] as its stream 7,
    and sends nothing more. *)
Definition open_input (destination : string) : list byte :=
  frame "CNXN" 0x01000000 0x40000 (b "host::")
  ++ frame "OPEN" 7 0 (b destination ++ [Byte.x00]).

(** Handshake, then the OPEN accepted by the host ADB server. *)
Definition open_run : list sched := [RunMain env_up; RunMain env_up].

(** The pump of stream 1 takes its starter credit and reads the end of the
    outbound stream. *)
Definition eof_run : list sched :=
  open_run ++ [RunSink 1 env_up (ProxyChannel.ReadBytes []);
               RunSink 1 env_up (ProxyChannel.ReadBytes [])].

(** The main task finds the peer link at its end. *)
Definition peer_eof_run : list sched := open_run ++ [RunMain env_up].

(** The peer opens a shell stream as its stream 7 and acknowledges one
    WRTE frame. *)
Definition credit_input : list byte :=
  open_input "shell:ls" ++ frame "OKAY" 7 1 [].

(** The pump of stream 1 takes the starter credit and forwards "hi"; the
    OKAY of the peer comes in; the pump takes that credit and forwards
    "yo". *)
Definition credit_run : list sched :=
  open_run ++ [RunSink 1 env_up (ProxyChannel.ReadBytes []);
               RunSink 1 env_up (ProxyChannel.ReadBytes (b "hi"));
               RunMain env_up;
               RunSink 1 env_up (ProxyChannel.ReadBytes []);
               RunSink 1 env_up (ProxyChannel.ReadBytes (b "yo"))].

(** The peer opens a shell stream and sends two OKAY frames for it before
    it has received any WRTE. *)
Definition early_okays_input : list byte :=
  open_input "shell:ls" ++ frame "OKAY" 7 1 [] ++ frame "OKAY" 7 1 [].

(** Both OKAYs are received, then the pump finds data three times. *)
Definition early_okays_run : list sched :=
  open_run ++ [RunMain env_up; RunMain env_up;
               RunSink 1 env_up (ProxyChannel.ReadBytes []);
               RunSink 1 env_up (ProxyChannel.ReadBytes (b "a"));
               RunSink 1 env_up (ProxyChannel.ReadBytes []);
               RunSink 1 env_up (ProxyChannel.ReadBytes (b "b"));
               RunSink 1 env_up (ProxyChannel.ReadBytes []);
               RunSink 1 env_up (ProxyChannel.ReadBytes (b "c"))].

(** The turn of [run] the main task takes in state [k]. *)
Definition run_turn (k : main) (e : env) : M world unit :=
  match k with
  | Handshake => run_handshake e
  | _ => run_loop e
  end.

(** The answers [OKAY] of the host ADB server to the first [n] requests. *)
Definition okays (n : nat) : list byte := concat (repeat (b "OKAY") n).

(** The first [n] requests [open_client_stream] writes. *)
Definition requests (device_id destination : string) (n : nat) : list event :=
  map (fun cmd : string =>
         HostWrite (format_04x (Z.of_nat (length (encode cmd))) ++ encode cmd))
      (firstn n [("host:transport:" ++ device_id)%string; destination]).

(** The host ADB server refuses the connection. *)
Definition env_refused : env := Env true true None.
(** The same, with the peer link lost. *)
Definition env_refused_peer_lost : env := Env false true None.

(** A connection in its dispatch loop whose peer sends one frame. *)
Definition looping (input : list byte) : world :=
  World (AdbDeviceProxy.init "dev1") input Loop.

(** What [handle_connection] adds to the events of a turn: the close of the
    peer link when the turn raised. *)
Definition raised_tail {A} (r : res A) : list event :=
  if is_ok r then [] else [PeerClose].

(** ** Listing the devices *)

(** A line boundary of [str.splitlines()] that is one byte long: line
    feed, vertical tab, form feed, carriage return, and the file, group
    and record separators. *)
Definition is_break (c : byte) : bool :=
  in_range c 0x0A 0x0D || in_range c 0x1C 0x1E.

(** [str.splitlines()] on the UTF-8 bytes of a string; [cur] is the line
    being read, last byte first.  Besides the one-byte boundaries, a
    carriage return with the line feed after it is one boundary, and so
    are U+0085 (C2 85), U+2028 and U+2029 (E2 80 A8, E2 80 A9).  A last
    line without boundary is a line; an empty one is not. *)
Fixpoint split_lines (cur : list byte) (s : list byte) : list (list byte) :=
  match s with
  | [] => match cur with [] => [] | _ => [rev cur] end
  | c :: t =>
      if in_range c 0x0D 0x0D then
        match t with
        | c1 :: t1 =>
            if in_range c1 0x0A 0x0A then rev cur :: split_lines [] t1
            else rev cur :: split_lines [] t
        | [] => rev cur :: split_lines [] t
        end
      else if is_break c then rev cur :: split_lines [] t
      else if in_range c 0xC2 0xC2 then
        match t with
        | c1 :: t1 =>
            if in_range c1 0x85 0x85 then rev cur :: split_lines [] t1
            else split_lines (c :: cur) t
        | [] => split_lines (c :: cur) t
        end
      else if in_range c 0xE2 0xE2 then
        match t with
        | c1 :: c2 :: t2 =>
            if in_range c1 0x80 0x80 && in_range c2 0xA8 0xA9
            then rev cur :: split_lines [] t2
            else split_lines (c :: cur) t
        | _ => split_lines (c :: cur) t
        end
      else split_lines (c :: cur) t
  end.

Definition splitlines (s : string) : list string :=
  map string_of_list_byte (split_lines [] (list_byte_of_string s)).

(** [line.endswith(suffix)] *)
Definition endswith (line suffix : string) : bool :=
  let l := list_byte_of_string line in
  let x := list_byte_of_string suffix in
  bytes_eqb (skipn (length l - length x) l) x.

(** The part of a line before its first tab. *)
Fixpoint before_tab (line : list byte) : list byte :=
  match line with
  | [] => []
  | c :: t => if bool_decide (c = Byte.x09) then [] else c :: before_tab t
  end.

(** [line.split("\t")[0]] *)
Definition split_tab_0 (line : string) : string :=
  string_of_list_byte (before_tab (list_byte_of_string line)).

(** A tab, then "device". *)
Definition tab_device : string := String (ascii_of_nat 9) "device".

(** [list_adb_devices] (line 121).  As in [open_client_stream], a connection
    lost while writing shows as a short read. *)
Definition list_adb_devices {S} (e : env) : M S (list string) :=
  _ ← emit HostConnect;
  match host e with
  | None => throw ConnectionError
  | Some rd =>
      let cmd := b "host:devices" in
      _ ← emit (HostWrite (format_04x (Z.of_nat (length cmd)) ++ cmd));
      '(status, rd1) ← lift (readexactly 4 rd);
      if negb (bytes_eqb status (b "OKAY"))
      then throw (PyException "Failed")
      else
        '(len_str, rd2) ← lift (readexactly 4 rd1);
        n ← lift (py_int16 len_str);
        '(data, _) ← lift (readexactly n rd2);
        _ ← emit HostClose;
        text ← lift (decode data);
        mret (map split_tab_0
                (List.filter (fun line => endswith line tab_device)
                   (splitlines text)))
  end.

(** *** The listing the host ADB server sends *)

(** One line of the answer to [host:devices]: serial, tab, state, line
    feed. *)
Definition device_line (entry : string * string) : list byte :=
  encode entry.1 ++ [Byte.x09] ++ encode entry.2 ++ [Byte.x0a].

Definition listing (entries : list (string * string)) : list byte :=
  concat (map device_line entries).

(** A string of printable ASCII characters (space to tilde). *)
Definition printable (s : string) : bool :=
  forallb (fun c => in_range c 0x20 0x7E) (list_byte_of_string s).

(** An environment whose host ADB server answers [host:devices] with the
    listing of [entries]. *)
Definition env_listing (entries : list (string * string)) : env :=
  Env true true
    (Some (b "OKAY" ++ format_04x (Z.of_nat (length (listing entries)))
           ++ listing entries)).

(** A byte that stays inside its line: ASCII, and no line boundary. *)
Definition inline (c : byte) : bool :=
  in_range c 0x00 0x7F && negb (is_break c).

(** Neither a tab nor a one-byte line boundary. *)
Definition id_byte (c : byte) : bool :=
  negb (bool_decide (c = Byte.x09)) && negb (is_break c).


(** ** ScrcpyTcpProxy: the raw tunnel to the scrcpy server *)

Module ScrcpyTcpProxy.

(** The connections a tunnel works on. *)
Inductive socket :=
| Client   (* the connection accepted from the scrcpy client *)
| Adb      (* the connection [handle_scrcpy_connection] opens to the host ADB server *)
| Shell    (* the connection [ensure_scrcpy_server_running] opens, on which
              the shell of the scrcpy server runs *).

Definition socket_eqb (k k' : socket) : bool :=
  match k, k' with
  | Client, Client | Adb, Adb | Shell, Shell => true
  | _, _ => false
  end.

(** What the tunnel does to its connections and tasks. *)
Inductive io :=
| Connect (k : socket)                (* asyncio.open_connection( *adb_addr ) *)
| Write (k : socket) (x : list byte)  (* writer.write(x) *)
| Close (k : socket)                  (* writer.close() *)
| Sleep (ms : Z)                      (* asyncio.sleep, in milliseconds *)
| KeepAlive                           (* asyncio.create_task(self._keep_server_alive(...)) *).

(** The object; [adb_addr], [scrcpy_port] and [connections] are set by
    [__init__] (line 207) and never read. *)
Record t := Tunnel {
  device_id : string;
  server_started : bool
}.

Definition set_server_started (v : bool) (p : t) : t := Tunnel (device_id p) v.

(** [__init__] (line 207) *)
Definition init (device_id : string) : t := Tunnel device_id false.

(** What the environment decides on one connection to the host ADB server
    during its two requests: whether [open_connection] returns, and what
    each [readexactly(4)] gives ([None] when it raises: the stream ended
    or the connection was lost, while writing or while reading). *)
Record conn := Conn {
  connects : bool;
  transport_status : option (list byte);
  service_status : option (list byte)
}.

(** A request of the host protocol: four hexadecimal digits of length,
    then the text. *)
Definition request_bytes (cmd : string) : list byte :=
  format_04x (Z.of_nat (length (encode cmd))) ++ encode cmd.

Definition request (k : socket) (cmd : string) : io :=
  Write k (request_bytes cmd).

Definition server_cmd : string :=
  "shell:CLASSPATH=/data/local/tmp/scrcpy-server.jar app_process / com.genymobile.scrcpy.Server 3.3.1 tunnel_forward=true log_level=info".

(** [ensure_scrcpy_server_running] (line 214) run from its call to its
    return with no other task in between; an exception inside it is logged
    and swallowed.  The call has awaits between its test of
    [server_started] (line 216) and its set (line 257): [ensure_step]
    below gives it from one suspension to the next, for calls that
    overlap. *)
Definition ensure_scrcpy_server_running (c : conn) (p : t) : t * list io :=
  if server_started p then (p, [])
  else if negb (connects c) then (p, [Connect Shell])
  else
    let es1 := [Connect Shell;
                request Shell ("host:transport:" ++ device_id p)] in
    match transport_status c with
    | None => (p, es1)
    | Some status =>
        if negb (bytes_eqb status (b "OKAY")) then (p, es1 ++ [Close Shell])
        else
          let es2 := es1 ++ [request Shell server_cmd] in
          match service_status c with
          | None => (p, es2)
          | Some status =>
              if negb (bytes_eqb status (b "OKAY"))
              then (p, es2 ++ [Close Shell])
              else (set_server_started true p, es2 ++ [Sleep 2000; KeepAlive])
          end
    end.

(** Where a call of [ensure_scrcpy_server_running] is suspended. *)
Inductive call :=
| Entered      (* called, not yet run *)
| Connecting   (* in open_connection, line 223 *)
| AtTransport  (* in drain() or readexactly(4) after the transport request,
                  lines 229-231 *)
| AtService    (* the same after the shell command, lines 241-243 *)
| Waiting      (* in asyncio.sleep(2), line 252 *)
| Left         (* returned *).

(** One call from one suspension to the next, on the object as the other
    tasks have left it: the flag is read on entry only, and written after
    the wait. *)
Definition ensure_step (c : conn) (k : call) (p : t) : t * list io * call :=
  match k with
  | Entered =>
      if server_started p then (p, [], Left)
      else (p, [Connect Shell], Connecting)
  | Connecting =>
      if negb (connects c) then (p, [], Left)
      else (p, [request Shell ("host:transport:" ++ device_id p)], AtTransport)
  | AtTransport =>
      match transport_status c with
      | None => (p, [], Left)
      | Some status =>
          if negb (bytes_eqb status (b "OKAY")) then (p, [Close Shell], Left)
          else (p, [request Shell server_cmd], AtService)
      end
  | AtService =>
      match service_status c with
      | None => (p, [], Left)
      | Some status =>
          if negb (bytes_eqb status (b "OKAY")) then (p, [Close Shell], Left)
          else (p, [Sleep 2000], Waiting)
      end
  | Waiting => (set_server_started true p, [KeepAlive], Left)
  | Left => (p, [], Left)
  end.

(** [n] steps of one call. *)
Fixpoint ensure_steps (n : nat) (c : conn) (k : call) (p : t)
  : t * list io * call :=
  match n with
  | O => (p, [], k)
  | S n' =>
      let '(p1, es1, k1) := ensure_step c k p in
      let '(p2, es2, k2) := ensure_steps n' c k1 p1 in
      (p2, es1 ++ es2, k2)
  end.

(** Two calls on one object, as two tunnel connections make them: the
    first runs [j] steps, the second is then made and runs to its end,
    and the first goes on to its end. *)
Definition overlapping (j : nat) (c1 c2 : conn) (p : t) : t * list io :=
  let '(p1, es1, k1) := ensure_steps j c1 Entered p in
  let '(p2, es2, _) := ensure_steps 5 c2 Entered p1 in
  let '(p3, es3, _) := ensure_steps 5 c1 k1 p2 in
  (p3, es1 ++ es2 ++ es3).

(** How often the server is started: the keep-alive tasks created. *)
Fixpoint starts (es : list io) : nat :=
  match es with
  | [] => 0
  | KeepAlive :: es' => S (starts es')
  | _ :: es' => starts es'
  end.

(** What one [wait_for(adb_reader.read(1024), timeout=1.0)] gives. *)
Inductive alive_read :=
| Timeout
| Output (data : list byte)
| Lost.

(** [_keep_server_alive] (line 263) over the reads it makes; the last
    component tells whether the task is over.  [p] is the object as the
    end of the task finds it. *)
Fixpoint keep_server_alive (reads : list alive_read) (p : t)
  : t * list io * bool :=
  match reads with
  | [] => (p, [], false)
  | Timeout :: reads' => keep_server_alive reads' p
  | Output data :: reads' =>
      if bool_decide (data = [])
      then (set_server_started false p, [Close Shell], true)
      else keep_server_alive reads' p
  | Lost :: _ => (set_server_started false p, [Close Shell], true)
  end.

(** A read that ends the shell session: the end of the stream, or an
    error. *)
Definition session_end (r : alive_read) : bool :=
  match r with
  | Timeout => false
  | Output data => bool_decide (data = [])
  | Lost => true
  end.

(** [forward_data] (line 333) over the reads of its source: each comes
    with whether the [drain()] after its write returns.  A source whose
    reads are used up is at its end.  Whatever ends the loop, [finally]
    closes the destination, and nothing is raised. *)
Fixpoint forward_data (dst : socket)
    (reads : list (ProxyChannel.read_result * bool)) : list io :=
  match reads with
  | [] => [Close dst]
  | (ProxyChannel.ReadError, _) :: _ => [Close dst]
  | (ProxyChannel.ReadBytes data, drained) :: reads' =>
      if bool_decide (data = []) then [Close dst]
      else Write dst data
             :: (if drained : bool then forward_data dst reads' else [Close dst])
  end.

(** What the environment decides during one tunnel connection. *)
Record session := Session {
  shell : conn;   (* for the connection of [ensure_scrcpy_server_running] *)
  adb : conn;     (* for the connection of the tunnel *)
  up : list (ProxyChannel.read_result * bool);    (* reads from the client *)
  down : list (ProxyChannel.read_result * bool)   (* reads from the device *)
}.

(** The [finally] block of lines 364-373; [opened] tells whether
    [adb_writer] is set. *)
Definition cleanup (opened : bool) : list io :=
  Close Client :: (if opened then [Close Adb] else []).

(** [handle_scrcpy_connection] (line 287).  The two forwarders of
    [gather] run interleaved; they write on different connections, and
    the events of the client-to-device one are listed first. *)
Definition handle_scrcpy_connection (e : session) (p : t) : t * list io :=
  let '(p1, es0) := ensure_scrcpy_server_running (shell e) p in
  if negb (connects (adb e))
  then (p1, es0 ++ [Connect Adb] ++ cleanup false)
  else
    let es1 := es0 ++ [Connect Adb;
                       request Adb ("host:transport:" ++ device_id p1)] in
    match transport_status (adb e) with
    | None => (p1, es1 ++ cleanup true)
    | Some status =>
        if negb (bytes_eqb status (b "OKAY")) then (p1, es1 ++ cleanup true)
        else
          let es2 := es1 ++ [request Adb "localabstract:scrcpy"] in
          match service_status (adb e) with
          | None => (p1, es2 ++ cleanup true)
          | Some status =>
              if negb (bytes_eqb status (b "OKAY"))
              then (p1, es2 ++ cleanup true)
              else (p1, es2 ++ forward_data Adb (up e)
                          ++ forward_data Client (down e) ++ cleanup true)
          end
    end.

(** The bytes written on a connection, in order. *)
Fixpoint written (k : socket) (es : list io) : list byte :=
  match es with
  | [] => []
  | Write k' x :: es' =>
      (if socket_eqb k' k then x else []) ++ written k es'
  | _ :: es' => written k es'
  end.

(** How often a connection is closed. *)
Fixpoint closes (k : socket) (es : list io) : nat :=
  match es with
  | [] => 0
  | Close k' :: es' => (if socket_eqb k' k then 1 else 0) + closes k es'
  | _ :: es' => closes k es'
  end.

(** The bytes of a read. *)
Definition read_bytes (r : ProxyChannel.read_result * bool) : list byte :=
  match r.1 with
  | ProxyChannel.ReadBytes data => data
  | ProxyChannel.ReadError => []
  end.

(** A read that delivers data which is then written and drained. *)
Definition delivered (r : ProxyChannel.read_result * bool) : bool :=
  match r with
  | (ProxyChannel.ReadBytes data, true) => negb (bool_decide (data = []))
  | _ => false
  end.

(** Both requests of a connection are acknowledged. *)
Definition acknowledged (c : conn) : bool :=
  connects c
  && match transport_status c, service_status c with
     | Some s1, Some s2 => bytes_eqb s1 (b "OKAY") && bytes_eqb s2 (b "OKAY")
     | _, _ => false
     end.

End ScrcpyTcpProxy.

(** ** main: the servers it starts *)

(** A call of [asyncio.start_server] on a port. *)
Inductive server :=
| AdbServer (device_id : string) (port : Z)
| ScrcpyServer (device_id : string) (port : Z).

Definition port (sv : server) : Z :=
  match sv with AdbServer _ p | ScrcpyServer _ p => p end.



(** ** Definitions for the further properties *)

(** What [int(x, 16)] looks at in a byte, for a digit [format_04x] writes. *)
Definition digit_facts (d : Z) : bool :=
  let c := hex_digit d in
  negb (is_space c) && negb (in_range c 0x2B 0x2B) && negb (in_range c 0x2D 0x2D)
  && negb (in_range c 0x78 0x78) && negb (in_range c 0x58 0x58)
  && negb (in_range c 0x5F 0x5F)
  && match hex_value c with Some v => v =? d | None => false end.


(** What the main task inside [run] and the pump tasks may emit: on the
    peer link whole frames only, and never its close. *)
Definition orderly (ev : event) : bool :=
  match ev with
  | PeerWrite _ => match sent_frame ev with Some _ => true | None => false end
  | PeerClose => false
  | _ => true
  end.

Definition is_peer_close (ev : event) : bool :=
  match ev with PeerClose => true | _ => false end.

(** How often the peer link has been closed. *)
Definition peer_closes (es : list event) : Z := count is_peer_close es.

(** The handler has returned. *)
Definition returned (k : main) : bool :=
  match k with Returned => true | _ => false end.



(** * Properties *)

(** ** Frame codec *)

Section CodecFacts.

Lemma lxor_u32 a c :
  0 <= a < 2 ^ 32 -> 0 <= c < 2 ^ 32 -> 0 <= Z.lxor a c < 2 ^ 32.
Proof.
  intros Ha Hc. split.
  - apply Z.lxor_nonneg. lia.
  - destruct (Z.eq_dec (Z.lxor a c) 0) as [->|Hne]; [lia|].
    assert (Hpos : 0 <= Z.lxor a c) by (apply Z.lxor_nonneg; lia).
    apply Z.log2_lt_pow2; [lia|].
    assert (Hla : Z.log2 a < 32).
    { destruct (Z.eq_dec a 0) as [->|]; [simpl; lia|].
      apply Z.log2_lt_pow2; lia. }
    assert (Hlc : Z.log2 c < 32).
    { destruct (Z.eq_dec c 0) as [->|]; [simpl; lia|].
      apply Z.log2_lt_pow2; lia. }
    pose proof (Z.log2_lxor a c ltac:(lia) ltac:(lia)). lia.
Qed.

Lemma crc32_bit_range c : 0 <= c < 2 ^ 32 -> 0 <= crc32_bit c < 2 ^ 32.
Proof.
  intros Hc. unfold crc32_bit.
  assert (Hs : 0 <= Z.shiftr c 1 < 2 ^ 32).
  { rewrite Z.shiftr_div_pow2 by lia. change (2 ^ 1) with 2.
    split; [apply Z.div_pos; lia|].
    apply Z.div_lt_upper_bound; lia. }
  destruct (Z.testbit c 0); [|exact Hs].
  apply lxor_u32; [exact Hs|lia].
Qed.

Lemma crc32_byte_range c x : 0 <= c < 2 ^ 32 -> 0 <= crc32_byte c x < 2 ^ 32.
Proof.
  intros Hc. unfold crc32_byte.
  assert (H0 : 0 <= Z.lxor c (byte.unsigned x) < 2 ^ 32).
  { apply lxor_u32; [exact Hc|].
    pose proof (byte.unsigned_range x). lia. }
  generalize dependent (Z.lxor c (byte.unsigned x)). intros z Hz.
  do 8 (apply crc32_bit_range in Hz). exact Hz.
Qed.

Lemma crc32_fold_range data c :
  0 <= c < 2 ^ 32 -> 0 <= fold_left crc32_byte data c < 2 ^ 32.
Proof.
  revert c. induction data as [|x data IH]; intros c Hc; simpl; [exact Hc|].
  apply IH, crc32_byte_range, Hc.
Qed.

Lemma crc32_in_u32 data : in_u32 (crc32 data) = true.
Proof.
  unfold crc32, in_u32, u32_max.
  pose proof (crc32_fold_range data 0xFFFFFFFF ltac:(lia)) as Hf.
  pose proof (lxor_u32 _ 0xFFFFFFFF Hf ltac:(lia)). 
  apply andb_true_iff. split; [apply Z.leb_le|apply Z.leb_le]; lia.
Qed.

Lemma in_u32_spec v : in_u32 v = true <-> 0 <= v < 2 ^ 32.
Proof.
  unfold in_u32, u32_max. rewrite andb_true_iff, !Z.leb_le. lia.
Qed.

Lemma le_combine_u32 x : length x = 4%nat -> in_u32 (le_combine x) = true.
Proof.
  intros Hx. apply in_u32_spec.
  pose proof (le_combine_bound x) as Hb. rewrite Hx in Hb. exact Hb.
Qed.

Lemma lxor_u32_max_involutive v :
  Z.lxor (Z.lxor v u32_max) u32_max = v.
Proof. rewrite Z.lxor_assoc, Z.lxor_nilpotent, Z.lxor_0_r. reflexivity. Qed.

Lemma le_split4_combine v :
  in_u32 v = true -> le_combine (le_split 4 v) = v.
Proof.
  intros Hv. apply in_u32_spec in Hv.
  rewrite le_combine_split. apply Z.mod_small. exact Hv.
Qed.

(** What [frame_bytes] returns when it returns. *)
Lemma frame_bytes_inv cmd arg0 arg1 data wire :
  frame_bytes cmd arg0 arg1 data = Ok wire ->
  length cmd = 4%nat /\ in_u32 arg0 = true /\ in_u32 arg1 = true /\
  in_u32 (Z.of_nat (length data)) = true /\
  wire = le_split 4 (le_combine cmd) ++ le_split 4 arg0 ++ le_split 4 arg1 ++
         le_split 4 (Z.of_nat (length data)) ++ le_split 4 (crc32 data) ++
         le_split 4 (Z.lxor (le_combine cmd) u32_max) ++ data.
Proof.
  unfold frame_bytes, unpack_u32. cbn [mbind res_bind].
  destruct (length cmd =? 4)%nat eqn:Hl; [|discriminate].
  apply Nat.eqb_eq in Hl.
  cbn [pack_u32s mbind res_bind]. unfold pack_u32.
  destruct (in_u32 (le_combine cmd)); [|discriminate].
  destruct (in_u32 arg0); [|discriminate].
  destruct (in_u32 arg1); [|discriminate].
  destruct (in_u32 (Z.of_nat (length data))); [|discriminate].
  destruct (in_u32 (crc32 data)); [|discriminate].
  destruct (in_u32 (Z.lxor (le_combine cmd) u32_max)); [|discriminate].
  intros [= <-]. split; [exact Hl|]. do 3 (split; [reflexivity|]).
  rewrite <- ?app_assoc, ?app_nil_r. reflexivity.
Qed.

Lemma frame_bytes_ok cmd arg0 arg1 data :
  length cmd = 4%nat -> in_u32 arg0 = true -> in_u32 arg1 = true ->
  in_u32 (Z.of_nat (length data)) = true ->
  exists wire, frame_bytes cmd arg0 arg1 data = Ok wire.
Proof.
  intros Hl H0 H1 Hd.
  unfold frame_bytes, unpack_u32. cbn [mbind res_bind].
  rewrite (proj2 (Nat.eqb_eq _ _) Hl).
  cbn [pack_u32s mbind res_bind]. unfold pack_u32.
  rewrite (le_combine_u32 cmd Hl), H0, H1, Hd, crc32_in_u32.
  assert (Hm : in_u32 (Z.lxor (le_combine cmd) u32_max) = true).
  { apply in_u32_spec. apply lxor_u32.
    - apply in_u32_spec, le_combine_u32, Hl.
    - unfold u32_max. lia. }
  rewrite Hm. eexists. reflexivity.
Qed.

(** Decoding what [frame_bytes] produced gives the frame back, and leaves
    what follows it on the stream. *)
Lemma recv_frame_bytes cmd arg0 arg1 data wire rest :
  frame_bytes cmd arg0 arg1 data = Ok wire ->
  recv_cmd (wire ++ rest) = Ok (Message cmd arg0 arg1 data, rest).
Proof.
  intros Hw. apply frame_bytes_inv in Hw as (Hl & H0 & H1 & Hd & ->).
  pose proof (split_le_combine' cmd 4%nat Hl) as Hcmd.
  set (id := le_combine cmd) in *.
  assert (Hid : in_u32 id = true) by (apply le_combine_u32, Hl).
  assert (Hm : in_u32 (Z.lxor id u32_max) = true).
  { apply in_u32_spec. apply lxor_u32.
    - apply in_u32_spec, Hid.
    - unfold u32_max. lia. }
  pose proof (le_split4_combine id Hid) as E0.
  pose proof (le_split4_combine arg0 H0) as E1.
  pose proof (le_split4_combine arg1 H1) as E2.
  pose proof (le_split4_combine _ Hd) as E3.
  pose proof (le_split4_combine _ Hm) as E5.
  revert Hcmd E0 E1 E2 E3 E5.
  generalize (crc32 data). intros crc.
  cbv [le_split]. intros Hcmd E0 E1 E2 E3 E5.
  unfold recv_cmd, readexactly.
  change (Z.to_nat 24) with 24%nat.
  cbn [Z.ltb Z.compare Z.to_nat Pos.to_nat Pos.iter_op Nat.add app length
       Nat.leb firstn skipn mbind res_bind Nat.mul].
  rewrite ?firstn_O, ?skipn_O.
  rewrite E0, E1, E2, E3, E5, lxor_u32_max_involutive, Z.eqb_refl.
  cbn [negb].
  destruct (Z.ltb_spec (Z.of_nat (length data)) 0) as [Hneg|_]; [lia|].
  rewrite Nat2Z.id, length_app.
  destruct (Nat.leb_spec (length data) (length data + length rest)) as [_|Hlt];
    [|lia].
  rewrite firstn_app, Nat.sub_diag, firstn_all, firstn_O, app_nil_r.
  rewrite skipn_app, Nat.sub_diag, skipn_all, skipn_O.
  cbn [app mbind res_bind]. rewrite Hcmd. reflexivity.
Qed.

End CodecFacts.

Example crc32_check : crc32 (b "123456789") = 0xCBF43926.
Proof. vm_compute. reflexivity. Qed.

(** C7. Decoding the bytes [send_cmd] writes for a 4-byte command tag, two
    u32 arguments and a payload of at most [MAX_PAYLOAD] (262144) bytes
    yields exactly the original tag, arguments and payload, and leaves the
    rest of the stream untouched: encode-then-decode is the identity. *)
Theorem encode_decode_identity cmd arg0 arg1 data rest :
  length cmd = 4%nat ->
  0 <= arg0 < 2 ^ 32 ->
  0 <= arg1 < 2 ^ 32 ->
  Z.of_nat (length data) <= MAX_PAYLOAD ->
  exists wire,
    frame_bytes cmd arg0 arg1 data = Ok wire /\
    recv_cmd (wire ++ rest) = Ok (Message cmd arg0 arg1 data, rest).
Proof.
  intros Hl H0 H1 Hd.
  destruct (frame_bytes_ok cmd arg0 arg1 data) as [wire Hw]; try assumption.
  - apply in_u32_spec, H0.
  - apply in_u32_spec, H1.
  - apply in_u32_spec. change MAX_PAYLOAD with 262144 in Hd. lia.
  - exists wire. split; [exact Hw|]. apply recv_frame_bytes, Hw.
Qed.

Lemma encode_decode_identity_witness :
  exists wire,
    frame_bytes (b "WRTE") 1 7 (b "hi") = Ok wire /\
    recv_cmd (wire ++ b "next") = Ok (Message (b "WRTE") 1 7 (b "hi"), b "next").
Proof.
  apply (encode_decode_identity (b "WRTE") 1 7 (b "hi") (b "next")).
  - reflexivity.
  - lia.
  - lia.
  - vm_compute. discriminate.
Defined.

(** ** Running the monad *)

Ltac run_M :=
  cbv [mbind mret M_bind M_ret emit throw lift gets modify try_except
       on_proxy AdbDeviceProxy.on_channel negb].

(** Projections of updated records. *)
Ltac proj_simpl :=
  cbn [proxy reader main_task set_proxy set_reader set_main_task
       AdbDeviceProxy.device_id AdbDeviceProxy.protocol_version
       AdbDeviceProxy.max_data_len AdbDeviceProxy.device_name
       AdbDeviceProxy.streams AdbDeviceProxy.next_remote_id
       AdbDeviceProxy.set_streams AdbDeviceProxy.set_next_remote_id
       ProxyChannel.name ProxyChannel.local_id ProxyChannel.remote_id
       ProxyChannel.closed ProxyChannel.ready_to_send ProxyChannel.sink_task
       ProxyChannel.set_closed ProxyChannel.set_ready_to_send
       ProxyChannel.set_sink_task ProxyChannel.release ProxyChannel.ready
       fst snd app] in *.

Ltac run := repeat (progress (run_M; proj_simpl)).

Lemma bytes_eqb_false x y : x <> y -> bytes_eqb x y = false.
Proof. intros H. unfold bytes_eqb. apply bool_decide_eq_false. exact H. Qed.

Lemma bytes_eqb_true x y : x = y -> bytes_eqb x y = true.
Proof. intros H. unfold bytes_eqb. apply bool_decide_eq_true. exact H. Qed.

Lemma le_combine_take4_u32 l : in_u32 (le_combine (firstn 4 l)) = true.
Proof.
  apply in_u32_spec.
  pose proof (le_combine_bound (firstn 4 l)) as Hb.
  assert (Hlen : (length (firstn 4 l) <= 4)%nat) by (rewrite length_firstn; lia).
  assert (2 ^ (8 * Z.of_nat (length (firstn 4 l))) <= 2 ^ 32)
    by (apply Z.pow_le_mono_r; lia).
  lia.
Qed.

(** What [recv_cmd] returns when it returns: a 4-byte tag and u32 arguments. *)
Lemma recv_cmd_inv rd m rest :
  recv_cmd rd = Ok (m, rest) ->
  length (m_cmd m) = 4%nat /\ in_u32 (m_arg0 m) = true /\
  in_u32 (m_arg1 m) = true.
Proof.
  unfold recv_cmd, readexactly. change (24 <? 0) with false. cbv iota.
  change (Z.to_nat 24) with 24%nat.
  destruct (Nat.leb_spec 24 (length rd)) as [Hlen|]; [|discriminate].
  cbn [mbind res_bind].
  destruct (negb _); [discriminate|].
  destruct (_ <? 0); [discriminate|].
  destruct (_ <=? _)%nat; [|discriminate].
  cbn [mbind res_bind]. intros [= <- <-]. cbn [m_cmd m_arg0 m_arg1].
  split; [|split].
  - rewrite !length_firstn. lia.
  - apply le_combine_take4_u32.
  - apply le_combine_take4_u32.
Qed.

Lemma send_cmd_run {S} e cmd arg0 arg1 data (s : S) :
  send_cmd e cmd arg0 arg1 data s =
  match frame_bytes cmd arg0 arg1 data with
  | Ok wire =>
      (s, [PeerWrite wire], if peer_ok e then Ok tt else Raise ConnectionError)
  | Raise x => (s, [], Raise x)
  end.
Proof.
  unfold send_cmd. run_M.
  destruct (frame_bytes cmd arg0 arg1 data); [|reflexivity].
  destruct (peer_ok e); reflexivity.
Qed.

Lemma sent_frame_bytes cmd arg0 arg1 data wire :
  frame_bytes cmd arg0 arg1 data = Ok wire ->
  sent_frame (PeerWrite wire) = Some (Message cmd arg0 arg1 data).
Proof.
  intros Hw. unfold sent_frame.
  rewrite <- (app_nil_r wire), (recv_frame_bytes _ _ _ _ _ [] Hw).
  reflexivity.
Qed.

(** ** The dispatch loop *)

(** C10. In the dispatch loop, an inbound frame with a well-formed header
    whose command tag is none of OPEN, WRTE, OKAY, CLSE (a second CNXN
    included) is ignored: the turn emits nothing beyond the receive itself,
    raises nothing (the loop goes on), and leaves the proxy, with its
    stream table and [next_remote_id], as it was. *)
Theorem unknown_command_ignored e w m rest :
  main_task w = Loop ->
  recv_cmd (reader w) = Ok (m, rest) ->
  m_cmd m <> b "OPEN" -> m_cmd m <> b "WRTE" ->
  m_cmd m <> b "OKAY" -> m_cmd m <> b "CLSE" ->
  handle_connection e w = (World (proxy w) rest Loop, [PeerRecv m]).
Proof.
  intros Hmain Hrecv Hopen Hwrte Hokay Hclse.
  unfold handle_connection. rewrite Hmain.
  unfold run_loop, proxy_recv_cmd. run_M. rewrite Hrecv.
  unfold AdbDeviceProxy.dispatch.
  rewrite !bytes_eqb_false by assumption. run_M.
  reflexivity.
Qed.

Lemma read_failure_state {S} rd (s : S) :
  read_failure rd s =
  (s, (read_failure rd tt).1.2, (read_failure rd tt).2).
Proof.
  unfold read_failure. run_M.
  destruct (readexactly 4 rd) as [[len_b rd1]|]; [|reflexivity].
  destruct (py_int16 len_b) as [n|]; [|reflexivity].
  destruct (readexactly n rd1) as [[err rd2]|]; [|reflexivity].
  destruct (decode err); reflexivity.
Qed.

Lemma request_loop_state {S} destination cmds rd (s : S) :
  request_loop destination cmds rd s =
  (s, (request_loop destination cmds rd tt).1.2,
      (request_loop destination cmds rd tt).2).
Proof.
  revert rd. induction cmds as [|cmd cmds IH]; intros rd; [reflexivity|].
  cbn [request_loop]. run_M.
  destruct (readexactly 4 rd) as [[status rd1]|]; [|reflexivity].
  destruct (bytes_eqb status (b "OKAY")).
  - rewrite (IH rd1).
    destruct (request_loop destination cmds rd1 tt) as [[[] es] r].
    reflexivity.
  - rewrite (read_failure_state rd1 s).
    destruct (read_failure rd1 tt) as [[[] es] [a|x]]; reflexivity.
Qed.

(** [open_client_stream] does not touch the caller's object. *)
Lemma open_client_stream_state {S} e dev destination (s : S) :
  open_client_stream e dev destination s =
  (s, (open_client_stream e dev destination tt).1.2,
      (open_client_stream e dev destination tt).2).
Proof.
  unfold open_client_stream. run_M.
  destruct (host e) as [rd|]; [|reflexivity].
  rewrite (request_loop_state _ _ rd s).
  destruct (request_loop _ _ rd tt) as [[[] es] r]. reflexivity.
Qed.

(** C9 (as amended). An OPEN frame with peer id [a0 = m_arg0 m] whose
    outbound service connection fails: the proxy writes CLSE(a0, 0) on the
    peer link (the peer's id first, zero second), leaves the stream table
    unchanged and advances [next_remote_id] by one; it stays in its
    dispatch loop when that write succeeds, and terminates, closing the
    peer link, when the write raises. *)
Theorem open_failure_rejected e w m rest destination es x :
  main_task w = Loop ->
  recv_cmd (reader w) = Ok (m, rest) ->
  m_cmd m = b "OPEN" ->
  decode (rstrip_nul (m_data m)) = Ok destination ->
  open_client_stream e (AdbDeviceProxy.device_id (proxy w)) destination tt
    = (tt, es, Raise x) ->
  exists wire w',
    handle_connection e w
      = (w', [PeerRecv m] ++ es ++ [PeerWrite wire]
               ++ (if peer_ok e then [] else [PeerClose])) /\
    sent_frame (PeerWrite wire) = Some (Message (b "CLSE") (m_arg0 m) 0 []) /\
    AdbDeviceProxy.streams (proxy w') = AdbDeviceProxy.streams (proxy w) /\
    AdbDeviceProxy.next_remote_id (proxy w')
      = AdbDeviceProxy.next_remote_id (proxy w) + 1 /\
    main_task w' = (if peer_ok e then Loop else Returned).
Proof.
  intros Hmain Hrecv Hcmd Hdec Hopen.
  destruct (recv_cmd_inv _ _ _ Hrecv) as (_ & Ha0 & _).
  destruct (frame_bytes_ok (b "CLSE") (m_arg0 m) 0 []) as [wire Hw];
    [reflexivity|exact Ha0|reflexivity|reflexivity|].
  exists wire.
  exists (World (AdbDeviceProxy.set_next_remote_id
                   (AdbDeviceProxy.next_remote_id (proxy w) + 1) (proxy w))
                rest (if peer_ok e then Loop else Returned)).
  split; [|split; [apply sent_frame_bytes, Hw|]].
  - unfold handle_connection. rewrite Hmain.
    unfold run_loop, proxy_recv_cmd. run_M. rewrite Hrecv.
    unfold AdbDeviceProxy.dispatch.
    rewrite (bytes_eqb_true _ _ Hcmd). run_M. rewrite Hdec.
    rewrite open_client_stream_state. proj_simpl.
    rewrite Hopen. proj_simpl.
    rewrite send_cmd_run, Hw.
    destruct (peer_ok e); [reflexivity|].
    cbn [app]. rewrite <- !app_assoc. reflexivity.
  - proj_simpl. auto.
Qed.

(** ** ProxyChannel *)

Lemma sending_run {S} e cmd arg0 arg1 data (s : S) :
  send_cmd e cmd arg0 arg1 data s =
  (s, (sending e cmd arg0 arg1 data).1, (sending e cmd arg0 arg1 data).2).
Proof.
  rewrite send_cmd_run. unfold sending.
  destruct (frame_bytes cmd arg0 arg1 data); reflexivity.
Qed.

Lemma close_run e c :
  ProxyChannel.close e c =
  if ProxyChannel.closed c then (c, [], Ok tt)
  else
    (closed_channel c,
     closing_events c ++
       (sending e (b "CLSE") (ProxyChannel.remote_id c)
          (ProxyChannel.local_id c) []).1,
     (sending e (b "CLSE") (ProxyChannel.remote_id c)
        (ProxyChannel.local_id c) []).2).
Proof.
  unfold ProxyChannel.close, closed_channel, closing_events.
  destruct c as [nm lid rid cl v k].
  destruct cl; [reflexivity|].
  destruct (ProxyChannel.done k) eqn:Hk; destruct (dev_ok e) eqn:Hd;
    run; rewrite ?Hk, ?Hd; run;
    rewrite sending_run; cbn [app]; reflexivity.
Qed.

(** C5 (as amended). [close] is idempotent: on a closed channel it changes
    nothing, emits nothing and returns.  On an open channel it sets
    [closed], releases one unit of the semaphore, cancels the pump task
    unless it is done, closes the outbound writer, and writes
    CLSE(remote_id, local_id) on the peer link.  An error of the outbound
    close is swallowed (the outcome does not depend on it); an error of the
    CLSE send is not: [close] raises it, after the channel is marked closed. *)
Theorem close_spec e c :
  (ProxyChannel.closed c = true -> ProxyChannel.close e c = (c, [], Ok tt)) /\
  (ProxyChannel.closed c = false ->
   exists sent r,
     ProxyChannel.close e c = (closed_channel c, closing_events c ++ sent, r) /\
     ProxyChannel.close e (closed_channel c) = (closed_channel c, [], Ok tt) /\
     match frame_bytes (b "CLSE") (ProxyChannel.remote_id c)
             (ProxyChannel.local_id c) [] with
     | Ok wire =>
         sent = [PeerWrite wire] /\
         r = (if peer_ok e then Ok tt else Raise ConnectionError)
     | Raise x => sent = [] /\ r = Raise x
     end).
Proof.
  split; intros Hc.
  - rewrite close_run, Hc. reflexivity.
  - rewrite !close_run, Hc. cbn [closed_channel ProxyChannel.closed].
    unfold sending.
    destruct (frame_bytes _ _ _ _); eexists _, _; repeat split.
Qed.

Lemma close_spec_witness :
  ProxyChannel.close env_up (closed_channel sync_channel)
    = (closed_channel sync_channel, [], Ok tt) /\
  exists sent r,
    ProxyChannel.close env_peer_lost sync_channel
      = (closed_channel sync_channel, closing_events sync_channel ++ sent, r) /\
    r = Raise ConnectionError.
Proof.
  split.
  - apply (proj1 (close_spec env_up (closed_channel sync_channel))).
    reflexivity.
  - destruct (proj2 (close_spec env_peer_lost sync_channel) eq_refl)
      as (sent & r & H1 & _ & H3).
    exists sent, r. split; [exact H1|].
    vm_compute in H3. apply H3.
Defined.

(** C5, counterexample: on an open channel whose peer link is lost, [close]
    does not complete: it raises the error of the CLSE send. *)
Lemma close_raises_when_peer_lost :
  (ProxyChannel.close env_peer_lost sync_channel).2 = Raise ConnectionError.
Proof. vm_compute. reflexivity. Qed.

(** ** Facts about traces *)

Lemma count_app f es1 es2 : count f (es1 ++ es2) = count f es1 + count f es2.
Proof. induction es1 as [|ev es1 IH]; cbn [count app]; [lia|]. rewrite IH. lia. Qed.

Lemma count_nonneg f es : 0 <= count f es.
Proof. induction es as [|ev es IH]; cbn [count]; [lia|]. destruct (f ev); lia. Qed.

Lemma wrte_sent_app r es1 es2 :
  wrte_sent r (es1 ++ es2) = wrte_sent r es1 + wrte_sent r es2.
Proof. apply count_app. Qed.

Lemma okay_received_app r es1 es2 :
  okay_received r (es1 ++ es2) = okay_received r es1 + okay_received r es2.
Proof. apply count_app. Qed.

Lemma spawned_app es1 es2 : spawned (es1 ++ es2) = spawned es1 ++ spawned es2.
Proof.
  induction es1 as [|ev es1 IH]; [reflexivity|].
  destruct ev; cbn [spawned app]; rewrite ?IH; reflexivity.
Qed.

Lemma spawned_In r es : In r (spawned es) <-> In (SpawnSink r) es.
Proof.
  induction es as [|ev es IH]; [reflexivity|].
  destruct ev; cbn [spawned In]; rewrite IH;
    try (split; [auto|intros [H|H]; [discriminate|exact H]]).
  split; (intros [H|H]; [left; congruence|right; exact H]).
Qed.

Lemma is_wrte_frame r cmd arg0 arg1 data wire :
  frame_bytes cmd arg0 arg1 data = Ok wire ->
  is_wrte r (PeerWrite wire) = bytes_eqb cmd (b "WRTE") && (arg0 =? r).
Proof.
  intros Hw. unfold is_wrte. rewrite (sent_frame_bytes _ _ _ _ _ Hw).
  reflexivity.
Qed.

Lemma quiet_nil : quiet [].
Proof. split; [reflexivity|split; [intros r []|reflexivity]]. Qed.

Lemma quiet_app es1 es2 : quiet es1 -> quiet es2 -> quiet (es1 ++ es2).
Proof.
  intros (S1 & D1 & W1) (S2 & D2 & W2). split; [|split].
  - rewrite spawned_app, S1, S2. reflexivity.
  - intros r [H|H]%in_app_or; [exact (D1 r H)|exact (D2 r H)].
  - intros r. rewrite wrte_sent_app, W1, W2. reflexivity.
Qed.

Lemma quiet_cons ev es :
  quiet [ev] -> quiet es -> quiet (ev :: es).
Proof. apply (quiet_app [ev] es). Qed.

(** The events of [send_cmd] for a frame that is not a WRTE. *)
Lemma quiet_sending e cmd arg0 arg1 data :
  bytes_eqb cmd (b "WRTE") = false -> quiet (sending e cmd arg0 arg1 data).1.
Proof.
  intros Hcmd. unfold sending.
  destruct (frame_bytes cmd arg0 arg1 data) as [wire|] eqn:Hw;
    [|apply quiet_nil].
  split; [reflexivity|split].
  - intros r [H|[]]. discriminate.
  - intros r. unfold wrte_sent. cbn [fst count].
    rewrite (is_wrte_frame _ _ _ _ _ _ Hw), Hcmd. reflexivity.
Qed.

Ltac quiet_single :=
  split; [reflexivity|split; [intros ? [H|[]]; discriminate|reflexivity]].

Lemma quiet_PeerRecv m : quiet [PeerRecv m]. Proof. quiet_single. Qed.
Lemma quiet_PeerClose : quiet [PeerClose]. Proof. quiet_single. Qed.
Lemma quiet_HostConnect : quiet [HostConnect]. Proof. quiet_single. Qed.
Lemma quiet_HostWrite x : quiet [HostWrite x]. Proof. quiet_single. Qed.
Lemma quiet_HostClose : quiet [HostClose]. Proof. quiet_single. Qed.
Lemma quiet_CancelSink r : quiet [CancelSink r]. Proof. quiet_single. Qed.
Lemma quiet_DevWrite r x : quiet [DevWrite r x]. Proof. quiet_single. Qed.
Lemma quiet_Sleep ms : quiet [Sleep ms]. Proof. quiet_single. Qed.

Create HintDb quiet.
#[local] Hint Resolve quiet_nil quiet_app quiet_cons quiet_sending
  quiet_PeerRecv quiet_PeerClose quiet_HostConnect quiet_HostWrite
  quiet_HostClose quiet_CancelSink quiet_DevWrite quiet_Sleep : quiet.

(** Quiet events around those of a channel method change nothing to what
    the method is seen to do. *)
Lemma chan_step_quiet c c' es es1 es2 :
  chan_step c c' es -> quiet es1 -> quiet es2 ->
  chan_step c c' (es1 ++ es ++ es2).
Proof.
  intros [] (S1 & D1 & W1) (S2 & D2 & W2).
  assert (HW : forall r, wrte_sent r (es1 ++ es ++ es2) = wrte_sent r es).
  { intros r. rewrite !wrte_sent_app, W1, W2. lia. }
  split; try assumption.
  - rewrite !spawned_app, S1, S2, cs_spawned0. reflexivity.
  - intros r [H|[H|H]%in_app_or]%in_app_or;
      [destruct (D1 r H)|auto|destruct (D2 r H)].
  - intros Hc Hc'. destruct (cs_closing0 Hc Hc') as [Hin Hd].
    split; [|exact Hd]. apply in_or_app. right. apply in_or_app. left. exact Hin.
  - intros r Hr. rewrite HW. auto.
  - intros Hd. rewrite HW. auto.
  - intros Hr. rewrite HW. auto.
Qed.

Lemma chan_step_refl c : chan_step c c [].
Proof.
  split; try reflexivity; try tauto.
  - intros r [].
  - intros Hc Hc'. congruence.
  - intros Hr. cbn. destruct (ProxyChannel.closed c); unfold pending;
      destruct (ProxyChannel.sink_task c); lia.
Qed.

(** [close] as a channel step. *)
Lemma close_chan_step e c :
  chan_step c (ProxyChannel.close e c).1.1 (ProxyChannel.close e c).1.2.
Proof.
  rewrite close_run.
  destruct (ProxyChannel.closed c) eqn:Hc; cbn [fst snd];
    [apply chan_step_refl|].
  assert (Hq : quiet (sending e (b "CLSE") (ProxyChannel.remote_id c)
                        (ProxyChannel.local_id c) []).1)
    by (apply quiet_sending; reflexivity).
  destruct Hq as (S2 & D2 & W2).
  assert (HW : forall r, wrte_sent r (closing_events c ++
              (sending e (b "CLSE") (ProxyChannel.remote_id c)
                 (ProxyChannel.local_id c) []).1) = 0).
  { intros r. rewrite wrte_sent_app, W2. unfold closing_events.
    destruct (ProxyChannel.done _); reflexivity. }
  assert (Hd' : ProxyChannel.done (ProxyChannel.sink_task (closed_channel c))
                = true).
  { cbn. destruct (ProxyChannel.done (ProxyChannel.sink_task c)) eqn:Hd;
      [exact Hd|reflexivity]. }
  split; cbn [closed_channel ProxyChannel.remote_id ProxyChannel.closed
              ProxyChannel.ready_to_send]; try reflexivity; try congruence;
    try (intros; apply HW); try (intros; exact Hd').
  - rewrite spawned_app, S2. unfold closing_events.
    destruct (ProxyChannel.done (ProxyChannel.sink_task c)); reflexivity.
  - intros r [H|H]%in_app_or; [|destruct (D2 r H)].
    unfold closing_events in H.
    destruct (ProxyChannel.done (ProxyChannel.sink_task c)); cbn in H;
      intuition congruence.
  - intros _ _. split; [|exact Hd'].
    apply in_or_app. left. unfold closing_events.
    apply in_or_app. right. left. reflexivity.
  - intros Hr. rewrite HW. unfold pending.
    destruct (ProxyChannel.sink_task c); lia.
Qed.

Lemma write_run e data c :
  ProxyChannel.write e data c =
  let rid := ProxyChannel.remote_id c in
  let okay := sending e (b "OKAY") rid (ProxyChannel.local_id c) [] in
  let pre := DevWrite rid data :: (if dev_ok e then okay.1 else []) in
  if dev_ok e && is_ok okay.2 then (c, pre, Ok tt)
  else ((ProxyChannel.close e c).1.1, pre ++ (ProxyChannel.close e c).1.2,
        (ProxyChannel.close e c).2).
Proof.
  unfold ProxyChannel.write. run.
  destruct (dev_ok e); run.
  - rewrite sending_run.
    destruct (sending e (b "OKAY") _ _ []) as [es [[]|x]]; cbn [fst snd is_ok andb app];
      [reflexivity|].
    destruct (ProxyChannel.close e c) as [[c' es'] r']. reflexivity.
  - destruct (ProxyChannel.close e c) as [[c' es'] r']. reflexivity.
Qed.

(** [write] as a channel step. *)
Lemma write_chan_step e data c :
  chan_step c (ProxyChannel.write e data c).1.1
              (ProxyChannel.write e data c).1.2.
Proof.
  rewrite write_run. cbv zeta.
  set (pre := DevWrite _ _ :: _).
  assert (Hpre : quiet pre).
  { subst pre. apply quiet_cons; [apply quiet_DevWrite|].
    destruct (dev_ok e); [apply quiet_sending; reflexivity|apply quiet_nil]. }
  destruct (dev_ok e && is_ok _); cbn [fst snd].
  - rewrite <- (app_nil_r pre).
    apply (chan_step_quiet c c [] pre []);
      [apply chan_step_refl|exact Hpre|apply quiet_nil].
  - rewrite <- (app_nil_r (ProxyChannel.close e c).1.2).
    apply chan_step_quiet;
      [apply close_chan_step|exact Hpre|apply quiet_nil].
Qed.

Lemma sink_exit_run e c :
  ProxyChannel.sink_exit e c =
  if ProxyChannel.closed c
  then (ProxyChannel.set_sink_task ProxyChannel.Finished c, [], Ok tt)
  else ProxyChannel.close e c.
Proof.
  unfold ProxyChannel.sink_exit. run.
  destruct (ProxyChannel.closed c); [reflexivity|].
  destruct (ProxyChannel.close e c) as [[c' es'] r']. reflexivity.
Qed.

(** Leaving the loop, possibly after the write of a WRTE frame whose
    [drain()] raised. *)
Lemma sink_exit_chan_step e c pre :
  pre = [] \/
  (ProxyChannel.sink_task c = ProxyChannel.AtRead /\
   exists data wire,
     frame_bytes (b "WRTE") (ProxyChannel.remote_id c)
       (ProxyChannel.local_id c) data = Ok wire /\
     pre = [PeerWrite wire]) ->
  chan_step c (ProxyChannel.sink_exit e c).1.1
              (pre ++ (ProxyChannel.sink_exit e c).1.2).
Proof.
  intros Hpre.
  assert (Hbase : chan_step c (ProxyChannel.sink_exit e c).1.1
                               (ProxyChannel.sink_exit e c).1.2).
  { rewrite sink_exit_run. destruct (ProxyChannel.closed c) eqn:Hc;
      [|apply close_chan_step].
    destruct c as [nm lid rid cl v k]. cbn in Hc. subst cl.
    split; cbn; try reflexivity; try tauto; try discriminate.
    intros Hv. unfold pending. cbn. destruct k; lia. }
  destruct Hpre as [->|(Hk & data & wire & Hw & ->)]; [exact Hbase|].
  assert (Hexit : forall r, wrte_sent r (ProxyChannel.sink_exit e c).1.2 = 0).
  { intros r. rewrite sink_exit_run.
    destruct (ProxyChannel.closed c); [reflexivity|].
    rewrite close_run.
    destruct (ProxyChannel.closed c); [reflexivity|]. cbn [fst snd].
    rewrite wrte_sent_app.
    destruct (quiet_sending e (b "CLSE") (ProxyChannel.remote_id c)
                (ProxyChannel.local_id c) [] eq_refl) as (_ & _ & ->).
    unfold closing_events.
    destruct (ProxyChannel.done (ProxyChannel.sink_task c)); reflexivity. }
  assert (Hone : forall r, wrte_sent r [PeerWrite wire]
                 = if ProxyChannel.remote_id c =? r then 1 else 0).
  { intros r. unfold wrte_sent. cbn [count].
    rewrite (is_wrte_frame _ _ _ _ _ _ Hw).
    change (bytes_eqb (b "WRTE") (b "WRTE")) with true. cbn [andb].
    destruct (_ =? _); reflexivity. }
  destruct Hbase. split; try assumption.
  - intros r [[H|[]]|H]%in_app_or; [discriminate|auto].
  - intros Hc Hc'. destruct (cs_closing0 Hc Hc') as [Hin Hd].
    split; [apply in_or_app; right; exact Hin|exact Hd].
  - intros r Hr. rewrite wrte_sent_app, Hone, Hexit.
    destruct (Z.eqb_spec (ProxyChannel.remote_id c) r); [congruence|lia].
  - rewrite Hk. discriminate.
  - intros Hv. destruct (cs_credit0 Hv) as (Hv' & _ & _).
    rewrite wrte_sent_app, Hone, Hexit, Z.eqb_refl.
    split; [exact Hv'|]. split; [lia|].
    assert (Hcl : ProxyChannel.closed (ProxyChannel.sink_exit e c).1.1 = true).
    { rewrite sink_exit_run. destruct (ProxyChannel.closed c) eqn:Hc;
        [exact Hc|]. rewrite close_run, Hc. reflexivity. }
    rewrite Hcl. unfold pending. rewrite Hk. lia.
Qed.

Ltac chan_goal Hk :=
  proj_simpl; try reflexivity; try tauto; try congruence;
  try solve [intros ? [H|[]]; discriminate];
  try solve [intros ? []];
  try solve [intros Hd; rewrite ?Hk in Hd; discriminate];
  try solve [intros; unfold pending; proj_simpl; rewrite ?Hk;
             repeat match goal with
                    | |- context [ProxyChannel.closed ?c] =>
                        destruct (ProxyChannel.closed c)
                    end; cbn; lia].

Lemma wrte_sent_single c data wire r :
  frame_bytes (b "WRTE") (ProxyChannel.remote_id c)
    (ProxyChannel.local_id c) data = Ok wire ->
  wrte_sent r [PeerWrite wire] = if ProxyChannel.remote_id c =? r then 1 else 0.
Proof.
  intros Hw. unfold wrte_sent. cbn [count].
  rewrite (is_wrte_frame _ _ _ _ _ _ Hw).
  change (bytes_eqb (b "WRTE") (b "WRTE")) with true.
  cbn [andb]. destruct (_ =? _); reflexivity.
Qed.

(** [sink] as a channel step. *)
Lemma sink_chan_step e r c :
  chan_step c (ProxyChannel.sink e r c).1.1 (ProxyChannel.sink e r c).1.2.
Proof.
  pose proof (sink_exit_chan_step e c [] (or_introl eq_refl)) as Hexit.
  cbn [app] in Hexit.
  unfold ProxyChannel.sink. run.
  destruct (ProxyChannel.sink_task c) eqn:Hk.
  - (* at the head of the loop *)
    run. destruct (ProxyChannel.closed c) eqn:Hc.
    + destruct (ProxyChannel.sink_exit e c) as [[c' es'] r']. exact Hexit.
    + run. destruct (Z.leb_spec (ProxyChannel.ready_to_send c) 0) as [Hv|Hv];
        run; [apply chan_step_refl|].
      rewrite Hc. run. split; chan_goal Hk.
  - (* in reader.read *)
    unfold ProxyChannel.sink_read. run.
    destruct r as [data|].
    + destruct (bool_decide (data = [])); run.
      * destruct (String.prefix "shell:" (ProxyChannel.name c)); run.
        -- split; chan_goal Hk.
        -- destruct (ProxyChannel.sink_exit e c) as [[c' es'] r']. exact Hexit.
      * rewrite sending_run. unfold sending.
        destruct (frame_bytes _ _ _ data) as [wire|x] eqn:Hw; cbn [fst snd].
        -- pose proof (sink_exit_chan_step e c [PeerWrite wire]
             (or_intror (conj Hk (ex_intro _ data (ex_intro _ wire
                (conj Hw eq_refl)))))) as Hexit'.
           pose proof (wrte_sent_single c data wire) as Hone.
           destruct (peer_ok e); run.
           ++ split; chan_goal Hk.
              ** intros r0 Hr. rewrite (Hone r0 Hw).
                 destruct (Z.eqb_spec (ProxyChannel.remote_id c) r0);
                   [congruence|reflexivity].
              ** intros Hv. rewrite (Hone _ Hw), Z.eqb_refl. unfold pending.
                 proj_simpl. rewrite Hk.
                 destruct (ProxyChannel.closed c); cbn; lia.
           ++ destruct (ProxyChannel.sink_exit e c) as [[c' es'] r'].
              exact Hexit'.
        -- destruct (ProxyChannel.sink_exit e c) as [[c' es'] r']. exact Hexit.
    + destruct (ProxyChannel.sink_exit e c) as [[c' es'] r']. exact Hexit.
  - (* in sleep *)
    run. split; chan_goal Hk.
  - run. apply chan_step_refl.
  - run. apply chan_step_refl.
Qed.

(** ** One step of the connection, in summary *)

Lemma quiet_read_failure rd : quiet (read_failure rd tt).1.2.
Proof.
  unfold read_failure. run_M.
  destruct (readexactly 4 rd) as [[len_b rd1]|]; [|apply quiet_nil].
  destruct (py_int16 len_b) as [n|]; [|apply quiet_nil].
  destruct (readexactly n rd1) as [[err rd2]|]; [|apply quiet_nil].
  destruct (decode err); [|apply quiet_nil].
  cbn. apply quiet_HostClose.
Qed.

Lemma quiet_request_loop destination cmds rd :
  quiet (request_loop destination cmds rd tt).1.2.
Proof.
  revert rd. induction cmds as [|cmd cmds IH]; intros rd; [apply quiet_nil|].
  cbn [request_loop]. run_M.
  destruct (readexactly 4 rd) as [[status rd1]|]; [|apply quiet_HostWrite].
  destruct (bytes_eqb status (b "OKAY")).
  - specialize (IH rd1).
    destruct (request_loop destination cmds rd1 tt) as [[[] es] r].
    cbn [fst snd] in *. apply quiet_cons; [apply quiet_HostWrite|exact IH].
  - pose proof (quiet_read_failure rd1) as Hq.
    destruct (read_failure rd1 tt) as [[[] es] [a|x]]; cbn [fst snd app] in *.
    + apply quiet_cons; [apply quiet_HostWrite|exact Hq].
    + apply quiet_cons; [apply quiet_HostWrite|].
      apply quiet_app; [exact Hq|apply quiet_HostClose].
Qed.

Lemma quiet_open_client_stream e dev destination :
  quiet (open_client_stream e dev destination tt).1.2.
Proof.
  unfold open_client_stream. run_M.
  destruct (host e) as [rd|]; [|apply quiet_HostConnect].
  pose proof (quiet_request_loop destination
                [("host:transport:" ++ dev)%string; destination] rd) as Hq.
  destruct (request_loop _ _ rd tt) as [[[] es] r]. cbn [fst snd] in *.
  apply quiet_cons; [apply quiet_HostConnect|exact Hq].
Qed.

(** The events of a successful OPEN: quiet ones around the task spawn. *)
Lemma spawn_events q1 rid q2 :
  quiet q1 -> quiet q2 ->
  spawned (q1 ++ SpawnSink rid :: q2) = [rid] /\
  (forall r, ~ In (DevClose r) (q1 ++ SpawnSink rid :: q2)) /\
  (forall r, wrte_sent r (q1 ++ SpawnSink rid :: q2) = 0).
Proof.
  intros (S1 & D1 & W1) (S2 & D2 & W2). split; [|split].
  - rewrite spawned_app, S1. cbn [spawned app]. rewrite S2. reflexivity.
  - intros r [H|[H|H]]%in_app_or;
      [exact (D1 r H)|discriminate|exact (D2 r H)].
  - intros r. rewrite wrte_sent_app, W1.
    change (wrte_sent r (SpawnSink rid :: q2)) with (0 + wrte_sent r q2).
    rewrite W2. reflexivity.
Qed.

Lemma quiet_raised_tail {A} (r : res A) : quiet (raised_tail r).
Proof. unfold raised_tail. destruct (is_ok r); auto with quiet. Qed.

Lemma dispatch_summary e m p :
  summary p (AdbDeviceProxy.dispatch e m p).1.1
    (PeerRecv m :: (AdbDeviceProxy.dispatch e m p).1.2
       ++ raised_tail (AdbDeviceProxy.dispatch e m p).2)
    (if bytes_eqb (m_cmd m) (b "OPEN")
        && is_ok (decode (rstrip_nul (m_data m)))
     then [AdbDeviceProxy.next_remote_id p] else []).
Proof.
  unfold AdbDeviceProxy.dispatch.
  destruct (bytes_eqb (m_cmd m) (b "OPEN")) eqn:Hopen; cbn [andb].
  { (* OPEN *)
    run. destruct (decode (rstrip_nul (m_data m))) as [destination|x];
      cbn [is_ok]; run.
    2: { apply sum_idle; [reflexivity|]. unfold raised_tail. cbn [is_ok].
         auto with quiet. }
    rewrite open_client_stream_state. proj_simpl.
    pose proof (quiet_open_client_stream e (AdbDeviceProxy.device_id p)
                  destination) as Hh.
    destruct (open_client_stream e _ destination tt) as [[[] hes] [[]|x]];
      run.
    - (* the service is open *)
      unfold ProxyChannel.init. run. rewrite sending_run.
      pose proof (quiet_sending e (b "OKAY") (AdbDeviceProxy.next_remote_id p)
                    (m_arg0 m) [] eq_refl) as Ho.
      destruct (sending e (b "OKAY") _ _ []) as [oes [[]|x]]; run.
      + eapply (sum_open _ _ _ destination (m_arg0 m)); proj_simpl;
          try reflexivity.
        all: rewrite <- app_assoc; cbn [app raised_tail is_ok];
          apply (spawn_events (PeerRecv m :: hes));
          auto with quiet.
      + rewrite sending_run.
        pose proof (quiet_sending e (b "CLSE") (m_arg0 m) 0 [] eq_refl) as Hc.
        destruct (sending e (b "CLSE") _ _ []) as [ces rc]; run.
        eapply (sum_open _ _ _ destination (m_arg0 m)); proj_simpl;
          try reflexivity.
        all: rewrite <- !app_assoc; cbn [app];
          apply (spawn_events (PeerRecv m :: hes));
          auto using quiet_raised_tail with quiet.
    - (* the service is refused *)
      rewrite sending_run.
      pose proof (quiet_sending e (b "CLSE") (m_arg0 m) 0 [] eq_refl) as Hc.
      destruct (sending e (b "CLSE") _ _ []) as [ces rc]; run.
      apply sum_open_fail; proj_simpl; try reflexivity.
      auto using quiet_raised_tail with quiet. }
  destruct (bytes_eqb (m_cmd m) (b "WRTE")) eqn:Hwrte.
  { run. destruct (AdbDeviceProxy.streams p !! m_arg1 m) as [c|] eqn:Hl; run.
    - pose proof (write_chan_step e (m_data m) c) as Hs.
      destruct (ProxyChannel.write e (m_data m) c) as [[c' es] r]. run.
      eapply (sum_chan _ _ _ (m_arg1 m) c c'); proj_simpl;
        try reflexivity; try assumption.
      apply (chan_step_quiet c c' es [PeerRecv m] (raised_tail r));
        auto using quiet_raised_tail with quiet.
    - apply sum_idle; [reflexivity|]. cbn. auto with quiet. }
  destruct (bytes_eqb (m_cmd m) (b "OKAY")) eqn:Hokay.
  { run. destruct (AdbDeviceProxy.streams p !! m_arg1 m) as [c|] eqn:Hl; run.
    - eapply (sum_ready _ _ _ (m_arg1 m) c m); proj_simpl;
        try reflexivity; try assumption.
      unfold bytes_eqb in Hokay. apply bool_decide_eq_true in Hokay.
      exact Hokay.
    - apply sum_idle; [reflexivity|]. cbn. auto with quiet. }
  destruct (bytes_eqb (m_cmd m) (b "CLSE")) eqn:Hclse.
  { run. destruct (AdbDeviceProxy.streams p !! m_arg1 m) as [c|] eqn:Hl; run.
    - pose proof (close_chan_step e c) as Hs.
      pose proof (close_run e c) as Hrun.
      destruct (ProxyChannel.close e c) as [[c' es] [[]|x]]; run.
      + cbn [raised_tail is_ok].
        eapply (sum_delete _ _ _ (m_arg1 m) c c' m es); proj_simpl;
          try reflexivity; try assumption.
        * apply delete_insert_eq.
        * rewrite !app_nil_r. reflexivity.
        * unfold bytes_eqb in Hclse. apply bool_decide_eq_true in Hclse.
          exact Hclse.
        * destruct (ProxyChannel.closed c) eqn:Hc; inversion Hrun; subst;
            [exact Hc|reflexivity].
      + eapply (sum_chan _ _ _ (m_arg1 m) c c'); proj_simpl;
          try reflexivity; try assumption.
        apply (chan_step_quiet c c' es [PeerRecv m] [PeerClose]);
          auto with quiet.
    - rewrite sending_run.
      pose proof (quiet_sending e (b "CLSE") (m_arg0 m) 0 [] eq_refl) as Hc.
      destruct (sending e (b "CLSE") _ _ []) as [ces rc]; run.
      apply sum_idle; [reflexivity|].
      auto using quiet_raised_tail with quiet. }
  run. apply sum_idle; [reflexivity|]. cbn. auto with quiet.
Qed.

Lemma step_summary w s :
  summary (proxy w) (proxy (step w s).1) (step w s).2 (assigned_id w s).
Proof.
  destruct s as [e|rid e r]; cbn [step assigned_id].
  - (* the main task *)
    unfold handle_connection.
    destruct (main_task w) eqn:Hm.
    + (* handshake *)
      unfold run_handshake, proxy_recv_cmd. run_M.
      destruct (recv_cmd (reader w)) as [[m rd]|x]; run.
      * destruct (bytes_eqb (m_cmd m) (b "CNXN")); run.
        -- rewrite sending_run.
           pose proof (quiet_sending e (b "CNXN")
             (AdbDeviceProxy.protocol_version (proxy w))
             (AdbDeviceProxy.max_data_len (proxy w))
             (encode ("device::" ++ AdbDeviceProxy.device_name (proxy w)
                        ++ String (ascii_of_nat 0) "")) eq_refl) as Hq.
           destruct (sending e (b "CNXN") _ _ _) as [ces [[]|x]]; run;
             (apply sum_idle; [reflexivity|auto with quiet]).
        -- apply sum_idle; [reflexivity|].
           apply (quiet_app [PeerRecv m] [PeerClose]); auto with quiet.
      * apply sum_idle; [reflexivity|auto with quiet].
    + (* the dispatch loop *)
      unfold run_loop, proxy_recv_cmd. run_M.
      destruct (recv_cmd (reader w)) as [[m rd]|x]; run.
      * pose proof (dispatch_summary e m (proxy w)) as Hd.
        unfold raised_tail in Hd.
        destruct (AdbDeviceProxy.dispatch e m (proxy w)) as [[p' es] [[]|x]];
          run; cbn [is_ok] in Hd; rewrite ?app_nil_r in Hd; exact Hd.
      * apply sum_idle; [reflexivity|auto with quiet].
    + apply sum_idle; [reflexivity|auto with quiet].
  - (* a pump task *)
    unfold run_sink.
    destruct (AdbDeviceProxy.streams (proxy w) !! rid) as [c|] eqn:Hl.
    + run_M. pose proof (sink_chan_step e r c) as Hs.
      destruct (ProxyChannel.sink e r c) as [[c' es] r']. run.
      eapply (sum_chan _ _ _ rid c c'); proj_simpl;
        try reflexivity; assumption.
    + apply sum_idle; [reflexivity|auto with quiet].
Qed.

(** ** The invariant is kept by every step *)

Lemma pending_nonneg c : 0 <= pending c <= 1.
Proof. unfold pending. destruct (ProxyChannel.sink_task c); lia. Qed.

Lemma okay_received_nonneg r es : 0 <= okay_received r es.
Proof. apply count_nonneg. Qed.

Lemma okay_credited_nonneg r es : 0 <= okay_credited r es.
Proof.
  induction es as [|ev es IH]; cbn [okay_credited]; [lia|].
  destruct ev; try exact IH.
  destruct (rid =? r); [apply okay_received_nonneg|exact IH].
Qed.

(** Once the stream is created, every OKAY for it counts. *)
Lemma okay_credited_app r es es' :
  In (SpawnSink r) es ->
  okay_credited r (es ++ es') = okay_credited r es + okay_received r es'.
Proof.
  induction es as [|ev es IH]; intros Hin; [destruct Hin|].
  destruct Hin as [->|Hin].
  - cbn [app okay_credited]. rewrite Z.eqb_refl. apply okay_received_app.
  - destruct ev; cbn [app okay_credited]; auto.
    destruct (rid =? r); [apply okay_received_app|auto].
Qed.

(** Before the stream is created, none does. *)
Lemma okay_credited_fresh r es es' :
  ~ In (SpawnSink r) es ->
  okay_credited r es = 0 /\ okay_credited r (es ++ es') = okay_credited r es'.
Proof.
  induction es as [|ev es IH]; intros Hin; [split; reflexivity|].
  assert (Hes : ~ In (SpawnSink r) es) by (intros H; apply Hin; right; exact H).
  destruct ev; cbn [app okay_credited]; auto.
  destruct (Z.eqb_spec rid r) as [->|_]; [|auto].
  exfalso. apply Hin. left. reflexivity.
Qed.

Lemma okay_credited_le r es : okay_credited r es <= okay_received r es.
Proof.
  induction es as [|ev es IH]; [reflexivity|].
  destruct ev; cbn [okay_credited]; unfold okay_received in *;
    cbn [count is_okay]; try lia.
  - destruct (bytes_eqb (m_cmd m) (b "OKAY") && (m_arg1 m =? r)); lia.
  - destruct (rid =? r); lia.
Qed.

(** The count never shrinks as the trace grows. *)
Lemma okay_credited_mono r es es' :
  okay_credited r es <= okay_credited r (es ++ es').
Proof.
  destruct (in_dec Z.eq_dec r (spawned es)) as [Hin|Hin].
  - rewrite okay_credited_app by (apply spawned_In, Hin).
    pose proof (okay_received_nonneg r es'). lia.
  - destruct (okay_credited_fresh r es es') as [-> ->].
    + intros H. apply Hin, spawned_In, H.
    + apply okay_credited_nonneg.
Qed.

Lemma spawned_nil_not_In es r : spawned es = [] -> ~ In (SpawnSink r) es.
Proof. intros Hs Hin. apply spawned_In in Hin. rewrite Hs in Hin. exact Hin. Qed.

(** A step that does not concern stream [rid]. *)
Lemma stream_inv_other rid o next next' es es' :
  stream_inv rid o next es -> next <= next' ->
  ~ In (SpawnSink rid) es' -> ~ In (DevClose rid) es' ->
  wrte_sent rid es' = 0 ->
  stream_inv rid o next' (es ++ es').
Proof.
  intros (Hb & Hs & Hd & Hw & Ho) Hn Hs' Hd' Hw'.
  pose proof (okay_credited_mono rid es es') as Hk.
  unfold stream_inv. destruct o as [c|];
    rewrite wrte_sent_app, Hw', !in_app_iff;
    (split; [lia|]); (split; [intros [H|H]; [apply Hs in H; lia|tauto]|]);
    (split; [tauto|]); (split; [destruct Hw; [tauto|right; lia]|]).
  - destruct Ho as (Hr & Hsp & Hcl & Hdn & Hcr).
    split; [exact Hr|]. split; [tauto|]. split; [tauto|]. split; [exact Hdn|].
    intros Hc. destruct (Hcr Hc). lia.
  - intros [H|H]; [|tauto]. destruct (Ho H) as [H1 (m & H2 & H3)].
    split; [tauto|]. exists m. rewrite in_app_iff. tauto.
Qed.

(** A method of the channel of stream [k]. *)
Lemma stream_inv_chan k c c' next es es' :
  stream_inv k (Some c) next es -> chan_step c c' es' ->
  stream_inv k (Some c') next (es ++ es').
Proof.
  intros (Hb & Hs & Hd & Hw & Hr & Hsp & Hcl & Hdn & Hcr) [].
  pose proof (okay_received_nonneg k es') as Hk.
  pose proof (pending_nonneg c') as Hp'.
  rewrite Hr in *.
  assert (Hns : ~ In (SpawnSink k) es') by (apply spawned_nil_not_In; assumption).
  assert (HW : wrte_sent k es + wrte_sent k es' <= 1 + okay_credited k es).
  { destruct (ProxyChannel.closed c) eqn:Hc.
    - rewrite cs_wrte_done0 by auto. lia.
    - destruct (Hcr eq_refl) as [Hv Hle].
      destruct (cs_credit0 Hv) as (Hv' & Hw0 & Hle').
      destruct (ProxyChannel.closed c'); lia. }
  unfold stream_inv.
  rewrite wrte_sent_app, (okay_credited_app k es es' Hsp), !in_app_iff.
  split; [lia|]. split; [intros [H|H]; [auto|tauto]|].
  split; [tauto|]. split; [tauto|].
  split; [congruence|]. split; [tauto|]. split; [|split].
  - split.
    + intros Hc'. destruct (ProxyChannel.closed c) eqn:Hc.
      * left. apply Hcl. reflexivity.
      * right. apply cs_closing0; [reflexivity|exact Hc'].
    + intros [H|H]; [apply cs_closed0, Hcl, H|].
      apply cs_dev_close0 in H. tauto.
  - intros Hc'. destruct (ProxyChannel.closed c) eqn:Hc.
    + apply cs_done0, Hdn. reflexivity.
    + apply cs_closing0; [reflexivity|exact Hc'].
  - intros Hc'.
    assert (Hc : ProxyChannel.closed c = false).
    { destruct (ProxyChannel.closed c) eqn:Hc; [|reflexivity].
      rewrite cs_closed0 in Hc' by reflexivity. discriminate. }
    destruct (Hcr Hc) as [Hv Hle].
    destruct (cs_credit0 Hv) as (Hv' & Hw0 & Hle').
    rewrite Hc' in Hle'. split; [exact Hv'|lia].
Qed.

(** The entry of a stream closed from our side is deleted on an inbound
    CLSE. *)
Lemma stream_inv_delete k c next es :
  stream_inv k (Some c) next es -> ProxyChannel.closed c = true ->
  clse_received k es ->
  stream_inv k None next es.
Proof.
  intros (Hb & Hs & Hd & Hw & Hr & Hsp & Hcl & Hdn & Hcr) Hc Hm.
  unfold stream_inv. repeat (split; [assumption|]).
  intros _. split; [apply Hcl, Hc|exact Hm].
Qed.

(** An inbound OKAY for stream [k]. *)
Lemma stream_inv_ready k c next es m :
  stream_inv k (Some c) next es ->
  m_cmd m = b "OKAY" -> m_arg1 m = k ->
  stream_inv k (Some (ProxyChannel.ready c)) next (es ++ [PeerRecv m]).
Proof.
  intros (Hb & Hs & Hd & Hw & Hr & Hsp & Hcl & Hdn & Hcr) Hcmd Harg.
  assert (Hk : okay_received k [PeerRecv m] = 1).
  { unfold okay_received. cbn [count is_okay]. rewrite Hcmd, Harg, Z.eqb_refl.
    reflexivity. }
  unfold stream_inv.
  rewrite wrte_sent_app, (okay_credited_app k es _ Hsp), Hk, !in_app_iff.
  change (wrte_sent k [PeerRecv m]) with 0.
  assert (Hn1 : ~ In (SpawnSink k) [PeerRecv m]) by (intros [H|[]]; discriminate).
  assert (Hn2 : ~ In (DevClose k) [PeerRecv m]) by (intros [H|[]]; discriminate).
  split; [lia|]. split; [intros [H|H]; [auto|tauto]|].
  split; [tauto|]. split; [tauto|].
  destruct c as [nm lid rid cl v tk]. cbn in *.
  split; [exact Hr|]. split; [tauto|]. split; [tauto|]. split; [exact Hdn|].
  intros Hc. destruct (Hcr Hc). unfold pending in *. cbn in *. lia.
Qed.

(** A stream created under the next id. *)
Lemma stream_inv_open o next es es' nm lid :
  stream_inv next o next es -> 1 <= next ->
  spawned es' = [next] -> ~ In (DevClose next) es' ->
  wrte_sent next es' = 0 ->
  stream_inv next
    (Some (ProxyChannel.Channel nm lid next false 1 ProxyChannel.AtLoop))
    (next + 1) (es ++ es').
Proof.
  intros (Hb & Hs & Hd & Hw & Ho) Hn Hs' Hd' Hw'.
  pose proof (okay_credited_nonneg next (es ++ es')) as Hk.
  assert (Hin : In (SpawnSink next) es')
    by (apply spawned_In; rewrite Hs'; left; reflexivity).
  assert (Hfresh : ~ In (SpawnSink next) es) by (intros H; apply Hs in H; lia).
  assert (Hw0 : wrte_sent next es = 0) by tauto.
  unfold stream_inv.
  rewrite wrte_sent_app, Hw', Hw0, !in_app_iff.
  split; [lia|]. split; [intros _; lia|]. split; [tauto|]. split; [tauto|].
  cbn. split; [reflexivity|]. split; [tauto|]. split; [|split].
  - split; [discriminate|]. intros [H|H]; [|tauto]. apply Hd in H. tauto.
  - discriminate.
  - intros _. unfold pending. cbn. lia.
Qed.

Lemma seq_snoc_Z n :
  Z.of_nat <$> seq 1 (S n) = (Z.of_nat <$> seq 1 n) ++ [1 + Z.of_nat n].
Proof.
  rewrite seq_S, fmap_app. cbn [fmap list_fmap]. f_equal. f_equal. lia.
Qed.

Lemma Inv_step p p' es es' ids ids' :
  Inv p es ids -> summary p p' es' ids' -> Inv p' (es ++ es') (ids ++ ids').
Proof.
  intros [Hids Hnext Hsub Hst] Hsum.
  assert (Hpos : 1 <= AdbDeviceProxy.next_remote_id p) by lia.
  assert (Hids1 : ids ++ [AdbDeviceProxy.next_remote_id p]
                  = Z.of_nat <$> seq 1 (length (ids ++ [AdbDeviceProxy.next_remote_id p]))).
  { rewrite length_app, Nat.add_1_r, seq_snoc_Z, <- Hids, Hnext. reflexivity. }
  assert (Hkey : forall k c, AdbDeviceProxy.streams p !! k = Some c ->
                             ProxyChannel.remote_id c = k).
  { intros k c Hl. specialize (Hst k). rewrite Hl in Hst.
    destruct Hst as (_ & _ & _ & _ & Hr & _). exact Hr. }
  destruct Hsum as [-> (S' & D' & W') | Hs' Hn' (S' & D' & W')
                   | nm lid rid Hs' Hn' S' D' W'
                   | k c c' Hl Hs' Hn' Hc
                   | k c m Hl Hs' Hn' -> Hcmd Harg
                   | k c c' m es1 Hl Hs' Hn' -> Hcmd Harg Hc Hcl].
  - (* nothing touched *)
    rewrite app_nil_r. split.
    + exact Hids.
    + exact Hnext.
    + rewrite spawned_app, S', app_nil_r. exact Hsub.
    + intros rid. apply stream_inv_other with (next := AdbDeviceProxy.next_remote_id p); auto using spawned_nil_not_In. lia.
  - (* OPEN rejected *)
    split.
    + exact Hids1.
    + rewrite Hn', length_app, Nat2Z.inj_add. cbn. lia.
    + rewrite spawned_app, S', app_nil_r. apply sublist_inserts_r, Hsub.
    + intros rid. rewrite Hs', Hn'.
      apply stream_inv_other with (next := AdbDeviceProxy.next_remote_id p); auto using spawned_nil_not_In. lia.
  - (* OPEN accepted *)
    split.
    + exact Hids1.
    + rewrite Hn', length_app, Nat2Z.inj_add. subst rid. cbn. lia.
    + rewrite spawned_app, S'. apply sublist_app; [exact Hsub|reflexivity].
    + intros r. rewrite Hs', Hn'. subst rid.
      destruct (Z.eq_dec r (AdbDeviceProxy.next_remote_id p)) as [->|Hne].
      * rewrite lookup_insert_eq.
        apply stream_inv_open
          with (o := AdbDeviceProxy.streams p !! AdbDeviceProxy.next_remote_id p);
          auto.
      * rewrite lookup_insert_ne by congruence.
        apply stream_inv_other with (next := AdbDeviceProxy.next_remote_id p); auto; [lia|].
        intros H. apply spawned_In in H. rewrite S' in H.
        destruct H as [H|[]]. congruence.
  - (* a method of a channel *)
    rewrite app_nil_r. split.
    + exact Hids.
    + lia.
    + destruct Hc. rewrite spawned_app, cs_spawned0, app_nil_r. exact Hsub.
    + intros r. rewrite Hs', Hn'.
      destruct (Z.eq_dec r k) as [->|Hne].
      * rewrite lookup_insert_eq. apply (stream_inv_chan k c c'); [|exact Hc].
        specialize (Hst k). rewrite Hl in Hst. exact Hst.
      * rewrite lookup_insert_ne by congruence.
        pose proof (Hkey k c Hl) as Hr. destruct Hc.
        apply stream_inv_other with (next := AdbDeviceProxy.next_remote_id p); auto using spawned_nil_not_In; [lia| |].
        -- intros H. apply cs_dev_close0 in H. destruct H as [H _]. congruence.
        -- apply cs_wrte_other0. congruence.
  - (* an OKAY for a stream *)
    rewrite app_nil_r. split.
    + exact Hids.
    + lia.
    + rewrite spawned_app, app_nil_r. exact Hsub.
    + intros r. rewrite Hs', Hn'.
      destruct (Z.eq_dec r k) as [->|Hne].
      * rewrite lookup_insert_eq. apply stream_inv_ready; auto.
        specialize (Hst k). rewrite Hl in Hst. exact Hst.
      * rewrite lookup_insert_ne by congruence.
        apply stream_inv_other with (next := AdbDeviceProxy.next_remote_id p); auto; [lia| |];
          intros [H|[]]; discriminate.
  - (* a CLSE for a stream *)
    rewrite app_nil_r.
    assert (Hc1 : chan_step c c' (PeerRecv m :: es1)).
    { rewrite <- (app_nil_r es1).
      apply (chan_step_quiet c c' es1 [PeerRecv m] []); auto with quiet. }
    split.
    + exact Hids.
    + lia.
    + destruct Hc1. rewrite spawned_app, cs_spawned0, app_nil_r. exact Hsub.
    + intros r. rewrite Hs', Hn'.
      destruct (Z.eq_dec r k) as [->|Hne].
      * rewrite lookup_delete_eq.
        apply (stream_inv_delete k c'); [|exact Hcl|].
        -- apply (stream_inv_chan k c c'); [|exact Hc1].
           specialize (Hst k). rewrite Hl in Hst. exact Hst.
        -- exists m. rewrite in_app_iff. split; [right; left; reflexivity|].
           split; assumption.
      * rewrite lookup_delete_ne by congruence.
        pose proof (Hkey k c Hl) as Hr. destruct Hc1.
        apply stream_inv_other with (next := AdbDeviceProxy.next_remote_id p); auto using spawned_nil_not_In; [lia| |].
        -- intros H. apply cs_dev_close0 in H. destruct H as [H _]. congruence.
        -- apply cs_wrte_other0. congruence.
Qed.

(** ** Frames are received first in a step *)

Lemma no_recv_sending e cmd arg0 arg1 data :
  forallb no_recv (sending e cmd arg0 arg1 data).1 = true.
Proof.
  unfold sending. destruct (frame_bytes cmd arg0 arg1 data); reflexivity.
Qed.

Ltac nrv :=
  cbn [fst snd] in *; rewrite ?app_nil_r, ?forallb_app;
  cbn [forallb no_recv andb];
  repeat match goal with
         | H : forallb no_recv _ = true |- _ => rewrite H; clear H
         end;
  try reflexivity.

Lemma no_recv_close e c : forallb no_recv (ProxyChannel.close e c).1.2 = true.
Proof.
  rewrite close_run. destruct (ProxyChannel.closed c); [reflexivity|].
  cbn [fst snd]. unfold closing_events.
  rewrite !forallb_app, no_recv_sending.
  destruct (ProxyChannel.done _); reflexivity.
Qed.

Lemma no_recv_write e data c :
  forallb no_recv (ProxyChannel.write e data c).1.2 = true.
Proof.
  rewrite write_run. cbv zeta.
  assert (Hpre : forallb no_recv
            (DevWrite (ProxyChannel.remote_id c) data
               :: (if dev_ok e
                   then (sending e (b "OKAY") (ProxyChannel.remote_id c)
                           (ProxyChannel.local_id c) []).1
                   else [])) = true).
  { cbn [forallb no_recv andb]. destruct (dev_ok e);
      [apply no_recv_sending|reflexivity]. }
  destruct (dev_ok e && is_ok _); cbn [fst snd]; [exact Hpre|].
  rewrite forallb_app, Hpre, no_recv_close. reflexivity.
Qed.

Lemma no_recv_sink_exit e c :
  forallb no_recv (ProxyChannel.sink_exit e c).1.2 = true.
Proof.
  rewrite sink_exit_run. destruct (ProxyChannel.closed c); [reflexivity|].
  apply no_recv_close.
Qed.

Lemma no_recv_sink e r c : forallb no_recv (ProxyChannel.sink e r c).1.2 = true.
Proof.
  unfold ProxyChannel.sink. run.
  destruct (ProxyChannel.sink_task c); run; try reflexivity.
  - destruct (ProxyChannel.closed c) eqn:Hcl; run.
    + pose proof (no_recv_sink_exit e c) as H.
      destruct (ProxyChannel.sink_exit e c) as [[c' es] r']. exact H.
    + destruct (ProxyChannel.ready_to_send c <=? 0); run; [reflexivity|].
      rewrite Hcl. reflexivity.
  - unfold ProxyChannel.sink_read. run.
    destruct r as [data|]; run.
    + destruct (bool_decide (data = [])); run.
      * destruct (String.prefix "shell:" (ProxyChannel.name c)); run;
          [reflexivity|].
        pose proof (no_recv_sink_exit e c) as H.
        destruct (ProxyChannel.sink_exit e c) as [[c' es] r']. exact H.
      * rewrite sending_run.
        pose proof (no_recv_sending e (b "WRTE") (ProxyChannel.remote_id c)
                      (ProxyChannel.local_id c) data) as Hs.
        destruct (sending e (b "WRTE") _ _ data) as [ses [[]|x]];
          cbn [fst snd] in Hs; run.
        -- nrv.
        -- pose proof (no_recv_sink_exit e c) as H.
           destruct (ProxyChannel.sink_exit e c) as [[c' es] r']. nrv.
    + pose proof (no_recv_sink_exit e c) as H.
      destruct (ProxyChannel.sink_exit e c) as [[c' es] r']. exact H.
Qed.

Lemma no_recv_read_failure rd : forallb no_recv (read_failure rd tt).1.2 = true.
Proof.
  unfold read_failure. run_M.
  destruct (readexactly 4 rd) as [[len_b rd1]|]; [|reflexivity].
  destruct (py_int16 len_b) as [n|]; [|reflexivity].
  destruct (readexactly n rd1) as [[err rd2]|]; [|reflexivity].
  destruct (decode err); reflexivity.
Qed.

Lemma no_recv_request_loop destination cmds : forall rd,
  forallb no_recv (request_loop destination cmds rd tt).1.2 = true.
Proof.
  induction cmds as [|cmd cmds IH]; intros rd; [reflexivity|].
  cbn [request_loop]. run_M.
  destruct (readexactly 4 rd) as [[status rd1]|]; [|reflexivity].
  destruct (bytes_eqb status (b "OKAY")).
  - specialize (IH rd1).
    destruct (request_loop destination cmds rd1 tt) as [[[] es] r]. exact IH.
  - pose proof (no_recv_read_failure rd1) as H.
    destruct (read_failure rd1 tt) as [[[] es] [a|x]]; cbn [fst snd] in *.
    + exact H.
    + nrv.
Qed.

Lemma no_recv_open_client_stream e dev destination :
  forallb no_recv (open_client_stream e dev destination tt).1.2 = true.
Proof.
  unfold open_client_stream. run_M.
  destruct (host e) as [rd|]; [|reflexivity].
  pose proof (no_recv_request_loop destination
                [("host:transport:" ++ dev)%string; destination] rd) as H.
  destruct (request_loop _ _ rd tt) as [[[] es] r]. exact H.
Qed.

Lemma no_recv_dispatch e m p :
  forallb no_recv (AdbDeviceProxy.dispatch e m p).1.2 = true.
Proof.
  unfold AdbDeviceProxy.dispatch.
  destruct (bytes_eqb (m_cmd m) (b "OPEN")).
  { run. destruct (decode (rstrip_nul (m_data m))) as [destination|x]; run;
      [|reflexivity].
    rewrite open_client_stream_state. proj_simpl.
    pose proof (no_recv_open_client_stream e (AdbDeviceProxy.device_id p)
                  destination) as Ho.
    destruct (open_client_stream e _ destination tt) as [[[] hes] [[]|x]];
      cbn [fst snd] in Ho; run.
    - unfold ProxyChannel.init. run. rewrite sending_run.
      pose proof (no_recv_sending e (b "OKAY") (AdbDeviceProxy.next_remote_id p)
                    (m_arg0 m) []) as Hs.
      destruct (sending e (b "OKAY") _ _ []) as [oes [[]|x]];
        cbn [fst snd] in Hs; run.
      + nrv.
      + rewrite sending_run.
        pose proof (no_recv_sending e (b "CLSE") (m_arg0 m) 0 []) as Hc.
        destruct (sending e (b "CLSE") _ _ []) as [ces rc];
          cbn [fst snd] in Hc; run.
        nrv.
    - rewrite sending_run.
      pose proof (no_recv_sending e (b "CLSE") (m_arg0 m) 0 []) as Hc.
      destruct (sending e (b "CLSE") _ _ []) as [ces rc];
        cbn [fst snd] in Hc; run.
      nrv. }
  destruct (bytes_eqb (m_cmd m) (b "WRTE")).
  { run. destruct (AdbDeviceProxy.streams p !! m_arg1 m) as [c|]; run;
      [|reflexivity].
    pose proof (no_recv_write e (m_data m) c) as H.
    destruct (ProxyChannel.write e (m_data m) c) as [[c' es] r]. exact H. }
  destruct (bytes_eqb (m_cmd m) (b "OKAY")).
  { run. destruct (AdbDeviceProxy.streams p !! m_arg1 m) as [c|]; run;
      reflexivity. }
  destruct (bytes_eqb (m_cmd m) (b "CLSE")).
  { run. destruct (AdbDeviceProxy.streams p !! m_arg1 m) as [c|]; run.
    - pose proof (no_recv_close e c) as H.
      destruct (ProxyChannel.close e c) as [[c' es] [[]|x]];
        cbn [fst snd] in H; run; nrv.
    - rewrite sending_run.
      pose proof (no_recv_sending e (b "CLSE") (m_arg0 m) 0 []) as Hc.
      destruct (sending e (b "CLSE") _ _ []) as [ces rc]. exact Hc. }
  reflexivity.
Qed.

(** The events of a step: the frame received, if any, comes first. *)
Lemma step_recv_first w s :
  exists recv rest,
    (step w s).2 = recv ++ rest /\
    (recv = [] \/ exists m, recv = [PeerRecv m]) /\
    forallb no_recv rest = true.
Proof.
  destruct s as [e|rid e r]; cbn [step].
  - unfold handle_connection.
    destruct (main_task w) eqn:Hm.
    + unfold run_handshake, proxy_recv_cmd. run_M.
      destruct (recv_cmd (reader w)) as [[m rd]|x]; run.
      * destruct (bytes_eqb (m_cmd m) (b "CNXN")); run.
        -- rewrite sending_run.
           pose proof (no_recv_sending e (b "CNXN")
                         (AdbDeviceProxy.protocol_version (proxy w))
                         (AdbDeviceProxy.max_data_len (proxy w))
                         (encode ("device::"
                                  ++ AdbDeviceProxy.device_name (proxy w)
                                  ++ String (ascii_of_nat 0) ""))) as Hs.
           destruct (sending e (b "CNXN") _ _ _) as [ses [[]|x]];
             cbn [fst snd] in Hs; run; exists [PeerRecv m]; eexists;
             (split; [cbn [app]; reflexivity|]); (split; [eauto|]); nrv.
        -- exists [PeerRecv m], [PeerClose]. split; [reflexivity|]. eauto.
      * exists [], [PeerClose]. split; [reflexivity|]. auto.
    + unfold run_loop, proxy_recv_cmd. run_M.
      destruct (recv_cmd (reader w)) as [[m rd]|x]; run.
      * pose proof (no_recv_dispatch e m (proxy w)) as Hd.
        destruct (AdbDeviceProxy.dispatch e m (proxy w)) as [[p es] [[]|x]];
          cbn [fst snd] in Hd; run; exists [PeerRecv m]; eexists;
          (split; [cbn [app]; reflexivity|]); (split; [eauto|]); nrv.
      * exists [], [PeerClose]. split; [reflexivity|]. auto.
    + exists [], []. split; [reflexivity|]. auto.
  - unfold run_sink.
    destruct (AdbDeviceProxy.streams (proxy w) !! rid) as [c|].
    + run. pose proof (no_recv_sink e r c) as H.
      destruct (ProxyChannel.sink e r c) as [[c' es] r']. run.
      exists [], es. split; [reflexivity|]. auto.
    + exists [], []. split; [reflexivity|]. auto.
Qed.

Lemma no_recv_okay r es : forallb no_recv es = true -> okay_received r es = 0.
Proof.
  unfold okay_received. induction es as [|ev es IH]; [reflexivity|].
  cbn [forallb count]. rewrite andb_true_iff. intros [Hev Hes].
  rewrite (IH Hes). destruct ev; try reflexivity. discriminate.
Qed.

(** Events other than receipts leave the count of OKAY frames alone. *)
Lemma okay_credited_no_recv r es es' :
  forallb no_recv es' = true ->
  okay_credited r (es ++ es') = okay_credited r es.
Proof.
  intros Hes'. pose proof (no_recv_okay r es' Hes') as H0.
  destruct (in_dec Z.eq_dec r (spawned es)) as [Hin|Hin].
  - rewrite okay_credited_app by (apply spawned_In, Hin). lia.
  - destruct (okay_credited_fresh r es es') as [-> ->].
    + intros H. apply Hin, spawned_In, H.
    + pose proof (okay_credited_le r es'). pose proof (okay_credited_nonneg r es').
      lia.
Qed.

Lemma forallb_suffix {A} (f : A -> bool) l1 l2 :
  forallb f (l1 ++ l2) = true -> forallb f l2 = true.
Proof. rewrite forallb_app, andb_true_iff. tauto. Qed.

(** The bound of a state holds at every event of the step that led to
    it. *)
Lemma wrte_bound_in_step r es recv rest pre post :
  (recv = [] \/ exists m, recv = [PeerRecv m]) ->
  forallb no_recv rest = true ->
  recv ++ rest = pre ++ post -> pre <> [] ->
  wrte_sent r (es ++ recv ++ rest) <= 1 + okay_credited r (es ++ recv ++ rest) ->
  wrte_sent r (es ++ pre) <= 1 + okay_credited r (es ++ pre).
Proof.
  intros Hrecv Hrest Heq Hpre Hb.
  assert (Hpost : forallb no_recv post = true).
  { destruct Hrecv as [->|[m ->]].
    - cbn [app] in Heq. rewrite Heq in Hrest. exact (forallb_suffix _ _ _ Hrest).
    - destruct pre as [|ev pre]; [congruence|].
      cbn [app] in Heq. injection Heq as _ Heq. rewrite Heq in Hrest.
      exact (forallb_suffix _ _ _ Hrest). }
  rewrite Heq, app_assoc in Hb.
  rewrite (okay_credited_no_recv r (es ++ pre) post Hpost) in Hb.
  rewrite wrte_sent_app in Hb.
  pose proof (count_nonneg (is_wrte r) post) as Hn. unfold wrte_sent in *. lia.
Qed.

(** The bound on WRTE frames at every event of an execution. *)
Lemma wrte_bound_exec ss : forall w es ids,
  Inv (proxy w) es ids ->
  (forall r es1 es2, es = es1 ++ es2 ->
     wrte_sent r es1 <= 1 + okay_credited r es1) ->
  forall r es1 es2, es ++ (exec w ss).2 = es1 ++ es2 ->
    wrte_sent r es1 <= 1 + okay_credited r es1.
Proof.
  induction ss as [|s ss IH]; intros w es ids HI HP r es1 es2 Heq.
  - cbn [exec snd] in Heq. rewrite app_nil_r in Heq. eauto.
  - cbn [exec] in Heq.
    pose proof (Inv_step _ _ _ _ _ _ HI (step_summary w s)) as HI1.
    destruct (step_recv_first w s) as (recv & rest & Hst & Hrecv & Hrest).
    destruct (step w s) as [w1 est] eqn:Hstep. cbn [fst snd] in *.
    specialize (IH w1 (es ++ est) _ HI1).
    destruct (exec w1 ss) as [w2 es'] eqn:Hex. cbn [fst snd] in *.
    rewrite app_assoc in Heq. apply (IH) with (es2 := es2); [|exact Heq].
    clear IH Heq es1 es2 r. intros r es1 es2 Heq.
    apply app_eq_app in Heq as [l [[-> Heq]|[-> Heq]]].
    + (* the cut falls before the step *)
      apply (HP r es1 l). reflexivity.
    + (* the cut falls in the step *)
      destruct l as [|ev l]; [rewrite app_nil_r; apply (HP r es []);
                              rewrite app_nil_r; reflexivity|].
      subst est. apply (wrte_bound_in_step r es recv rest (ev :: l) es2);
        [exact Hrecv|exact Hrest|exact Heq|discriminate|].
      destruct HI1 as [_ _ _ Hall]. exact (proj1 (Hall r)).
Qed.

Lemma Inv_accept device_id input : Inv (proxy (accept device_id input)) [] [].
Proof.
  split; try reflexivity.
  intros rid. cbn. rewrite lookup_empty. unfold stream_inv. cbn.
  repeat split; try lia; try tauto.
Qed.

Lemma Inv_exec ss : forall w es ids,
  Inv (proxy w) es ids ->
  Inv (proxy (exec w ss).1) (es ++ (exec w ss).2) (ids ++ ids_assigned w ss).
Proof.
  induction ss as [|s ss IH]; intros w es ids HI.
  - cbn. rewrite !app_nil_r. exact HI.
  - cbn [exec ids_assigned].
    pose proof (Inv_step _ _ _ _ _ _ HI (step_summary w s)) as HI1.
    specialize (IH _ _ _ HI1).
    destruct (step w s) as [w1 es1]. cbn [fst snd] in *.
    destruct (exec w1 ss) as [w2 es2]. cbn [fst snd] in *.
    rewrite <- !app_assoc in IH. exact IH.
Qed.

(** Every reachable state of a connection satisfies the invariant. *)
Lemma Inv_reachable device_id input ss w es :
  exec (accept device_id input) ss = (w, es) ->
  Inv (proxy w) es (ids_assigned (accept device_id input) ss).
Proof.
  intros Hex.
  pose proof (Inv_exec ss _ _ _ (Inv_accept device_id input)) as HI.
  rewrite Hex in HI. exact HI.
Qed.

(** ** The claims about whole executions *)

(** C1 (as amended). In every execution of a device proxy and for every
    stream, at every event of the execution, the WRTE frames written toward
    the peer for the stream do not outnumber by more than one the inbound
    OKAY frames addressed to its remote id that were received since the
    stream was created: the first WRTE goes out on the starter credit
    released at construction, and the n-th is preceded by at least n-1 such
    OKAYs.  (So at most one WRTE is unacknowledged as long as the peer
    sends an OKAY only for a WRTE it has received; OKAYs sent ahead are
    credit, on which as many WRTE frames go out back to back.)  While the
    stream is not closed, its credit semaphore is non-negative and never
    exceeds one plus those OKAYs less the WRTE frames sent. *)
Theorem at_most_one_wrte_in_flight device_id input ss w es :
  exec (accept device_id input) ss = (w, es) ->
  forall rid,
    (forall es1 es2, es = es1 ++ es2 ->
       wrte_sent rid es1 <= 1 + okay_credited rid es1) /\
    forall c,
      AdbDeviceProxy.streams (proxy w) !! rid = Some c ->
      ProxyChannel.closed c = false ->
      0 <= ProxyChannel.ready_to_send c /\
      wrte_sent rid es + ProxyChannel.ready_to_send c
        <= 1 + okay_credited rid es.
Proof.
  intros Hex rid. split.
  - intros es1 es2 Hes.
    pose proof (wrte_bound_exec ss (accept device_id input) [] []
                  (Inv_accept device_id input)) as Hall.
    rewrite Hex in Hall. cbn [snd app] in Hall.
    apply (Hall) with (es2 := es2); [|exact Hes].
    intros r l1 l2 Hl. symmetry in Hl. apply app_eq_nil in Hl as [-> _].
    cbn. lia.
  - destruct (Inv_reachable _ _ _ _ _ Hex) as [_ _ _ Hst].
    specialize (Hst rid). destruct Hst as (_ & _ & _ & _ & Ho).
    intros c Hl Hc. rewrite Hl in Ho.
    destruct Ho as (_ & _ & _ & _ & Hcr). destruct (Hcr Hc) as [Hv Hle].
    pose proof (pending_nonneg c). split; [exact Hv|lia].
Qed.

(** C4 (as amended). At every point of a device proxy's execution, a
    stream that was created and has not been closed from our side is in the
    streams table, not closed; a stream in the table was created, and it is
    closed exactly when its close sequence has run; and the entry of a
    created stream is missing from the table only once an inbound CLSE
    addressed to its remote id has been processed.  (A stream closed
    because its pump hit EOF or its write path failed stays in the table
    until then.) *)
Theorem open_streams_in_table device_id input ss w es :
  exec (accept device_id input) ss = (w, es) ->
  forall rid,
    (In (SpawnSink rid) es -> ~ In (DevClose rid) es ->
     exists c, AdbDeviceProxy.streams (proxy w) !! rid = Some c /\
               ProxyChannel.closed c = false) /\
    (forall c, AdbDeviceProxy.streams (proxy w) !! rid = Some c ->
       In (SpawnSink rid) es /\
       (ProxyChannel.closed c = true <-> In (DevClose rid) es)) /\
    (In (SpawnSink rid) es ->
     AdbDeviceProxy.streams (proxy w) !! rid = None ->
     clse_received rid es).
Proof.
  intros Hex rid.
  destruct (Inv_reachable _ _ _ _ _ Hex) as [_ _ _ Hst].
  specialize (Hst rid). destruct Hst as (_ & _ & _ & _ & Ho).
  destruct (AdbDeviceProxy.streams (proxy w) !! rid) as [c|].
  - destruct Ho as (_ & Hsp & Hcl & _ & _). split; [|split].
    + intros _ Hnd. exists c. split; [reflexivity|].
      destruct (ProxyChannel.closed c); [|reflexivity].
      destruct Hnd. apply Hcl. reflexivity.
    + intros c' [= <-]. split; assumption.
    + discriminate.
  - split; [|split].
    + intros Hsp Hnd. destruct (Ho Hsp) as [Hd _]. contradiction.
    + discriminate.
    + intros Hsp _. apply Ho, Hsp.
Qed.

(** C8. Within one device proxy, the remote ids assigned across the OPEN
    frames processed are 1, 2, 3, ... in order (so pairwise distinct and
    strictly increasing from 1), [next_remote_id] is always beyond all of
    them (so none is ever assigned again), the streams created carry a
    subsequence of them, and every stream in the table sits under its own
    remote id, which is one of them. *)
Theorem remote_ids_strictly_increasing device_id input ss w es :
  exec (accept device_id input) ss = (w, es) ->
  let ids := ids_assigned (accept device_id input) ss in
  (forall i rid, ids !! i = Some rid -> rid = Z.of_nat i + 1) /\
  AdbDeviceProxy.next_remote_id (proxy w) = Z.of_nat (length ids) + 1 /\
  spawned es `sublist_of` ids /\
  forall rid c,
    AdbDeviceProxy.streams (proxy w) !! rid = Some c ->
    ProxyChannel.remote_id c = rid /\
    1 <= rid < AdbDeviceProxy.next_remote_id (proxy w).
Proof.
  intros Hex ids.
  destruct (Inv_reachable _ _ _ _ _ Hex) as [Hids Hnext Hsub Hst].
  fold ids in Hids, Hnext, Hsub.
  split; [|split; [lia|split; [exact Hsub|]]].
  - intros i rid Hi. rewrite Hids in Hi.
    rewrite list_lookup_fmap in Hi.
    destruct (seq 1 (length ids) !! i) as [n|] eqn:Hn; [|discriminate].
    apply lookup_seq in Hn. destruct Hn as [-> _].
    cbn in Hi. injection Hi as <-. lia.
  - intros rid c Hl. specialize (Hst rid). rewrite Hl in Hst.
    destruct Hst as (_ & Hs & _ & _ & Hr & Hsp & _). auto.
Qed.

(** C1, counterexample to the remark on the semaphore.  The peer opens a
    stream and closes it at once: when [close] runs in the CLSE branch
    before the pump has taken the starter unit, the semaphore of the
    stream holds two units, though construction released one and no OKAY
    came in. *)
Lemma semaphore_exceeds_after_close :
  let run := exec (accept "dev1" (open_input "sync:")) open_run in
  let c := ProxyChannel.Channel "sync:" 7 1 false 1 ProxyChannel.AtLoop in
  AdbDeviceProxy.streams (proxy run.1) !! 1 = Some c /\
  ProxyChannel.ready_to_send (ProxyChannel.close env_up c).1.1 = 2 /\
  okay_received 1 run.2 = 0.
Proof. vm_compute. repeat split. Qed.

(** C1, counterexample: with two OKAY frames sent ahead by the peer,
    three WRTE frames of the stream are written one after the other, the
    last three events of the run, with no OKAY received between them:
    three WRTE frames are unacknowledged at once. *)
Lemma wrte_back_to_back_on_early_okays :
  let es := (exec (accept "dev1" early_okays_input) early_okays_run).2 in
  map sent_frame (skipn (length es - 3) es)
  = [Some (Message (b "WRTE") 1 7 (b "a"));
     Some (Message (b "WRTE") 1 7 (b "b"));
     Some (Message (b "WRTE") 1 7 (b "c"))] /\
  wrte_sent 1 es = 3 /\ okay_credited 1 es = 2.
Proof. vm_compute. repeat split. Qed.

(** An OKAY frame that comes in before the stream exists is received, and
    dropped: it is no credit of the stream created afterwards. *)
Example okay_before_open_is_no_credit :
  let es := (exec (accept "dev1"
                     (frame "CNXN" 0x01000000 0x40000 (b "host::")
                      ++ frame "OKAY" 7 1 []
                      ++ frame "OPEN" 7 0 (b "shell:ls" ++ [Byte.x00])))
                  [RunMain env_up; RunMain env_up; RunMain env_up]).2 in
  okay_received 1 es = 1 /\ okay_credited 1 es = 0 /\ spawned es = [1].
Proof. vm_compute. repeat split. Qed.

Lemma at_most_one_wrte_in_flight_witness :
  let run := exec (accept "dev1" credit_input) credit_run in
  wrte_sent 1 run.2 = 2 /\ okay_credited 1 run.2 = 1 /\
  (forall es1 es2, run.2 = es1 ++ es2 ->
     wrte_sent 1 es1 <= 1 + okay_credited 1 es1) /\
  forall c,
    AdbDeviceProxy.streams (proxy run.1) !! 1 = Some c ->
    ProxyChannel.closed c = false ->
    0 <= ProxyChannel.ready_to_send c /\
    wrte_sent 1 run.2 + ProxyChannel.ready_to_send c
      <= 1 + okay_credited 1 run.2.
Proof.
  cbv zeta. split; [vm_compute; reflexivity|].
  split; [vm_compute; reflexivity|].
  apply (at_most_one_wrte_in_flight "dev1" credit_input credit_run).
  destruct (exec (accept "dev1" credit_input) credit_run). reflexivity.
Defined.

(** C4, counterexample: after the pump of a stream that is not a shell
    read the end of its outbound stream, the stream is closed from our side
    and still in the table. *)
Lemma closed_stream_stays_in_table :
  let '(w, es) := exec (accept "dev1" (open_input "sync:")) eof_run in
  exists c,
    AdbDeviceProxy.streams (proxy w) !! 1 = Some c /\
    ProxyChannel.closed c = true.
Proof. vm_compute. eexists. split; reflexivity. Qed.

Lemma open_streams_in_table_witness :
  let w := (exec (accept "dev1" (open_input "sync:")) eof_run).1 in
  let es := (exec (accept "dev1" (open_input "sync:")) eof_run).2 in
  (In (SpawnSink 1) es -> ~ In (DevClose 1) es ->
   exists c, AdbDeviceProxy.streams (proxy w) !! 1 = Some c /\
             ProxyChannel.closed c = false) /\
  (forall c, AdbDeviceProxy.streams (proxy w) !! 1 = Some c ->
     In (SpawnSink 1) es /\
     (ProxyChannel.closed c = true <-> In (DevClose 1) es)) /\
  (In (SpawnSink 1) es ->
   AdbDeviceProxy.streams (proxy w) !! 1 = None ->
   clse_received 1 es).
Proof.
  apply (open_streams_in_table "dev1" (open_input "sync:") eof_run).
  vm_compute. reflexivity.
Defined.

Lemma remote_ids_strictly_increasing_witness :
  let w := (exec (accept "dev1" (open_input "shell:ls")) open_run).1 in
  let es := (exec (accept "dev1" (open_input "shell:ls")) open_run).2 in
  let ids := ids_assigned (accept "dev1" (open_input "shell:ls")) open_run in
  (forall i rid, ids !! i = Some rid -> rid = Z.of_nat i + 1) /\
  AdbDeviceProxy.next_remote_id (proxy w) = Z.of_nat (length ids) + 1 /\
  spawned es `sublist_of` ids /\
  forall rid c,
    AdbDeviceProxy.streams (proxy w) !! rid = Some c ->
    ProxyChannel.remote_id c = rid /\
    1 <= rid < AdbDeviceProxy.next_remote_id (proxy w).
Proof.
  apply (remote_ids_strictly_increasing "dev1" (open_input "shell:ls") open_run).
  vm_compute. reflexivity.
Defined.

Example ids_assigned_open_run :
  ids_assigned (accept "dev1" (open_input "shell:ls")) open_run = [1].
Proof. vm_compute. reflexivity. Qed.

(** ** The pump at the end of a shell stream *)

(** C2 (as amended). For a stream whose name starts with "shell:", when
    the pump reads 0 bytes it pauses 100 ms and does not close the stream
    (nothing but the pause happens, the channel is otherwise unchanged);
    after the pause it is back at the head of its loop, where the next read
    needs one further unit of the semaphore: with none available the pump
    stays blocked there, with one available it takes it and reads. *)
Theorem shell_eof_pauses e c :
  String.prefix "shell:" (ProxyChannel.name c) = true ->
  ProxyChannel.sink_task c = ProxyChannel.AtRead ->
  ProxyChannel.sink e (ProxyChannel.ReadBytes []) c
    = (ProxyChannel.set_sink_task ProxyChannel.AtSleep c, [Sleep 100], Ok tt) /\
  (forall e' r',
     ProxyChannel.sink e' r' (ProxyChannel.set_sink_task ProxyChannel.AtSleep c)
     = (ProxyChannel.set_sink_task ProxyChannel.AtLoop c, [], Ok tt)) /\
  (forall e' r',
     ProxyChannel.closed c = false ->
     ProxyChannel.sink e' r' (ProxyChannel.set_sink_task ProxyChannel.AtLoop c)
     = if ProxyChannel.ready_to_send c <=? 0
       then (ProxyChannel.set_sink_task ProxyChannel.AtLoop c, [], Ok tt)
       else (ProxyChannel.set_sink_task ProxyChannel.AtRead
               (ProxyChannel.set_ready_to_send
                  (ProxyChannel.ready_to_send c - 1) c), [], Ok tt)).
Proof.
  intros Hname Htask. destruct c as [nm lid rid cl v k].
  cbn [ProxyChannel.name ProxyChannel.sink_task] in Hname, Htask.
  subst k. split; [|split].
  - unfold ProxyChannel.sink, ProxyChannel.sink_read. run.
    change (bool_decide (@nil byte = [])) with true. run.
    rewrite Hname. run. reflexivity.
  - intros e' r'. unfold ProxyChannel.sink. run. reflexivity.
  - intros e' r' Hcl. cbn in Hcl. subst cl.
    unfold ProxyChannel.sink. run.
    destruct (v <=? 0); run; reflexivity.
Qed.

Lemma shell_eof_pauses_witness :
  ProxyChannel.sink env_up (ProxyChannel.ReadBytes []) (shell_channel 0)
    = (ProxyChannel.set_sink_task ProxyChannel.AtSleep (shell_channel 0),
       [Sleep 100], Ok tt).
Proof.
  apply (shell_eof_pauses env_up (shell_channel 0)); reflexivity.
Defined.

(** C2, counterexample: a shell pump that read the end of its stream does
    not resume reading without a further unit of credit.  With one unit in
    the semaphore, the read after the pause has consumed it; with none, the
    pump is not reading after the pause, however often it is scheduled. *)
Lemma shell_eof_needs_credit :
  let again c := (ProxyChannel.sink env_up (ProxyChannel.ReadBytes []) c).1.1 in
  let c1 := again (again (again (shell_channel 1))) in
  let c0 := again (again (again (shell_channel 0))) in
  (ProxyChannel.sink_task c1 = ProxyChannel.AtRead /\
   ProxyChannel.ready_to_send c1 = 0) /\
  (ProxyChannel.sink_task c0 = ProxyChannel.AtLoop /\ again c0 = c0).
Proof. vm_compute. repeat split. Qed.

(** ** The host-ADB service client *)

Lemma readexactly_app x y :
  readexactly (Z.of_nat (length x)) (x ++ y) = Ok (x, y).
Proof.
  unfold readexactly.
  destruct (Z.ltb_spec (Z.of_nat (length x)) 0) as [Hneg|_]; [lia|].
  rewrite Nat2Z.id, length_app.
  destruct (Nat.leb_spec (length x) (length x + length y)) as [_|Hlt]; [|lia].
  rewrite firstn_app, Nat.sub_diag, firstn_all, firstn_O, app_nil_r.
  rewrite skipn_app, Nat.sub_diag, skipn_all, skipn_O. reflexivity.
Qed.

Lemma readexactly_4 x y :
  length x = 4%nat -> readexactly 4 (x ++ y) = Ok (x, y).
Proof. intros Hx. rewrite <- (readexactly_app x y), Hx. reflexivity. Qed.

(** The [try] block of the failure path always ends in a raise. *)
Lemma read_failure_raises rd : is_ok (read_failure rd tt).2 = false.
Proof.
  unfold read_failure. run_M.
  destruct (readexactly 4 rd) as [[len_b rd1]|]; [|reflexivity].
  destruct (py_int16 len_b) as [n|]; [|reflexivity].
  destruct (readexactly n rd1) as [[err rd2]|]; [|reflexivity].
  destruct (decode err); reflexivity.
Qed.

(** A request refused by the host ADB server: what is left of the loop. *)
Lemma request_refused {S} destination cmd cmds status rest (s : S) :
  length status = 4%nat -> status <> b "OKAY" ->
  request_loop destination (cmd :: cmds) (status ++ rest) s =
  (s,
   HostWrite (format_04x (Z.of_nat (length (encode cmd))) ++ encode cmd)
     :: (read_failure rest tt).1.2 ++ [HostClose],
   Raise (PyException ("Failed to open " ++ destination))).
Proof.
  intros Hlen Hne. cbn [request_loop]. run_M.
  rewrite (readexactly_4 status rest Hlen).
  rewrite (bytes_eqb_false _ _ Hne).
  rewrite (read_failure_state rest s).
  pose proof (read_failure_raises rest) as Hr.
  destruct (read_failure rest tt) as [[[] es] [a|x]]; [discriminate|].
  reflexivity.
Qed.

Lemma request_accepted {S} destination cmd cmds rest (s : S) :
  request_loop destination (cmd :: cmds) (b "OKAY" ++ rest) s =
  let '(s', es, r) := request_loop destination cmds rest s in
  (s', HostWrite (format_04x (Z.of_nat (length (encode cmd))) ++ encode cmd)
         :: es, r).
Proof.
  cbn [request_loop]. run_M.
  rewrite (readexactly_4 (b "OKAY") rest eq_refl).
  change (bytes_eqb (b "OKAY") (b "OKAY")) with true.
  destruct (request_loop destination cmds rest s) as [[s' es] r]. reflexivity.
Qed.

Lemma open_client_stream_refused {St} e device_id destination (s : St)
    phase status rest :
  (phase < 2)%nat ->
  host e = Some (okays phase ++ status ++ rest) ->
  length status = 4%nat -> status <> b "OKAY" ->
  open_client_stream e device_id destination s =
  (s,
   HostConnect :: requests device_id destination (S phase)
     ++ (read_failure rest tt).1.2 ++ [HostClose],
   Raise (PyException ("Failed to open " ++ destination))).
Proof.
  intros Hphase Hhost Hlen Hne.
  unfold open_client_stream. run_M. rewrite Hhost.
  destruct phase as [|[|phase]]; [| |lia]; cbn [okays repeat concat app].
  - rewrite (request_refused _ _ _ _ _ _ Hlen Hne). reflexivity.
  - rewrite <- app_assoc. rewrite request_accepted.
    cbn [app]. rewrite (request_refused _ _ _ _ _ _ Hlen Hne).
    reflexivity.
Qed.

(** C6 (as amended). When the host ADB server answers a request of
    [open_client_stream] with a status other than OKAY, the function tries
    to read a 4-hex-digit length and that many bytes of diagnostic text
    (and, when the host sends them, reads exactly those), closes the
    connection, and fails with an error; the error is the same whether the
    transport request or the service request was refused. *)
Theorem open_client_stream_failure e device_id destination
    phase status rest :
  (phase < 2)%nat ->
  host e = Some (okays phase ++ status ++ rest) ->
  length status = 4%nat -> status <> b "OKAY" ->
  exists x,
    open_client_stream e device_id destination tt =
      (tt,
       HostConnect :: requests device_id destination (S phase)
         ++ (read_failure rest tt).1.2 ++ [HostClose],
       Raise x) /\
    (forall e' phase',
       (phase' < 2)%nat ->
       host e' = Some (okays phase' ++ status ++ rest) ->
       (open_client_stream e' device_id destination tt).2 = Raise x) /\
    (forall len_b msg tail,
       rest = len_b ++ msg ++ tail ->
       length len_b = 4%nat ->
       py_int16 len_b = Ok (Z.of_nat (length msg)) ->
       utf8_valid msg = true ->
       read_failure rest tt =
         (tt, [HostClose],
          Raise (PyException ("Failed: " ++ string_of_list_byte msg)))).
Proof.
  intros Hphase Hhost Hlen Hne.
  exists (PyException ("Failed to open " ++ destination)).
  split; [|split].
  - apply (open_client_stream_refused e _ _ tt phase status rest); assumption.
  - intros e' phase' Hphase' Hhost'.
    rewrite (open_client_stream_refused e' _ _ tt phase' status rest);
      [reflexivity|assumption..].
  - intros len_b msg tail -> Hl Hint Hutf.
    unfold read_failure. run_M.
    rewrite (readexactly_4 len_b _ Hl), Hint, readexactly_app.
    unfold decode. rewrite Hutf. reflexivity.
Qed.

Lemma open_client_stream_failure_witness :
  exists x,
    open_client_stream (Env true true (Some (b "OKAYFAIL0005hello")))
      "dev1" "shell:ls" tt =
      (tt,
       HostConnect :: requests "dev1" "shell:ls" 2
         ++ (read_failure (b "0005hello") tt).1.2 ++ [HostClose],
       Raise x) /\
    read_failure (b "0005hello") tt =
      (tt, [HostClose], Raise (PyException "Failed: hello")).
Proof.
  destruct (open_client_stream_failure
              (Env true true (Some (b "OKAYFAIL0005hello")))
              "dev1" "shell:ls" 1 (b "FAIL") (b "0005hello"))
    as (x & H1 & _ & H3).
  - lia.
  - reflexivity.
  - reflexivity.
  - vm_compute. discriminate.
  - exists x. split; [exact H1|].
    apply (H3 (b "0005") (b "hello") []); reflexivity.
Defined.

(** C6, counterexample: the error of a refused transport request with the
    diagnostic "hello" and the error of a refused service request with the
    diagnostic "world" are one and the same; it names the destination, not
    the phase nor the diagnostic. *)
Lemma open_error_has_no_phase_nor_diagnostic :
  (open_client_stream (Env true true (Some (b "FAIL0005hello")))
     "dev1" "shell:ls" tt).2
    = Raise (PyException "Failed to open shell:ls") /\
  (open_client_stream (Env true true (Some (b "OKAYFAIL0005world")))
     "dev1" "shell:ls" tt).2
    = Raise (PyException "Failed to open shell:ls").
Proof. vm_compute. split; reflexivity. Qed.

(** ** Witnesses and counterexamples for the dispatch loop *)

Lemma open_failure_rejected_witness :
  exists wire w',
    handle_connection env_refused
      (looping (frame "OPEN" 7 0 (b "shell:exit" ++ [Byte.x00])))
      = (w', [PeerRecv (Message (b "OPEN") 7 0 (b "shell:exit" ++ [Byte.x00]))]
               ++ [HostConnect] ++ [PeerWrite wire] ++ []) /\
    sent_frame (PeerWrite wire) = Some (Message (b "CLSE") 7 0 []) /\
    AdbDeviceProxy.streams (proxy w') = ∅ /\
    AdbDeviceProxy.next_remote_id (proxy w') = 2 /\
    main_task w' = Loop.
Proof.
  apply (open_failure_rejected env_refused
           (looping (frame "OPEN" 7 0 (b "shell:exit" ++ [Byte.x00])))
           (Message (b "OPEN") 7 0 (b "shell:exit" ++ [Byte.x00])) []
           "shell:exit" [HostConnect] ConnectionError).
  - reflexivity.
  - vm_compute. reflexivity.
  - reflexivity.
  - vm_compute. reflexivity.
  - vm_compute. reflexivity.
Defined.

(** C9, counterexample: the peer link is lost when the proxy rejects the
    OPEN; the CLSE send raises and the proxy leaves its dispatch loop. *)
Lemma open_failure_ends_loop_when_peer_lost :
  main_task
    (handle_connection env_refused_peer_lost
       (looping (frame "OPEN" 7 0 (b "shell:exit" ++ [Byte.x00])))).1
  = Returned.
Proof. vm_compute. reflexivity. Qed.

Lemma unknown_command_ignored_witness :
  handle_connection env_up (looping (frame "CNXN" 0x01000000 0x40000 (b "host::")))
  = (World (AdbDeviceProxy.init "dev1") [] Loop,
     [PeerRecv (Message (b "CNXN") 0x01000000 0x40000 (b "host::"))]).
Proof.
  apply (unknown_command_ignored env_up
           (looping (frame "CNXN" 0x01000000 0x40000 (b "host::")))
           (Message (b "CNXN") 0x01000000 0x40000 (b "host::")) []).
  - reflexivity.
  - vm_compute. reflexivity.
  - vm_compute. discriminate.
  - vm_compute. discriminate.
  - vm_compute. discriminate.
  - vm_compute. discriminate.
Defined.

(** ** Termination of the handler *)

(** [dispatch] touches the table under the id the frame addresses and
    under the next id to assign, nowhere else. *)
Lemma dispatch_other_streams e m p rid :
  rid <> m_arg1 m -> rid <> AdbDeviceProxy.next_remote_id p ->
  AdbDeviceProxy.streams (AdbDeviceProxy.dispatch e m p).1.1 !! rid
  = AdbDeviceProxy.streams p !! rid.
Proof.
  intros Hne1 Hne2. unfold AdbDeviceProxy.dispatch.
  destruct (bytes_eqb (m_cmd m) (b "OPEN")).
  { run. destruct (decode (rstrip_nul (m_data m))) as [destination|x]; run;
      [|reflexivity].
    rewrite open_client_stream_state. proj_simpl.
    destruct (open_client_stream e _ destination tt) as [[[] hes] [[]|x]]; run.
    - unfold ProxyChannel.init. run. rewrite sending_run.
      destruct (sending e (b "OKAY") _ _ []) as [oes [[]|x]]; run.
      + apply lookup_insert_ne. congruence.
      + rewrite sending_run.
        destruct (sending e (b "CLSE") _ _ []) as [ces rc]; run.
        apply lookup_insert_ne. congruence.
    - rewrite sending_run.
      destruct (sending e (b "CLSE") _ _ []) as [ces rc]; run. reflexivity. }
  destruct (bytes_eqb (m_cmd m) (b "WRTE")).
  { run. destruct (AdbDeviceProxy.streams p !! m_arg1 m) as [c|]; run;
      [|reflexivity].
    destruct (ProxyChannel.write e (m_data m) c) as [[c' es] r]. run.
    apply lookup_insert_ne. congruence. }
  destruct (bytes_eqb (m_cmd m) (b "OKAY")).
  { run. destruct (AdbDeviceProxy.streams p !! m_arg1 m) as [c|]; run;
      [|reflexivity].
    apply lookup_insert_ne. congruence. }
  destruct (bytes_eqb (m_cmd m) (b "CLSE")).
  { run. destruct (AdbDeviceProxy.streams p !! m_arg1 m) as [c|]; run.
    - destruct (ProxyChannel.close e c) as [[c' es] [[]|x]]; run.
      + rewrite lookup_delete_ne by congruence.
        apply lookup_insert_ne. congruence.
      + apply lookup_insert_ne. congruence.
    - rewrite sending_run.
      destruct (sending e (b "CLSE") _ _ []) as [ces rc]; run. reflexivity. }
  run. reflexivity.
Qed.

(** C3 (as amended). When the device proxy terminates, on a decode error,
    on peer EOF or on a handler exception, the handler closes the peer link
    before it returns, and does nothing else: from the state the failing
    turn of [run] left, no stream is closed, no CLSE is written and no pump
    task is cancelled.  On a decode error or peer EOF the whole proxy is as
    it was; on a handler exception every stream other than the one the
    failing frame addresses is still in the table as it was. *)
Theorem termination_closes_peer_link_only device_id input ss w es0 e w' es :
  exec (accept device_id input) ss = (w, es0) ->
  main_task w <> Returned ->
  handle_connection e w = (w', es) ->
  main_task w' = Returned ->
  (exists w1 es1 x,
     run_turn (main_task w) e w = (w1, es1, Raise x) /\
     w' = set_main_task Returned w1 /\ es = es1 ++ [PeerClose]) /\
  (forall x, recv_cmd (reader w) = Raise x ->
     w' = set_main_task Returned w /\ es = [PeerClose]) /\
  (forall m rest rid c,
     recv_cmd (reader w) = Ok (m, rest) ->
     AdbDeviceProxy.streams (proxy w) !! rid = Some c ->
     rid <> m_arg1 m ->
     AdbDeviceProxy.streams (proxy w') !! rid = Some c).
Proof.
  intros Hex Hmain Hstep Hret.
  destruct (Inv_reachable _ _ _ _ _ Hex) as [_ _ _ Hst].
  unfold handle_connection in Hstep.
  assert (Hturn : (let '(w1, es1, r) := run_turn (main_task w) e w in
                   match r with
                   | Ok _ => (set_main_task Loop w1, es1)
                   | Raise _ => (set_main_task Returned w1, es1 ++ [PeerClose])
                   end) = (w', es)).
  { destruct (main_task w); [exact Hstep|exact Hstep|congruence]. }
  clear Hstep.
  destruct (run_turn (main_task w) e w) as [[w1 es1] [[]|x]] eqn:Hrun.
  { injection Hturn as <- <-. discriminate Hret. }
  injection Hturn as <- <-.
  split; [exists w1, es1, x; auto|]. split.
  - intros x' Hrecv. revert Hrun.
    unfold run_turn, run_handshake, run_loop, proxy_recv_cmd.
    destruct (main_task w); run_M; rewrite Hrecv; intros [= <- <- _]; auto.
  - intros m rest rid c Hrecv Hl Hne. proj_simpl. revert Hrun.
    unfold run_turn, run_handshake, run_loop, proxy_recv_cmd.
    destruct (main_task w); [| |congruence]; intros Hrun.
    + (* the handshake leaves the table alone *)
      revert Hrun. run_M. rewrite Hrecv.
      destruct (bytes_eqb (m_cmd m) (b "CNXN")); run.
      * rewrite sending_run.
        destruct (sending e (b "CNXN") _ _ _) as [ces [[]|x']]; run;
          intros H; inversion H; subst; exact Hl.
      * intros H; inversion H; subst. exact Hl.
    + revert Hrun. run_M. rewrite Hrecv. run.
      pose proof (dispatch_other_streams e m (proxy w) rid Hne) as Hd.
      destruct (AdbDeviceProxy.dispatch e m (proxy w)) as [[p' es'] r'].
      run. intros H; inversion H; subst. proj_simpl. rewrite Hd; [exact Hl|].
      specialize (Hst rid). rewrite Hl in Hst.
      destruct Hst as (_ & Hs & _ & _ & _ & Hsp & _).
      specialize (Hs Hsp). lia.
Qed.

Lemma termination_closes_peer_link_only_witness :
  let w := (exec (accept "dev1" (open_input "shell:ls")) open_run).1 in
  handle_connection env_up w
    = (set_main_task Returned w, [PeerClose]).
Proof.
  intros w.
  destruct (termination_closes_peer_link_only
              "dev1" (open_input "shell:ls") open_run w
              (exec (accept "dev1" (open_input "shell:ls")) open_run).2
              env_up (handle_connection env_up w).1
              (handle_connection env_up w).2) as (_ & H & _).
  - vm_compute. reflexivity.
  - vm_compute. discriminate.
  - vm_compute. reflexivity.
  - vm_compute. reflexivity.
  - destruct (H IncompleteReadError) as [H1 H2]; [vm_compute; reflexivity|].
    rewrite (surjective_pairing (handle_connection env_up w)), H1, H2.
    reflexivity.
Defined.

(** C3, counterexample: the peer ends the stream while stream 1 is open.
    The handler returns with the peer link closed, and stream 1 is still in
    the table, not closed, its pump task not cancelled; the trace holds no
    close of its outbound writer and no CLSE frame. *)
Lemma termination_leaves_streams_open :
  let '(w, es) := exec (accept "dev1" (open_input "shell:ls")) peer_eof_run in
  main_task w = Returned /\
  AdbDeviceProxy.streams (proxy w) !! 1
    = Some (ProxyChannel.Channel "shell:ls" 7 1 false 1 ProxyChannel.AtLoop) /\
  ~ In (CancelSink 1) es /\ ~ In (DevClose 1) es /\
  count (fun ev => match sent_frame ev with
                   | Some m => bytes_eqb (m_cmd m) (b "CLSE")
                   | None => false
                   end) es = 0.
Proof.
  vm_compute. repeat split; intros H;
    repeat (destruct H as [H|H]; [discriminate|]); exact H.
Qed.

(** ** Scenarios *)

(** A request of length 0xFFFF is announced as "ffff". *)
Example format_04x_ffff : format_04x 0xFFFF = b "ffff".
Proof. vm_compute. reflexivity. Qed.

(** The handshake: whatever the peer's CNXN announces, the proxy answers
    with its own version, payload limit and banner. *)
Example handshake_reply :
  (exec (accept "dev1" (frame "CNXN" 0x01000000 0x1000 (b "host::")))
        [RunMain env_up]).2
  = [PeerRecv (Message (b "CNXN") 0x01000000 0x1000 (b "host::"));
     PeerWrite (frame "CNXN" 0x01000000 0x40000
                  (b "device::proxy_dev1" ++ [Byte.x00]))].
Proof. vm_compute. reflexivity. Qed.

(** Open, then the device delivers "hi": OKAY(1, 7), then WRTE(1, 7, "hi"). *)
Example open_then_write :
  map sent_frame
    (exec (accept "dev1" (open_input "shell:echo hi"))
          (open_run ++ [RunSink 1 env_up (ProxyChannel.ReadBytes []);
                        RunSink 1 env_up (ProxyChannel.ReadBytes (b "hi"))])).2
  = [None;
     Some (Message (b "CNXN") 0x01000000 0x40000
             (b "device::proxy_dev1" ++ [Byte.x00]));
     None; None; None; None; None;
     Some (Message (b "OKAY") 1 7 []);
     Some (Message (b "WRTE") 1 7 (b "hi"))].
Proof. vm_compute. reflexivity. Qed.

(** The peer writes to the device: the bytes go to the outbound stream,
    then OKAY(1, 7) goes to the peer. *)
Example peer_writes_to_device :
  (handle_connection env_up
     (set_reader (frame "WRTE" 7 1 (b "cmd"))
        (exec (accept "dev1" (open_input "shell:sh")) open_run).1)).2
  = [PeerRecv (Message (b "WRTE") 7 1 (b "cmd"));
     DevWrite 1 (b "cmd");
     PeerWrite (frame "OKAY" 1 7 [])].
Proof. vm_compute. reflexivity. Qed.

(** ** More on the frame codec *)

(** [recv_cmd] on a header whose fields are given, followed by [tail]. *)
Lemma recv_cmd_header cmd arg0 arg1 len crc tail :
  length cmd = 4%nat -> in_u32 arg0 = true -> in_u32 arg1 = true ->
  in_u32 len = true -> in_u32 crc = true ->
  recv_cmd (le_split 4 (le_combine cmd) ++ le_split 4 arg0 ++ le_split 4 arg1
            ++ le_split 4 len ++ le_split 4 crc
            ++ le_split 4 (Z.lxor (le_combine cmd) u32_max) ++ tail)
  = '(data, rd2) ← readexactly len tail;
    Ok (Message cmd arg0 arg1 data, rd2).
Proof.
  intros Hl H0 H1 Hd Hc.
  pose proof (split_le_combine' cmd 4%nat Hl) as Hcmd.
  set (id := le_combine cmd) in *.
  assert (Hid : in_u32 id = true) by (apply le_combine_u32, Hl).
  assert (Hm : in_u32 (Z.lxor id u32_max) = true).
  { apply in_u32_spec. apply lxor_u32.
    - apply in_u32_spec, Hid.
    - unfold u32_max. lia. }
  pose proof (le_split4_combine id Hid) as E0.
  pose proof (le_split4_combine arg0 H0) as E1.
  pose proof (le_split4_combine arg1 H1) as E2.
  pose proof (le_split4_combine len Hd) as E3.
  pose proof (le_split4_combine _ Hm) as E5.
  revert Hcmd E0 E1 E2 E3 E5.
  cbv [le_split]. intros Hcmd E0 E1 E2 E3 E5.
  unfold recv_cmd, readexactly.
  change (Z.to_nat 24) with 24%nat.
  cbn [Z.ltb Z.compare Z.to_nat Pos.to_nat Pos.iter_op Nat.add app length
       Nat.leb firstn skipn mbind res_bind Nat.mul].
  rewrite ?firstn_O, ?skipn_O.
  rewrite E0, E1, E2, E3, E5, lxor_u32_max_involutive, Z.eqb_refl.
  cbn [negb]. rewrite Hcmd. reflexivity.
Qed.

(** X1. A frame cut short is never taken for a frame: on any proper prefix
    of the bytes [send_cmd] writes for a frame, [recv_cmd] fails with
    [IncompleteReadError], whether the cut falls in the header or in the
    payload. *)
Theorem recv_cmd_truncated cmd arg0 arg1 data wire n :
  frame_bytes cmd arg0 arg1 data = Ok wire ->
  (n < length wire)%nat ->
  recv_cmd (firstn n wire) = Raise IncompleteReadError.
Proof.
  intros Hw Hn.
  apply frame_bytes_inv in Hw as (Hl & H0 & H1 & Hd & ->).
  destruct (Nat.lt_ge_cases n 24) as [Hshort|Hlong].
  - unfold recv_cmd, readexactly. change (24 <? 0) with false. cbv iota.
    change (Z.to_nat 24) with 24%nat.
    destruct (Nat.leb_spec 24 (length (firstn n
      (le_split 4 (le_combine cmd) ++ le_split 4 arg0 ++ le_split 4 arg1
       ++ le_split 4 (Z.of_nat (length data)) ++ le_split 4 (crc32 data)
       ++ le_split 4 (Z.lxor (le_combine cmd) u32_max) ++ data))))
      as [Hge|_]; [|reflexivity].
    rewrite length_firstn in Hge. lia.
  - rewrite !length_app, !length_le_split in Hn.
    replace n with (24 + (n - 24))%nat by lia.
    rewrite !app_assoc.
    match goal with |- context [firstn _ (?h ++ data)] => set (hd := h) end.
    assert (Hh : length hd = 24%nat).
    { subst hd. rewrite !length_app, !length_le_split. reflexivity. }
    rewrite firstn_app, Hh, firstn_all2 by lia.
    replace (24 + (n - 24) - 24)%nat with (n - 24)%nat by lia.
    subst hd. rewrite <- !app_assoc.
    rewrite recv_cmd_header by (assumption || apply crc32_in_u32).
    unfold readexactly.
    destruct (Z.ltb_spec (Z.of_nat (length data)) 0) as [Hneg|_]; [lia|].
    rewrite Nat2Z.id, length_firstn.
    destruct (Nat.leb_spec (length data) (Nat.min (n - 24) (length data)))
      as [Hge|_]; [lia|reflexivity].
Qed.

Lemma recv_cmd_truncated_witness :
  recv_cmd (firstn 25 (frame "WRTE" 1 7 (b "hi"))) = Raise IncompleteReadError.
Proof.
  apply (recv_cmd_truncated (b "WRTE") 1 7 (b "hi")).
  - vm_compute. reflexivity.
  - vm_compute. reflexivity.
Defined.

(** X2. [recv_cmd] never checks the checksum: whatever the four bytes of
    the [data_crc32] field (bytes 16 to 19 of the header) are, the outcome
    is the same, frame or error. *)
Theorem recv_cmd_ignores_crc h crc crc' tl :
  length h = 16%nat -> length crc = 4%nat -> length crc' = 4%nat ->
  recv_cmd (h ++ crc ++ tl) = recv_cmd (h ++ crc' ++ tl).
Proof.
  intros Hh Hc Hc'.
  do 17 (destruct h as [|? h]; try discriminate Hh).
  do 5 (destruct crc as [|? crc]; try discriminate Hc).
  do 5 (destruct crc' as [|? crc']; try discriminate Hc').
  unfold recv_cmd, readexactly. change (24 <? 0) with false. cbv iota.
  change (Z.to_nat 24) with 24%nat.
  do 4 (destruct tl as [|? tl]; [reflexivity|]).
  cbn [app length Nat.leb firstn skipn mbind res_bind Nat.mul Nat.add].
  rewrite ?firstn_O, ?skipn_O. reflexivity.
Qed.

Lemma recv_cmd_ignores_crc_witness :
  recv_cmd (firstn 16 (frame "WRTE" 1 7 (b "hi")) ++ b "0000"
            ++ skipn 20 (frame "WRTE" 1 7 (b "hi")))
  = recv_cmd (firstn 16 (frame "WRTE" 1 7 (b "hi")) ++ b "ABCD"
              ++ skipn 20 (frame "WRTE" 1 7 (b "hi"))).
Proof.
  apply (recv_cmd_ignores_crc (firstn 16 (frame "WRTE" 1 7 (b "hi")))
           (b "0000") (b "ABCD")); vm_compute; reflexivity.
Defined.

(** X3. Every frame [recv_cmd] accepts is, but for its checksum field, a
    frame [send_cmd] writes: re-encoding the message read gives back the
    bytes consumed, except bytes 16 to 19. *)
Theorem recv_cmd_reencodes rd m rest :
  recv_cmd rd = Ok (m, rest) ->
  exists wire crc,
    frame_bytes (m_cmd m) (m_arg0 m) (m_arg1 m) (m_data m) = Ok wire /\
    length crc = 4%nat /\
    rd = firstn 16 wire ++ crc ++ skipn 20 wire ++ rest.
Proof.
  intros Hrecv.
  destruct (recv_cmd_inv _ _ _ Hrecv) as (Hl & H0 & H1).
  revert Hrecv. unfold recv_cmd, readexactly.
  change (24 <? 0) with false. cbv iota.
  change (Z.to_nat 24) with 24%nat.
  do 24 (destruct rd as [|? rd]; [discriminate|]).
  cbn [app length Nat.leb firstn skipn mbind res_bind Nat.mul Nat.add].
  rewrite ?firstn_O, ?skipn_O.
  match goal with
  | |- context [negb (?a =? ?c)] => destruct (Z.eqb_spec a c) as [Hmagic|]
  end; [|discriminate].
  cbn [negb].
  match goal with
  | |- context [le_combine ?l <? 0] => set (len := le_combine l) in *
  end.
  destruct (Z.ltb_spec len 0) as [|Hlen0]; [discriminate|].
  destruct (Nat.leb_spec (Z.to_nat len) (length rd)) as [Hlen|]; [|discriminate].
  cbn [mbind res_bind]. intros [= <- <-].
  cbn [m_cmd m_arg0 m_arg1 m_data] in *.
  assert (Hdl : Z.of_nat (length (firstn (Z.to_nat len) rd)) = len).
  { rewrite length_firstn. lia. }
  assert (Hd : in_u32 (Z.of_nat (length (firstn (Z.to_nat len) rd))) = true).
  { rewrite Hdl. subst len. apply (le_combine_u32 [_; _; _; _]). reflexivity. }
  destruct (frame_bytes_ok _ _ _ _ Hl H0 H1 Hd) as [wire Hw].
  exists wire. eexists [_; _; _; _].
  split; [exact Hw|]. split; [reflexivity|].
  apply frame_bytes_inv in Hw as (_ & _ & _ & _ & ->).
  rewrite Hdl. subst len.
  rewrite !(split_le_combine' [_; _; _; _] 4%nat eq_refl).
  rewrite Hmagic, lxor_u32_max_involutive.
  rewrite !(split_le_combine' [_; _; _; _] 4%nat eq_refl).
  cbv [le_split]. cbn [app firstn skipn].
  rewrite firstn_skipn. reflexivity.
Qed.

Lemma recv_cmd_reencodes_witness :
  exists wire crc,
    frame_bytes (b "OPEN") 7 0 (b "sync:") = Ok wire /\
    length crc = 4%nat /\
    frame "OPEN" 7 0 (b "sync:") ++ b "more"
    = firstn 16 wire ++ crc ++ skipn 20 wire ++ b "more".
Proof.
  apply (recv_cmd_reencodes (frame "OPEN" 7 0 (b "sync:") ++ b "more")
           (Message (b "OPEN") 7 0 (b "sync:")) (b "more")).
  vm_compute. reflexivity.
Defined.

(** X4. [send_cmd] writes one whole frame or nothing.  When the tag has
    four bytes and both arguments and the payload length fit in 32 bits,
    it writes exactly one frame of 24 bytes plus the payload, which reads
    back as the message sent, and raises only if [drain()] finds the
    connection lost; otherwise it raises [struct.error] before anything
    is written.  In both cases the caller's object is untouched. *)
Theorem send_cmd_one_frame_or_nothing {St} e cmd arg0 arg1 data (s : St) :
  if (length cmd =? 4)%nat && in_u32 arg0 && in_u32 arg1
     && in_u32 (Z.of_nat (length data))
  then exists wire,
         send_cmd e cmd arg0 arg1 data s
           = (s, [PeerWrite wire],
              if peer_ok e then Ok tt else Raise ConnectionError) /\
         length wire = (24 + length data)%nat /\
         sent_frame (PeerWrite wire) = Some (Message cmd arg0 arg1 data)
  else send_cmd e cmd arg0 arg1 data s = (s, [], Raise StructError).
Proof.
  rewrite send_cmd_run.
  destruct (Nat.eqb_spec (length cmd) 4) as [Hl|Hl]; cbn [andb].
  - destruct (in_u32 arg0) eqn:H0; cbn [andb].
    + destruct (in_u32 arg1) eqn:H1; cbn [andb].
      * destruct (in_u32 (Z.of_nat (length data))) eqn:Hd.
        -- destruct (frame_bytes_ok _ _ _ _ Hl H0 H1 Hd) as [wire Hw].
           exists wire. rewrite Hw. split; [reflexivity|].
           split; [|apply sent_frame_bytes, Hw].
           apply frame_bytes_inv in Hw as (_ & _ & _ & _ & ->).
           rewrite !length_app, !length_le_split. reflexivity.
        -- unfold frame_bytes, unpack_u32. cbn [mbind res_bind].
           rewrite (proj2 (Nat.eqb_eq _ _) Hl).
           cbn [pack_u32s mbind res_bind]. unfold pack_u32.
           rewrite (le_combine_u32 cmd Hl), H0, H1, Hd. reflexivity.
      * unfold frame_bytes, unpack_u32. cbn [mbind res_bind].
        rewrite (proj2 (Nat.eqb_eq _ _) Hl).
        cbn [pack_u32s mbind res_bind]. unfold pack_u32.
        rewrite (le_combine_u32 cmd Hl), H0, H1. reflexivity.
    + unfold frame_bytes, unpack_u32. cbn [mbind res_bind].
      rewrite (proj2 (Nat.eqb_eq _ _) Hl).
      cbn [pack_u32s mbind res_bind]. unfold pack_u32.
      rewrite (le_combine_u32 cmd Hl), H0. reflexivity.
  - unfold frame_bytes, unpack_u32. cbn [mbind res_bind].
    rewrite (proj2 (Nat.eqb_neq _ _) Hl). reflexivity.
Qed.

(** ** More on the host-ADB service client *)

Lemma hex_digit_facts d :
  0 <= d < 16 ->
  let c := hex_digit d in
  is_space c = false /\ in_range c 0x2B 0x2B = false /\
  in_range c 0x2D 0x2D = false /\ in_range c 0x78 0x78 = false /\
  in_range c 0x58 0x58 = false /\ in_range c 0x5F 0x5F = false /\
  hex_value c = Some d.
Proof.
  intros Hd.
  assert (Hall : forallb digit_facts (map Z.of_nat (seq 0 16)) = true)
    by (vm_compute; reflexivity).
  rewrite forallb_forall in Hall.
  specialize (Hall d). 
  assert (Hin : In d (map Z.of_nat (seq 0 16))).
  { apply in_map_iff. exists (Z.to_nat d). split; [lia|].
    apply in_seq. lia. }
  specialize (Hall Hin). unfold digit_facts in Hall. cbv zeta in *.
  rewrite !andb_true_iff, !negb_true_iff in Hall.
  destruct Hall as ((((((H1 & H2) & H3) & H4) & H5) & H6) & H7).
  repeat (split; [assumption|]).
  destruct (hex_value (hex_digit d)) as [v|]; [|discriminate].
  apply Z.eqb_eq in H7. congruence.
Qed.

(** [int(x, 16)] on four digits of [format_04x]. *)
Lemma py_int16_digits d3 d2 d1 d0 :
  0 <= d3 < 16 -> 0 <= d2 < 16 -> 0 <= d1 < 16 -> 0 <= d0 < 16 ->
  py_int16 [hex_digit d3; hex_digit d2; hex_digit d1; hex_digit d0]
  = Ok (4096 * d3 + 256 * d2 + 16 * d1 + d0).
Proof.
  intros H3 H2 H1 H0.
  destruct (hex_digit_facts d3 H3) as (S3 & P3 & M3 & _ & _ & U3 & V3).
  destruct (hex_digit_facts d2 H2) as (_ & _ & _ & x2 & X2 & U2 & V2).
  destruct (hex_digit_facts d1 H1) as (_ & _ & _ & _ & _ & U1 & V1).
  destruct (hex_digit_facts d0 H0) as (S0 & _ & _ & _ & _ & U0 & V0).
  unfold py_int16. cbn [lstrip_space]. rewrite S3.
  cbn [rev app lstrip_space]. rewrite S0. cbn [rev app].
  rewrite P3, M3, x2, X2, andb_false_r, U3.
  cbn [hex_number]. rewrite U3, V3, U2, V2, U1, V1, U0, V0.
  f_equal. lia.
Qed.

Lemma hex_digits_length fuel n acc :
  (length acc <= length (hex_digits fuel n acc))%nat.
Proof.
  revert n acc. induction fuel as [|fuel IH]; intros n acc; cbn [hex_digits];
    [lia|].
  destruct (n / 16 =? 0); cbn [length]; [lia|].
  specialize (IH (n / 16) (hex_digit (n mod 16) :: acc)). cbn [length] in IH.
  lia.
Qed.

Lemma log2_fuel n k :
  2 ^ k <= n -> 0 <= k -> (Z.to_nat k <= Z.to_nat (Z.log2 n))%nat.
Proof.
  intros Hn Hk. apply Z2Nat.inj_le; [lia|apply Z.log2_nonneg|].
  apply Z.log2_le_pow2; lia.
Qed.

(** The length prefix of a request and its parse. *)
Lemma py_int16_format_04x n :
  0 <= n <= 0xFFFF ->
  length (format_04x n) = 4%nat /\ py_int16 (format_04x n) = Ok n.
Proof.
  intros Hn. unfold format_04x.
  set (q1 := n / 16). set (q2 := q1 / 16). set (q3 := q2 / 16).
  assert (Hd0 : 0 <= n mod 16 < 16) by (apply Z.mod_pos_bound; lia).
  assert (Hd1 : 0 <= q1 mod 16 < 16) by (apply Z.mod_pos_bound; lia).
  assert (Hd2 : 0 <= q2 mod 16 < 16) by (apply Z.mod_pos_bound; lia).
  assert (Hd3 : 0 <= q3 mod 16 < 16) by (apply Z.mod_pos_bound; lia).
  assert (E1 : n = 16 * q1 + n mod 16) by (apply Z.div_mod; lia).
  assert (E2 : q1 = 16 * q2 + q1 mod 16) by (apply Z.div_mod; lia).
  assert (E3 : q2 = 16 * q3 + q2 mod 16) by (apply Z.div_mod; lia).
  assert (Hq1 : 0 <= q1) by (apply Z.div_pos; lia).
  assert (Hq2 : 0 <= q2) by (apply Z.div_pos; lia).
  assert (Hq3 : 0 <= q3) by (apply Z.div_pos; lia).
  assert (Hq3' : q3 < 16) by lia.
  change Byte.x30 with (hex_digit 0).
  cbn [hex_digits]. fold q1.
  destruct (Z.eqb_spec q1 0) as [Z1|N1].
  { cbn [length Nat.sub repeat app]. split; [reflexivity|].
    rewrite py_int16_digits by lia. f_equal. lia. }
  pose proof (log2_fuel n 4 ltac:(lia) ltac:(lia)) as Hf.
  destruct (Z.to_nat (Z.log2 n)) as [|[|[|[|f]]]];
    try (exfalso; change (Z.to_nat 4) with 4%nat in Hf; lia).
  cbn [hex_digits]. fold q2.
  destruct (Z.eqb_spec q2 0) as [Z2|N2].
  { cbn [length Nat.sub repeat app]. split; [reflexivity|].
    rewrite py_int16_digits by lia. f_equal. lia. }
  cbn [hex_digits]. fold q3.
  destruct (Z.eqb_spec q3 0) as [Z3|N3].
  { cbn [length Nat.sub repeat app]. split; [reflexivity|].
    rewrite py_int16_digits by lia. f_equal. lia. }
  cbn [hex_digits].
  assert (Z4 : q3 / 16 = 0) by (apply Z.div_small; lia).
  rewrite Z4. cbn [Z.eqb length Nat.sub repeat app].
  rewrite (Z.mod_small q3 16) by lia.
  split; [reflexivity|].
  rewrite py_int16_digits by lia. f_equal. lia.
Qed.

(** X5. The length prefix of a request and its parse agree: for a length
    of at most 0xFFFF, [f"{n:04x}"] is four bytes long and [int(_, 16)]
    reads [n] back from it. *)
Theorem format_04x_round_trip n :
  0 <= n <= 0xFFFF ->
  length (format_04x n) = 4%nat /\ py_int16 (format_04x n) = Ok n.
Proof. exact (py_int16_format_04x n). Qed.

Lemma format_04x_round_trip_witness :
  length (format_04x 12) = 4%nat /\ py_int16 (format_04x 12) = Ok 12.
Proof. apply (format_04x_round_trip 12). lia. Defined.

Lemma hex_digits_long fuel : forall n acc k,
  16 ^ Z.of_nat k <= n -> (k < fuel)%nat ->
  (length acc + k + 1 <= length (hex_digits fuel n acc))%nat.
Proof.
  induction fuel as [|fuel IH]; intros n acc k Hn Hk; [lia|].
  cbn [hex_digits].
  assert (Hpos : 0 < 16 ^ Z.of_nat k) by (apply Z.pow_pos_nonneg; lia).
  destruct (Z.eqb_spec (n / 16) 0) as [Hz|Hnz].
  - destruct k as [|k]; [cbn [length]; lia|].
    exfalso. rewrite Nat2Z.inj_succ, Z.pow_succ_r in Hn by lia.
    assert (n < 16) by (apply Z.div_small_iff in Hz; lia). lia.
  - destruct k as [|k].
    + pose proof (hex_digits_length fuel (n / 16) (hex_digit (n mod 16) :: acc))
        as Hlen.
      cbn [length] in Hlen. lia.
    + rewrite Nat2Z.inj_succ, Z.pow_succ_r in Hn by lia.
      assert (Hq : 16 ^ Z.of_nat k <= n / 16)
        by (apply Z.div_le_lower_bound; lia).
      specialize (IH (n / 16) (hex_digit (n mod 16) :: acc) k Hq ltac:(lia)).
      cbn [length] in IH. lia.
Qed.

(** X6. A request of 0x10000 bytes or more gets a prefix of more than four
    digits: the fixed four-digit length field of the host protocol cannot
    carry it. *)
Theorem format_04x_overflow n :
  0xFFFF < n -> (4 < length (format_04x n))%nat.
Proof.
  intros Hn. unfold format_04x. rewrite length_app.
  pose proof (log2_fuel n 16 ltac:(lia) ltac:(lia)) as Hf.
  change (Z.to_nat 16) with 16%nat in Hf.
  pose proof (hex_digits_long (S (Z.to_nat (Z.log2 n))) n [] 4
                ltac:(change (16 ^ Z.of_nat 4) with 65536; lia) ltac:(lia))
    as Hlen.
  cbn [length] in Hlen. lia.
Qed.

Lemma format_04x_overflow_witness : (4 < length (format_04x 0x10000))%nat.
Proof. apply (format_04x_overflow 0x10000). lia. Defined.

Lemma lstrip_nul_head data t : lstrip_nul data <> Byte.x00 :: t.
Proof.
  induction data as [|c data IH]; cbn [lstrip_nul]; [discriminate|].
  destruct c; try exact IH; intros [=].
Qed.

Lemma rstrip_nul_snoc data : rstrip_nul (data ++ [Byte.x00]) = rstrip_nul data.
Proof. unfold rstrip_nul. rewrite rev_app_distr. reflexivity. Qed.

Lemma rstrip_nul_repeat data n :
  rstrip_nul (data ++ repeat Byte.x00 n) = rstrip_nul data.
Proof.
  induction n as [|n IH]; [rewrite app_nil_r; reflexivity|].
  cbn [repeat]. rewrite repeat_cons, app_assoc, rstrip_nul_snoc. exact IH.
Qed.

(** X7. The destination of an OPEN frame is its payload without the
    trailing NUL bytes, however many there are (none included): the frame
    is handled the same whatever the number of NULs that follow the name,
    and the name the proxy uses never ends in a NUL. *)
Theorem open_ignores_trailing_nuls e a0 a1 data n p :
  AdbDeviceProxy.dispatch e (Message (b "OPEN") a0 a1
                               (data ++ repeat Byte.x00 n)) p
  = AdbDeviceProxy.dispatch e (Message (b "OPEN") a0 a1 data) p
  /\ forall l, rstrip_nul data <> l ++ [Byte.x00].
Proof.
  split.
  - unfold AdbDeviceProxy.dispatch. cbn [m_cmd m_arg0 m_arg1 m_data].
    rewrite rstrip_nul_repeat. reflexivity.
  - intros l Hl. unfold rstrip_nul in Hl.
    apply (f_equal (@rev byte)) in Hl.
    rewrite rev_involutive, rev_app_distr in Hl. cbn [rev app] in Hl.
    exact (lstrip_nul_head _ _ Hl).
Qed.

(** Both requests acknowledged. *)
Lemma open_client_stream_okays {St} e device_id destination (s : St) rest :
  host e = Some (b "OKAYOKAY" ++ rest) ->
  open_client_stream e device_id destination s
  = (s, HostConnect :: requests device_id destination 2, Ok tt).
Proof.
  intros Hhost. unfold open_client_stream. run_M. rewrite Hhost.
  change (b "OKAYOKAY" ++ rest) with (b "OKAY" ++ b "OKAY" ++ rest).
  rewrite request_accepted, request_accepted. reflexivity.
Qed.

(** X8. When the host ADB server acknowledges both requests,
    [open_client_stream] returns with the connection open: it has written
    the transport request and then the service request, and nothing else;
    what the server sends after the second OKAY is left on the stream.
    Each request being at most 0xFFFF bytes long, it goes out behind a
    prefix of exactly four hexadecimal digits that reads back as its
    length. *)
Theorem open_client_stream_accepted {St} e device_id destination (s : St) rest :
  host e = Some (b "OKAYOKAY" ++ rest) ->
  let transport := encode ("host:transport:" ++ device_id) in
  let service := encode destination in
  Z.of_nat (length transport) <= 0xFFFF ->
  Z.of_nat (length service) <= 0xFFFF ->
  exists p1 p2,
    open_client_stream e device_id destination s
      = (s, [HostConnect; HostWrite (p1 ++ transport);
             HostWrite (p2 ++ service)], Ok tt) /\
    length p1 = 4%nat /\ py_int16 p1 = Ok (Z.of_nat (length transport)) /\
    length p2 = 4%nat /\ py_int16 p2 = Ok (Z.of_nat (length service)).
Proof.
  intros Hhost transport service Ht Hs.
  destruct (py_int16_format_04x (Z.of_nat (length transport)) ltac:(lia))
    as [Hl1 Hp1].
  destruct (py_int16_format_04x (Z.of_nat (length service)) ltac:(lia))
    as [Hl2 Hp2].
  exists (format_04x (Z.of_nat (length transport))),
         (format_04x (Z.of_nat (length service))).
  split; [|auto].
  rewrite (open_client_stream_okays e device_id destination s rest Hhost).
  reflexivity.
Qed.

Lemma open_client_stream_accepted_witness :
  exists p1 p2,
    open_client_stream env_up "dev1" "shell:ls" tt
      = (tt, [HostConnect; HostWrite (p1 ++ b "host:transport:dev1");
              HostWrite (p2 ++ b "shell:ls")], Ok tt) /\
    length p1 = 4%nat /\ py_int16 p1 = Ok 19 /\
    length p2 = 4%nat /\ py_int16 p2 = Ok 8.
Proof.
  apply (open_client_stream_accepted env_up "dev1" "shell:ls" tt []).
  - reflexivity.
  - vm_compute. discriminate.
  - vm_compute. discriminate.
Defined.

Lemma readexactly_short n rd :
  (length rd < Z.to_nat n)%nat -> 0 <= n ->
  readexactly n rd = Raise IncompleteReadError.
Proof.
  intros Hlen Hn. unfold readexactly.
  destruct (Z.ltb_spec n 0); [lia|].
  destruct (Nat.leb_spec (Z.to_nat n) (length rd)); [lia|reflexivity].
Qed.

(** X9. When the host ADB server ends the stream in the middle of a status
    word, [open_client_stream] fails with [IncompleteReadError] out of the
    read of line 106, which no [try] encloses: the connection it opened is
    not closed. *)
Theorem open_client_stream_short_status {St} e device_id destination (s : St)
    phase short :
  (phase < 2)%nat ->
  host e = Some (okays phase ++ short) ->
  (length short < 4)%nat ->
  open_client_stream e device_id destination s
  = (s, HostConnect :: requests device_id destination (S phase),
     Raise IncompleteReadError).
Proof.
  intros Hphase Hhost Hshort.
  unfold open_client_stream. run_M. rewrite Hhost.
  destruct phase as [|[|phase]]; [| |lia]; cbn [okays repeat concat app].
  - cbn [request_loop]. run_M.
    rewrite readexactly_short by (change (Z.to_nat 4) with 4%nat; lia).
    reflexivity.
  - rewrite <- app_assoc, request_accepted.
    cbn [request_loop app]. run_M.
    rewrite readexactly_short by (change (Z.to_nat 4) with 4%nat; lia).
    reflexivity.
Qed.

Lemma open_client_stream_short_status_witness :
  open_client_stream (Env true true (Some (b "OKAYOK"))) "dev1" "shell:ls" tt
  = (tt, HostConnect :: requests "dev1" "shell:ls" 2,
     Raise IncompleteReadError).
Proof.
  apply (open_client_stream_short_status _ "dev1" "shell:ls" tt 1 (b "OK")).
  - lia.
  - reflexivity.
  - vm_compute. lia.
Defined.

(** ** More on ProxyChannel *)

Lemma sending_ok e cmd arg0 arg1 data :
  length cmd = 4%nat -> in_u32 arg0 = true -> in_u32 arg1 = true ->
  in_u32 (Z.of_nat (length data)) = true ->
  exists wire,
    sending e cmd arg0 arg1 data
      = ([PeerWrite wire], if peer_ok e then Ok tt else Raise ConnectionError)
    /\ sent_frame (PeerWrite wire) = Some (Message cmd arg0 arg1 data).
Proof.
  intros Hl H0 H1 Hd.
  destruct (frame_bytes_ok _ _ _ _ Hl H0 H1 Hd) as [wire Hw].
  exists wire. unfold sending. rewrite Hw.
  split; [reflexivity|apply sent_frame_bytes, Hw].
Qed.

(** X10. [write] forwards a payload of the peer to the outbound stream and
    then acknowledges it with OKAY(remote_id, local_id), leaving the
    channel as it was; neither step looks at [closed].  When the outbound
    [drain()] raises, no OKAY is sent and the stream is closed: what
    follows the write is exactly what [close] does. *)
Theorem write_forwards_then_acks e data c :
  let rid := ProxyChannel.remote_id c in
  let lid := ProxyChannel.local_id c in
  in_u32 rid = true -> in_u32 lid = true ->
  (dev_ok e = true -> peer_ok e = true ->
   exists wire,
     ProxyChannel.write e data c
       = (c, [DevWrite rid data; PeerWrite wire], Ok tt) /\
     sent_frame (PeerWrite wire) = Some (Message (b "OKAY") rid lid [])) /\
  (dev_ok e = false ->
   ProxyChannel.write e data c
     = ((ProxyChannel.close e c).1.1,
        DevWrite rid data :: (ProxyChannel.close e c).1.2,
        (ProxyChannel.close e c).2)).
Proof.
  intros rid lid Hrid Hlid. split.
  - intros Hdev Hpeer.
    destruct (sending_ok e (b "OKAY") rid lid [] eq_refl Hrid Hlid eq_refl)
      as (wire & Hs & Hf).
    exists wire. split; [|exact Hf].
    rewrite write_run. cbv zeta. fold rid lid.
    rewrite Hs, Hdev, Hpeer. reflexivity.
  - intros Hdev. rewrite write_run. cbv zeta. rewrite Hdev. reflexivity.
Qed.

Lemma write_forwards_then_acks_witness :
  exists wire,
    ProxyChannel.write env_up (b "cmd") sync_channel
      = (sync_channel, [DevWrite 1 (b "cmd"); PeerWrite wire], Ok tt) /\
    sent_frame (PeerWrite wire) = Some (Message (b "OKAY") 1 7 []).
Proof.
  apply (write_forwards_then_acks env_up (b "cmd") sync_channel);
    reflexivity.
Defined.

(** X11. The pump forwards what it reads: a non-empty read becomes one
    frame WRTE(remote_id, local_id, data) carrying exactly the bytes read,
    after which the pump is back at the head of its loop with the
    semaphore as it was, so that the next read needs a new credit. *)
Theorem sink_forwards_data e data c :
  ProxyChannel.sink_task c = ProxyChannel.AtRead ->
  data <> [] ->
  in_u32 (ProxyChannel.remote_id c) = true ->
  in_u32 (ProxyChannel.local_id c) = true ->
  in_u32 (Z.of_nat (length data)) = true ->
  peer_ok e = true ->
  exists wire,
    ProxyChannel.sink e (ProxyChannel.ReadBytes data) c
      = (ProxyChannel.set_sink_task ProxyChannel.AtLoop c,
         [PeerWrite wire], Ok tt) /\
    sent_frame (PeerWrite wire)
      = Some (Message (b "WRTE") (ProxyChannel.remote_id c)
                (ProxyChannel.local_id c) data).
Proof.
  intros Htask Hdata Hrid Hlid Hlen Hpeer.
  destruct (sending_ok e (b "WRTE") _ _ data eq_refl Hrid Hlid Hlen)
    as (wire & Hs & Hf).
  exists wire. split; [|exact Hf].
  destruct c as [nm lid rid cl v k].
  cbn [ProxyChannel.sink_task ProxyChannel.remote_id ProxyChannel.local_id] in *.
  subst k. unfold ProxyChannel.sink, ProxyChannel.sink_read. run.
  rewrite (bool_decide_eq_false_2 _ Hdata). run.
  rewrite sending_run, Hs, Hpeer. run. reflexivity.
Qed.

Lemma sink_forwards_data_witness :
  exists wire,
    ProxyChannel.sink env_up (ProxyChannel.ReadBytes (b "hi")) (shell_channel 0)
      = (ProxyChannel.set_sink_task ProxyChannel.AtLoop (shell_channel 0),
         [PeerWrite wire], Ok tt) /\
    sent_frame (PeerWrite wire) = Some (Message (b "WRTE") 1 7 (b "hi")).
Proof.
  apply (sink_forwards_data env_up (b "hi") (shell_channel 0));
    try reflexivity.
  discriminate.
Defined.

(** X12. The end of the outbound stream closes the channel: when the read
    of the pump raises, or returns no bytes on a stream that is not a
    shell, the pump does what [close] does and nothing else. *)
Theorem sink_end_of_stream_closes e r c :
  ProxyChannel.sink_task c = ProxyChannel.AtRead ->
  ProxyChannel.closed c = false ->
  r = ProxyChannel.ReadError \/
  (r = ProxyChannel.ReadBytes [] /\
   String.prefix "shell:" (ProxyChannel.name c) = false) ->
  ProxyChannel.sink e r c = ProxyChannel.close e c.
Proof.
  intros Htask Hcl Hr.
  assert (Hread : ProxyChannel.sink_read e r c = (c, [], Ok true)).
  { unfold ProxyChannel.sink_read.
    destruct Hr as [->|[-> Hname]]; run; [reflexivity|].
    change (bool_decide (@nil byte = [])) with true. run.
    rewrite Hname. reflexivity. }
  unfold ProxyChannel.sink. run. rewrite Htask. run.
  rewrite Hread. rewrite sink_exit_run, Hcl.
  destruct (ProxyChannel.close e c) as [[c' es] r']. reflexivity.
Qed.

Lemma sink_end_of_stream_closes_witness :
  ProxyChannel.sink env_up ProxyChannel.ReadError (shell_channel 0)
  = ProxyChannel.close env_up (shell_channel 0).
Proof.
  apply (sink_end_of_stream_closes env_up ProxyChannel.ReadError
           (shell_channel 0)); [reflexivity|reflexivity|].
  left. reflexivity.
Defined.

(** ** More on the dispatch loop *)

(** One turn of the dispatch loop on a frame received. *)
Lemma loop_turn e w m rest :
  main_task w = Loop ->
  recv_cmd (reader w) = Ok (m, rest) ->
  handle_connection e w =
  (World (AdbDeviceProxy.dispatch e m (proxy w)).1.1 rest
     (if is_ok (AdbDeviceProxy.dispatch e m (proxy w)).2 then Loop else Returned),
   PeerRecv m :: (AdbDeviceProxy.dispatch e m (proxy w)).1.2
     ++ raised_tail (AdbDeviceProxy.dispatch e m (proxy w)).2).
Proof.
  intros Hmain Hrecv. unfold handle_connection. rewrite Hmain.
  unfold run_loop, proxy_recv_cmd. run_M. rewrite Hrecv. proj_simpl.
  destruct (AdbDeviceProxy.dispatch e m (proxy w)) as [[p es] [[]|x]];
    cbn [fst snd is_ok raised_tail app set_proxy set_main_task proxy reader
         main_task]; rewrite ?app_nil_r; reflexivity.
Qed.

(** X13. A WRTE or OKAY frame that addresses a remote id with no entry in
    the stream table is dropped: nothing is written, nothing changes, and
    the loop goes on. *)
Theorem frame_for_unknown_stream_dropped e w m rest :
  main_task w = Loop ->
  recv_cmd (reader w) = Ok (m, rest) ->
  m_cmd m = b "WRTE" \/ m_cmd m = b "OKAY" ->
  AdbDeviceProxy.streams (proxy w) !! m_arg1 m = None ->
  handle_connection e w = (World (proxy w) rest Loop, [PeerRecv m]).
Proof.
  intros Hmain Hrecv Hcmd Hnone.
  rewrite (loop_turn e w m rest Hmain Hrecv).
  assert (Hd : AdbDeviceProxy.dispatch e m (proxy w) = (proxy w, [], Ok tt)).
  { unfold AdbDeviceProxy.dispatch.
    destruct Hcmd as [-> | ->].
    - change (bytes_eqb (b "WRTE") (b "OPEN")) with false.
      change (bytes_eqb (b "WRTE") (b "WRTE")) with true.
      run. rewrite Hnone. reflexivity.
    - change (bytes_eqb (b "OKAY") (b "OPEN")) with false.
      change (bytes_eqb (b "OKAY") (b "WRTE")) with false.
      change (bytes_eqb (b "OKAY") (b "OKAY")) with true.
      run. rewrite Hnone. reflexivity. }
  rewrite Hd. reflexivity.
Qed.

Lemma frame_for_unknown_stream_dropped_witness :
  handle_connection env_up (looping (frame "WRTE" 7 5 (b "lost")))
  = (World (AdbDeviceProxy.init "dev1") [] Loop,
     [PeerRecv (Message (b "WRTE") 7 5 (b "lost"))]).
Proof.
  apply (frame_for_unknown_stream_dropped env_up
           (looping (frame "WRTE" 7 5 (b "lost")))
           (Message (b "WRTE") 7 5 (b "lost")) []).
  - reflexivity.
  - vm_compute. reflexivity.
  - left. reflexivity.
  - reflexivity.
Defined.

(** X14. A CLSE frame that addresses a remote id with no entry in the
    stream table is answered with CLSE(local_id, 0), the peer's id first;
    the table and the next id to assign are left alone.  The loop goes on
    unless that write finds the peer link lost. *)
Theorem clse_for_unknown_stream_answered e w m rest :
  main_task w = Loop ->
  recv_cmd (reader w) = Ok (m, rest) ->
  m_cmd m = b "CLSE" ->
  AdbDeviceProxy.streams (proxy w) !! m_arg1 m = None ->
  exists wire,
    handle_connection e w
      = (World (proxy w) rest (if peer_ok e then Loop else Returned),
         [PeerRecv m; PeerWrite wire]
           ++ (if peer_ok e then [] else [PeerClose])) /\
    sent_frame (PeerWrite wire) = Some (Message (b "CLSE") (m_arg0 m) 0 []).
Proof.
  intros Hmain Hrecv Hcmd Hnone.
  destruct (recv_cmd_inv _ _ _ Hrecv) as (_ & Ha0 & _).
  destruct (sending_ok e (b "CLSE") (m_arg0 m) 0 [] eq_refl Ha0 eq_refl eq_refl)
    as (wire & Hs & Hf).
  exists wire. split; [|exact Hf].
  rewrite (loop_turn e w m rest Hmain Hrecv).
  assert (Hd : AdbDeviceProxy.dispatch e m (proxy w)
               = (proxy w, [PeerWrite wire],
                  if peer_ok e then Ok tt else Raise ConnectionError)).
  { unfold AdbDeviceProxy.dispatch. rewrite Hcmd.
    change (bytes_eqb (b "CLSE") (b "OPEN")) with false.
    change (bytes_eqb (b "CLSE") (b "WRTE")) with false.
    change (bytes_eqb (b "CLSE") (b "OKAY")) with false.
    change (bytes_eqb (b "CLSE") (b "CLSE")) with true.
    run. rewrite Hnone. rewrite sending_run, Hs. reflexivity. }
  rewrite Hd. destruct (peer_ok e); reflexivity.
Qed.

Lemma clse_for_unknown_stream_answered_witness :
  exists wire,
    handle_connection env_up (looping (frame "CLSE" 7 5 []))
      = (World (AdbDeviceProxy.init "dev1") [] Loop,
         [PeerRecv (Message (b "CLSE") 7 5 []); PeerWrite wire] ++ []) /\
    sent_frame (PeerWrite wire) = Some (Message (b "CLSE") 7 0 []).
Proof.
  apply (clse_for_unknown_stream_answered env_up
           (looping (frame "CLSE" 7 5 []))
           (Message (b "CLSE") 7 5 []) []).
  - reflexivity.
  - vm_compute. reflexivity.
  - reflexivity.
  - reflexivity.
Defined.

(** X15. A CLSE frame for a stream in the table closes it and then removes
    its entry; the removal comes after the [await] of [close], so that when
    [close] raises (its CLSE write found the peer link lost) the entry
    stays in the table, closed, and the handler terminates. *)
Theorem clse_closes_then_removes e w m rest c :
  main_task w = Loop ->
  recv_cmd (reader w) = Ok (m, rest) ->
  m_cmd m = b "CLSE" ->
  AdbDeviceProxy.streams (proxy w) !! m_arg1 m = Some c ->
  let closing := ProxyChannel.close e c in
  let tbl := AdbDeviceProxy.streams (proxy w) in
  handle_connection e w
  = (World (AdbDeviceProxy.set_streams
              (if is_ok closing.2 then delete (m_arg1 m) tbl
               else <[m_arg1 m := closing.1.1]> tbl) (proxy w))
       rest (if is_ok closing.2 then Loop else Returned),
     PeerRecv m :: closing.1.2 ++ raised_tail closing.2).
Proof.
  intros Hmain Hrecv Hcmd Hsome closing tbl.
  rewrite (loop_turn e w m rest Hmain Hrecv).
  assert (Hd : AdbDeviceProxy.dispatch e m (proxy w)
               = (AdbDeviceProxy.set_streams
                    (if is_ok closing.2 then delete (m_arg1 m) tbl
                     else <[m_arg1 m := closing.1.1]> tbl) (proxy w),
                  closing.1.2, closing.2)).
  { unfold AdbDeviceProxy.dispatch. rewrite Hcmd.
    change (bytes_eqb (b "CLSE") (b "OPEN")) with false.
    change (bytes_eqb (b "CLSE") (b "WRTE")) with false.
    change (bytes_eqb (b "CLSE") (b "OKAY")) with false.
    change (bytes_eqb (b "CLSE") (b "CLSE")) with true.
    run. rewrite Hsome. run. subst closing tbl.
    destruct (ProxyChannel.close e c) as [[c' es] [[]|x]]; run;
      cbn [is_ok]; rewrite ?app_nil_r, ?delete_insert_eq; reflexivity. }
  rewrite Hd. reflexivity.
Qed.

Lemma clse_closes_then_removes_witness :
  (handle_connection env_up
     (set_reader (frame "CLSE" 7 1 [])
        (exec (accept "dev1" (open_input "shell:sh")) open_run).1)).1
  = World (AdbDeviceProxy.Proxy "dev1" 0x01000000 0x40000 "proxy_dev1" ∅ 2)
      [] Loop.
Proof.
  rewrite (clse_closes_then_removes env_up
             (set_reader (frame "CLSE" 7 1 [])
                (exec (accept "dev1" (open_input "shell:sh")) open_run).1)
             (Message (b "CLSE") 7 1 []) []
             (ProxyChannel.Channel "shell:sh" 7 1 false 1 ProxyChannel.AtLoop));
    vm_compute; reflexivity.
Defined.

(** X16. An OPEN frame whose destination decodes and which the host ADB
    server accepts creates the stream: the channel is entered in the table
    under the next remote id, with the peer's id as its local id, open,
    with one starter credit and its pump started; the next remote id
    advances by one; and OKAY(remote_id, local_id) is written to the peer
    after the two requests to the host. *)
Theorem open_accepted e w m rest destination hrest :
  main_task w = Loop ->
  recv_cmd (reader w) = Ok (m, rest) ->
  m_cmd m = b "OPEN" ->
  decode (rstrip_nul (m_data m)) = Ok destination ->
  host e = Some (b "OKAYOKAY" ++ hrest) ->
  peer_ok e = true ->
  in_u32 (AdbDeviceProxy.next_remote_id (proxy w)) = true ->
  let p := proxy w in
  let rid := AdbDeviceProxy.next_remote_id p in
  exists wire,
    handle_connection e w
      = (World
           (AdbDeviceProxy.Proxy
              (AdbDeviceProxy.device_id p) (AdbDeviceProxy.protocol_version p)
              (AdbDeviceProxy.max_data_len p) (AdbDeviceProxy.device_name p)
              (<[rid := ProxyChannel.Channel destination (m_arg0 m) rid false 1
                          ProxyChannel.AtLoop]> (AdbDeviceProxy.streams p))
              (rid + 1))
           rest Loop,
         [PeerRecv m; HostConnect]
           ++ requests (AdbDeviceProxy.device_id p) destination 2
           ++ [SpawnSink rid; PeerWrite wire]) /\
    sent_frame (PeerWrite wire) = Some (Message (b "OKAY") rid (m_arg0 m) []).
Proof.
  intros Hmain Hrecv Hcmd Hdec Hhost Hpeer Hrid p rid.
  destruct (recv_cmd_inv _ _ _ Hrecv) as (_ & Ha0 & _).
  destruct (sending_ok e (b "OKAY") rid (m_arg0 m) [] eq_refl Hrid Ha0 eq_refl)
    as (wire & Hs & Hf).
  exists wire. split; [|exact Hf].
  rewrite (loop_turn e w m rest Hmain Hrecv). fold p.
  assert (Hd : AdbDeviceProxy.dispatch e m p
               = (AdbDeviceProxy.Proxy
                    (AdbDeviceProxy.device_id p)
                    (AdbDeviceProxy.protocol_version p)
                    (AdbDeviceProxy.max_data_len p)
                    (AdbDeviceProxy.device_name p)
                    (<[rid := ProxyChannel.Channel destination (m_arg0 m) rid
                                false 1 ProxyChannel.AtLoop]>
                       (AdbDeviceProxy.streams p))
                    (rid + 1),
                  HostConnect
                    :: requests (AdbDeviceProxy.device_id p) destination 2
                    ++ [SpawnSink rid; PeerWrite wire],
                  Ok tt)).
  { unfold AdbDeviceProxy.dispatch. rewrite Hcmd.
    change (bytes_eqb (b "OPEN") (b "OPEN")) with true.
    run. rewrite Hdec. run.
    rewrite (open_client_stream_okays e _ destination _ hrest Hhost).
    unfold ProxyChannel.init. run. fold rid.
    rewrite sending_run, Hs, Hpeer. run.
    unfold AdbDeviceProxy.set_streams, AdbDeviceProxy.set_next_remote_id.
    run. rewrite ?app_nil_r. reflexivity. }
  rewrite Hd. cbn [fst snd is_ok raised_tail app]. rewrite app_nil_r.
  reflexivity.
Qed.

Lemma open_accepted_witness :
  exists wire,
    handle_connection env_up (looping (frame "OPEN" 7 0 (b "sync:")))
      = (World
           (AdbDeviceProxy.Proxy "dev1" 0x01000000 0x40000 "proxy_dev1"
              (<[1 := ProxyChannel.Channel "sync:" 7 1 false 1
                        ProxyChannel.AtLoop]> ∅) (1 + 1))
           [] Loop,
         [PeerRecv (Message (b "OPEN") 7 0 (b "sync:")); HostConnect]
           ++ requests "dev1" "sync:" 2
           ++ [SpawnSink 1; PeerWrite wire]) /\
    sent_frame (PeerWrite wire) = Some (Message (b "OKAY") 1 7 []).
Proof.
  apply (open_accepted env_up (looping (frame "OPEN" 7 0 (b "sync:")))
           (Message (b "OPEN") 7 0 (b "sync:")) [] "sync:" []).
  - reflexivity.
  - vm_compute. reflexivity.
  - reflexivity.
  - vm_compute. reflexivity.
  - reflexivity.
  - reflexivity.
  - reflexivity.
Defined.

(** X17. An OPEN frame whose destination is not valid UTF-8 ends the
    connection: the decoding of line 164 stands outside the [try], so the
    handler terminates without assigning a remote id and without answering
    the peer, neither with OKAY nor with CLSE. *)
Theorem open_undecodable_terminates e w m rest :
  main_task w = Loop ->
  recv_cmd (reader w) = Ok (m, rest) ->
  m_cmd m = b "OPEN" ->
  utf8_valid (rstrip_nul (m_data m)) = false ->
  handle_connection e w = (World (proxy w) rest Returned, [PeerRecv m; PeerClose]).
Proof.
  intros Hmain Hrecv Hcmd Hutf.
  rewrite (loop_turn e w m rest Hmain Hrecv).
  assert (Hd : AdbDeviceProxy.dispatch e m (proxy w)
               = (proxy w, [], Raise UnicodeDecodeError)).
  { unfold AdbDeviceProxy.dispatch. rewrite Hcmd.
    change (bytes_eqb (b "OPEN") (b "OPEN")) with true.
    unfold decode. rewrite Hutf. reflexivity. }
  rewrite Hd. reflexivity.
Qed.

Lemma open_undecodable_terminates_witness :
  handle_connection env_up (looping (frame "OPEN" 7 0 [Byte.xff; Byte.x00]))
  = (World (AdbDeviceProxy.init "dev1") [] Returned,
     [PeerRecv (Message (b "OPEN") 7 0 [Byte.xff; Byte.x00]); PeerClose]).
Proof.
  apply (open_undecodable_terminates env_up
           (looping (frame "OPEN" 7 0 [Byte.xff; Byte.x00]))
           (Message (b "OPEN") 7 0 [Byte.xff; Byte.x00]) []).
  - reflexivity.
  - vm_compute. reflexivity.
  - reflexivity.
  - vm_compute. reflexivity.
Defined.

(** X18. The handshake.  The first frame must be CNXN: any other frame
    ends the connection with nothing written.  To a CNXN the proxy answers
    CNXN with its own version 0x01000000, its own payload limit 256 KiB and
    the banner "device::proxy_<device_id>" followed by a NUL, whatever
    version, limit and banner the peer announced; it then enters the
    dispatch loop, unless the write found the peer link lost. *)
Theorem handshake_answer e device_id input m rest :
  recv_cmd input = Ok (m, rest) ->
  let banner :=
    encode ("device::" ++ ("proxy_" ++ device_id) ++ String (ascii_of_nat 0) "") in
  in_u32 (Z.of_nat (length banner)) = true ->
  handle_connection e (accept device_id input)
  = if bytes_eqb (m_cmd m) (b "CNXN")
    then (World (AdbDeviceProxy.init device_id) rest
            (if peer_ok e then Loop else Returned),
          [PeerRecv m; PeerWrite (frame "CNXN" 0x01000000 (256 * 1024) banner)]
            ++ (if peer_ok e then [] else [PeerClose]))
    else (World (AdbDeviceProxy.init device_id) rest Returned,
          [PeerRecv m; PeerClose]).
Proof.
  intros Hrecv banner Hlen.
  unfold handle_connection, accept. cbn [main_task].
  unfold run_handshake, proxy_recv_cmd. run_M. proj_simpl. rewrite Hrecv.
  destruct (bytes_eqb (m_cmd m) (b "CNXN")); [|reflexivity].
  run. unfold AdbDeviceProxy.init at 1 2 3. proj_simpl.
  fold banner.
  destruct (frame_bytes_ok (b "CNXN") 0x01000000 (256 * 1024) banner
              eq_refl eq_refl eq_refl Hlen) as [wire Hw].
  rewrite send_cmd_run. unfold frame. rewrite Hw.
  destruct (peer_ok e); reflexivity.
Qed.

Lemma handshake_answer_witness :
  handle_connection env_up
    (accept "dev1" (frame "CNXN" 0x01000000 0x1000 (b "host::")))
  = (World (AdbDeviceProxy.init "dev1") [] Loop,
     [PeerRecv (Message (b "CNXN") 0x01000000 0x1000 (b "host::"));
      PeerWrite (frame "CNXN" 0x01000000 (256 * 1024)
                   (b "device::proxy_dev1" ++ [Byte.x00]))] ++ []).
Proof.
  apply (handshake_answer env_up "dev1"
           (frame "CNXN" 0x01000000 0x1000 (b "host::"))
           (Message (b "CNXN") 0x01000000 0x1000 (b "host::")) []).
  - vm_compute. reflexivity.
  - vm_compute. reflexivity.
Defined.

(** ** More on whole executions *)

Lemma orderly_sending e cmd arg0 arg1 data :
  forallb orderly (sending e cmd arg0 arg1 data).1 = true.
Proof.
  unfold sending.
  destruct (frame_bytes cmd arg0 arg1 data) as [wire|x] eqn:Hw; [|reflexivity].
  cbn [fst forallb orderly]. rewrite (sent_frame_bytes _ _ _ _ _ Hw).
  reflexivity.
Qed.

Ltac ord :=
  cbn [fst snd] in *; rewrite ?app_nil_r, ?forallb_app;
  cbn [forallb orderly andb];
  repeat match goal with
         | H : forallb orderly _ = true |- _ => rewrite H; clear H
         end;
  try reflexivity.

Lemma orderly_close e c : forallb orderly (ProxyChannel.close e c).1.2 = true.
Proof.
  rewrite close_run. destruct (ProxyChannel.closed c); [reflexivity|].
  cbn [fst snd]. unfold closing_events.
  rewrite !forallb_app, orderly_sending.
  destruct (ProxyChannel.done _); reflexivity.
Qed.

Lemma orderly_write e data c :
  forallb orderly (ProxyChannel.write e data c).1.2 = true.
Proof.
  rewrite write_run. cbv zeta.
  assert (Hpre : forallb orderly
            (DevWrite (ProxyChannel.remote_id c) data
               :: (if dev_ok e
                   then (sending e (b "OKAY") (ProxyChannel.remote_id c)
                           (ProxyChannel.local_id c) []).1
                   else [])) = true).
  { cbn [forallb orderly andb]. destruct (dev_ok e);
      [apply orderly_sending|reflexivity]. }
  destruct (dev_ok e && is_ok _); cbn [fst snd]; [exact Hpre|].
  rewrite forallb_app, Hpre, orderly_close. reflexivity.
Qed.

Lemma orderly_sink_exit e c :
  forallb orderly (ProxyChannel.sink_exit e c).1.2 = true.
Proof.
  rewrite sink_exit_run. destruct (ProxyChannel.closed c); [reflexivity|].
  apply orderly_close.
Qed.

Lemma orderly_sink e r c : forallb orderly (ProxyChannel.sink e r c).1.2 = true.
Proof.
  unfold ProxyChannel.sink. run.
  destruct (ProxyChannel.sink_task c); run; try reflexivity.
  - destruct (ProxyChannel.closed c) eqn:Hcl; run.
    + pose proof (orderly_sink_exit e c) as H.
      destruct (ProxyChannel.sink_exit e c) as [[c' es] r']. exact H.
    + destruct (ProxyChannel.ready_to_send c <=? 0); run; [reflexivity|].
      rewrite Hcl. reflexivity.
  - unfold ProxyChannel.sink_read. run.
    destruct r as [data|]; run.
    + destruct (bool_decide (data = [])); run.
      * destruct (String.prefix "shell:" (ProxyChannel.name c)); run;
          [reflexivity|].
        pose proof (orderly_sink_exit e c) as H.
        destruct (ProxyChannel.sink_exit e c) as [[c' es] r']. exact H.
      * rewrite sending_run.
        pose proof (orderly_sending e (b "WRTE") (ProxyChannel.remote_id c)
                      (ProxyChannel.local_id c) data) as Hs.
        destruct (sending e (b "WRTE") _ _ data) as [ses [[]|x]];
          cbn [fst snd] in Hs; run.
        -- ord.
        -- pose proof (orderly_sink_exit e c) as H.
           destruct (ProxyChannel.sink_exit e c) as [[c' es] r']. ord.
    + pose proof (orderly_sink_exit e c) as H.
      destruct (ProxyChannel.sink_exit e c) as [[c' es] r']. exact H.
Qed.

Lemma orderly_read_failure rd : forallb orderly (read_failure rd tt).1.2 = true.
Proof.
  unfold read_failure. run_M.
  destruct (readexactly 4 rd) as [[len_b rd1]|]; [|reflexivity].
  destruct (py_int16 len_b) as [n|]; [|reflexivity].
  destruct (readexactly n rd1) as [[err rd2]|]; [|reflexivity].
  destruct (decode err); reflexivity.
Qed.

Lemma orderly_request_loop destination cmds : forall rd,
  forallb orderly (request_loop destination cmds rd tt).1.2 = true.
Proof.
  induction cmds as [|cmd cmds IH]; intros rd; [reflexivity|].
  cbn [request_loop]. run_M.
  destruct (readexactly 4 rd) as [[status rd1]|]; [|reflexivity].
  destruct (bytes_eqb status (b "OKAY")).
  - specialize (IH rd1).
    destruct (request_loop destination cmds rd1 tt) as [[[] es] r]. exact IH.
  - pose proof (orderly_read_failure rd1) as H.
    destruct (read_failure rd1 tt) as [[[] es] [a|x]]; cbn [fst snd] in *.
    + exact H.
    + ord.
Qed.

Lemma orderly_open_client_stream e dev destination :
  forallb orderly (open_client_stream e dev destination tt).1.2 = true.
Proof.
  unfold open_client_stream. run_M.
  destruct (host e) as [rd|]; [|reflexivity].
  pose proof (orderly_request_loop destination
                [("host:transport:" ++ dev)%string; destination] rd) as H.
  destruct (request_loop _ _ rd tt) as [[[] es] r]. exact H.
Qed.

Lemma orderly_dispatch e m p :
  forallb orderly (AdbDeviceProxy.dispatch e m p).1.2 = true.
Proof.
  unfold AdbDeviceProxy.dispatch.
  destruct (bytes_eqb (m_cmd m) (b "OPEN")).
  { run. destruct (decode (rstrip_nul (m_data m))) as [destination|x]; run;
      [|reflexivity].
    rewrite open_client_stream_state. proj_simpl.
    pose proof (orderly_open_client_stream e (AdbDeviceProxy.device_id p)
                  destination) as Ho.
    destruct (open_client_stream e _ destination tt) as [[[] hes] [[]|x]];
      cbn [fst snd] in Ho; run.
    - unfold ProxyChannel.init. run. rewrite sending_run.
      pose proof (orderly_sending e (b "OKAY") (AdbDeviceProxy.next_remote_id p)
                    (m_arg0 m) []) as Hs.
      destruct (sending e (b "OKAY") _ _ []) as [oes [[]|x]];
        cbn [fst snd] in Hs; run.
      + ord.
      + rewrite sending_run.
        pose proof (orderly_sending e (b "CLSE") (m_arg0 m) 0 []) as Hc.
        destruct (sending e (b "CLSE") _ _ []) as [ces rc];
          cbn [fst snd] in Hc; run.
        ord.
    - rewrite sending_run.
      pose proof (orderly_sending e (b "CLSE") (m_arg0 m) 0 []) as Hc.
      destruct (sending e (b "CLSE") _ _ []) as [ces rc];
        cbn [fst snd] in Hc; run.
      ord. }
  destruct (bytes_eqb (m_cmd m) (b "WRTE")).
  { run. destruct (AdbDeviceProxy.streams p !! m_arg1 m) as [c|]; run;
      [|reflexivity].
    pose proof (orderly_write e (m_data m) c) as H.
    destruct (ProxyChannel.write e (m_data m) c) as [[c' es] r]. exact H. }
  destruct (bytes_eqb (m_cmd m) (b "OKAY")).
  { run. destruct (AdbDeviceProxy.streams p !! m_arg1 m) as [c|]; run;
      reflexivity. }
  destruct (bytes_eqb (m_cmd m) (b "CLSE")).
  { run. destruct (AdbDeviceProxy.streams p !! m_arg1 m) as [c|]; run.
    - pose proof (orderly_close e c) as H.
      destruct (ProxyChannel.close e c) as [[c' es] [[]|x]];
        cbn [fst snd] in H; run; ord.
    - rewrite sending_run.
      pose proof (orderly_sending e (b "CLSE") (m_arg0 m) 0 []) as Hc.
      destruct (sending e (b "CLSE") _ _ []) as [ces rc]. exact Hc. }
  reflexivity.
Qed.

(** The events of a step: orderly ones, then the close of the peer link
    if the main task returns in this step. *)
Lemma step_orderly w s :
  exists es1,
    (step w s).2
      = es1 ++ (if negb (returned (main_task w))
                   && returned (main_task (step w s).1)
                then [PeerClose] else []) /\
    forallb orderly es1 = true /\
    (returned (main_task w) = true ->
     returned (main_task (step w s).1) = true).
Proof.
  destruct s as [e|rid e r]; cbn [step].
  - unfold handle_connection.
    destruct (main_task w) eqn:Hm.
    + unfold run_handshake, proxy_recv_cmd. run_M.
      destruct (recv_cmd (reader w)) as [[m rd]|x]; run.
      * destruct (bytes_eqb (m_cmd m) (b "CNXN")); run.
        -- rewrite sending_run.
           pose proof (orderly_sending e (b "CNXN")
                         (AdbDeviceProxy.protocol_version (proxy w))
                         (AdbDeviceProxy.max_data_len (proxy w))
                         (encode ("device::"
                                  ++ AdbDeviceProxy.device_name (proxy w)
                                  ++ String (ascii_of_nat 0) ""))) as Hs.
           destruct (sending e (b "CNXN") _ _ _) as [ses [[]|x]];
             cbn [fst snd] in Hs; run; exists (PeerRecv m :: ses);
             (split; [cbn [returned negb andb app]; rewrite ?app_nil_r;
                      reflexivity|]);
             (split; [|discriminate]); ord.
        -- exists [PeerRecv m]. repeat split; discriminate.
      * exists []. repeat split; discriminate.
    + unfold run_loop, proxy_recv_cmd. run_M.
      destruct (recv_cmd (reader w)) as [[m rd]|x]; run.
      * pose proof (orderly_dispatch e m (proxy w)) as Hd.
        destruct (AdbDeviceProxy.dispatch e m (proxy w)) as [[p es] [[]|x]];
          cbn [fst snd] in Hd; run; exists (PeerRecv m :: es);
          (split; [cbn [returned negb andb app]; rewrite ?app_nil_r;
                   reflexivity|]);
          (split; [|discriminate]); ord.
      * exists []. repeat split; discriminate.
    + exists []. cbn [fst snd]. rewrite Hm. repeat split.
  - unfold run_sink.
    destruct (AdbDeviceProxy.streams (proxy w) !! rid) as [c|].
    + run. pose proof (orderly_sink e r c) as H.
      destruct (ProxyChannel.sink e r c) as [[c' es] r']. run.
      exists es. split; [|split; [exact H|trivial]].
      destruct (returned (main_task w)); cbn [negb andb];
        rewrite ?app_nil_r; reflexivity.
    + exists []. cbn [fst snd]. repeat split; try tauto.
      destruct (returned (main_task w)); reflexivity.
Qed.

Lemma orderly_not_close es :
  forallb orderly es = true -> peer_closes es = 0.
Proof.
  unfold peer_closes. induction es as [|ev es IH]; [reflexivity|].
  cbn [forallb count]. rewrite andb_true_iff. intros [Hev Hes].
  rewrite (IH Hes). destruct ev; try reflexivity. discriminate.
Qed.

Lemma recv_cmd_length rd m rest :
  recv_cmd rd = Ok (m, rest) ->
  length rd = (24 + length (m_data m) + length rest)%nat.
Proof.
  unfold recv_cmd, readexactly. change (24 <? 0) with false. cbv iota.
  change (Z.to_nat 24) with 24%nat.
  destruct (Nat.leb_spec 24 (length rd)) as [Hlen|]; [|discriminate].
  cbn [mbind res_bind].
  destruct (negb _); [discriminate|].
  destruct (_ <? 0); [discriminate|].
  match goal with
  | |- context [(?n <=? length (skipn 24 rd))%nat] =>
      destruct (Nat.leb_spec n (length (skipn 24 rd))) as [Hn|]; [|discriminate]
  end.
  cbn [mbind res_bind]. intros [= <- <-]. cbn [m_data].
  rewrite length_firstn, !length_skipn in *. lia.
Qed.

(** X19. Only whole frames go out on the peer link.  In every execution,
    from any state of the connection, whatever the main task and the pump
    tasks write on the peer link is one well-formed frame per write: the
    24-byte header with [magic = command XOR 0xFFFFFFFF] and the length of
    the payload that follows, then that payload and nothing more, so that
    [recv_cmd] reads the write back as one message with nothing left
    over. *)
Theorem peer_writes_are_frames ss : forall w w' es x,
  exec w ss = (w', es) ->
  In (PeerWrite x) es ->
  exists m, recv_cmd x = Ok (m, []) /\
            length x = (24 + length (m_data m))%nat.
Proof.
  induction ss as [|s ss IH]; intros w w' es x Hex Hin.
  - cbn in Hex. injection Hex as <- <-. destruct Hin.
  - cbn [exec] in Hex.
    destruct (step_orderly w s) as (es1 & Hes & Hord & _).
    destruct (step w s) as [w1 es0]. cbn [fst snd] in Hes.
    destruct (exec w1 ss) as [w2 es2] eqn:Hex2.
    injection Hex as <- <-. subst es0.
    rewrite !in_app_iff in Hin. destruct Hin as [[Hin|Hin]|Hin].
    + rewrite forallb_forall in Hord. specialize (Hord _ Hin).
      cbn [orderly sent_frame] in Hord.
      destruct (recv_cmd x) as [[m [|? ?]]|] eqn:Hrecv; try discriminate.
      exists m. split; [reflexivity|].
      rewrite (recv_cmd_length _ _ _ Hrecv). cbn [length]. lia.
    + destruct (_ && _); [|destruct Hin].
      destruct Hin as [Hin|[]]. discriminate.
    + exact (IH _ _ _ _ Hex2 Hin).
Qed.

Lemma peer_writes_are_frames_witness :
  exists m, recv_cmd (frame "OKAY" 1 7 []) = Ok (m, []) /\
            length (frame "OKAY" 1 7 []) = (24 + length (m_data m))%nat.
Proof.
  apply (peer_writes_are_frames open_run
           (accept "dev1" (open_input "shell:sh"))
           (exec (accept "dev1" (open_input "shell:sh")) open_run).1
           (exec (accept "dev1" (open_input "shell:sh")) open_run).2).
  - vm_compute. reflexivity.
  - vm_compute. tauto.
Defined.

Lemma exec_peer_closes ss : forall w,
  peer_closes (exec w ss).2
  = (if negb (returned (main_task w)) && returned (main_task (exec w ss).1)
     then 1 else 0) /\
  (returned (main_task w) = true ->
   returned (main_task (exec w ss).1) = true).
Proof.
  induction ss as [|s ss IH]; intros w.
  - cbn [exec fst snd]. split; [|trivial].
    destruct (returned (main_task w)); reflexivity.
  - cbn [exec].
    destruct (step_orderly w s) as (es1 & Hes & Hord & Hret).
    specialize (IH (step w s).1). destruct IH as [IH1 IH2].
    destruct (step w s) as [w1 es0]. cbn [fst snd] in *.
    destruct (exec w1 ss) as [w2 es2]. cbn [fst snd] in *.
    subst es0. unfold peer_closes in *. rewrite !count_app.
    fold (peer_closes es1). rewrite (orderly_not_close _ Hord), IH1.
    destruct (returned (main_task w)); cbn [negb andb count].
    + rewrite (Hret eq_refl). cbn [negb andb]. split; [reflexivity|auto].
    + split; [|discriminate].
      destruct (returned (main_task w1)); cbn [negb andb count is_peer_close].
      * rewrite (IH2 eq_refl). reflexivity.
      * destruct (returned (main_task w2)); reflexivity.
Qed.

(** X20. The peer link is closed exactly once, when the handler returns,
    and not before: in every execution of a connection the number of
    closes of the peer link is one if [handle_connection] has returned and
    zero otherwise, and a handler that has returned stays so. *)
Theorem peer_link_closed_once device_id input ss :
  let run := exec (accept device_id input) ss in
  peer_closes run.2 = (if returned (main_task run.1) then 1 else 0) /\
  forall ss',
    returned (main_task run.1) = true ->
    returned (main_task (exec run.1 ss').1) = true /\
    peer_closes (exec run.1 ss').2 = 0.
Proof.
  cbv zeta. split.
  - destruct (exec_peer_closes ss (accept device_id input)) as [H _].
    exact H.
  - intros ss' Hret.
    destruct (exec_peer_closes ss' (exec (accept device_id input) ss).1)
      as [H1 H2].
    split; [exact (H2 Hret)|]. rewrite H1, Hret. reflexivity.
Qed.

Lemma peer_link_closed_once_witness :
  peer_closes (exec (accept "dev1" (open_input "sync:")) peer_eof_run).2 = 1.
Proof.
  rewrite (proj1 (peer_link_closed_once "dev1" (open_input "sync:")
                    peer_eof_run)).
  vm_compute. reflexivity.
Defined.



(** ** Listing the devices *)

Lemma inline_cases c :
  inline c = true ->
  in_range c 0x0D 0x0D = false /\ is_break c = false /\
  in_range c 0xC2 0xC2 = false /\ in_range c 0xE2 0xE2 = false /\
  in_range c 0x00 0x7F = true.
Proof.
  unfold inline, is_break, in_range.
  rewrite !andb_true_iff, negb_true_iff, orb_false_iff, !andb_false_iff,
    !Z.leb_le, !Z.leb_gt.
  intros [[H0 H1] [Hb1 Hb2]].
  repeat split; rewrite ?andb_false_iff, ?andb_true_iff, ?Z.leb_gt, ?Z.leb_le;
    try lia; try tauto.
Qed.

Lemma split_lines_line l : forall cur rest,
  forallb inline l = true ->
  split_lines cur (l ++ Byte.x0a :: rest)
  = (rev cur ++ l) :: split_lines [] rest.
Proof.
  induction l as [|c l IH]; intros cur rest Hl.
  - cbn [app split_lines]. rewrite app_nil_r. reflexivity.
  - cbn [forallb] in Hl. apply andb_true_iff in Hl as [Hc Hl].
    destruct (inline_cases c Hc) as (H0d & Hbr & Hc2 & He2 & _).
    cbn [app split_lines]. rewrite H0d, Hbr, Hc2, He2.
    rewrite (IH (c :: cur) rest Hl). cbn [rev]. rewrite <- app_assoc.
    reflexivity.
Qed.

Lemma utf8_valid_ascii l :
  forallb (fun c => in_range c 0x00 0x7F) l = true -> utf8_valid l = true.
Proof.
  induction l as [|c l IH]; [reflexivity|].
  cbn [forallb utf8_valid]. rewrite andb_true_iff. intros [-> Hl].
  exact (IH Hl).
Qed.

Lemma printable_inline c : in_range c 0x20 0x7E = true -> inline c = true.
Proof.
  unfold inline, is_break, in_range.
  rewrite !andb_true_iff, negb_true_iff, orb_false_iff, !andb_false_iff,
    !Z.leb_le, !Z.leb_gt.
  lia.
Qed.

Lemma printable_no_tab c : in_range c 0x20 0x7E = true -> c <> Byte.x09.
Proof.
  unfold in_range. rewrite andb_true_iff, !Z.leb_le. intros [H _] ->.
  vm_compute in H. apply H. reflexivity.
Qed.

Lemma before_tab_app l rest :
  ~ In Byte.x09 l -> before_tab (l ++ Byte.x09 :: rest) = l.
Proof.
  induction l as [|c l IH]; intros Hl; cbn [app before_tab].
  - reflexivity.
  - rewrite bool_decide_eq_false_2 by (intros ->; apply Hl; left; reflexivity).
    rewrite IH; [reflexivity|]. intros H. apply Hl. right. exact H.
Qed.

Lemma printable_not_In_tab s :
  printable s = true -> ~ In Byte.x09 (list_byte_of_string s).
Proof.
  unfold printable. rewrite forallb_forall. intros H Hin.
  exact (printable_no_tab _ (H _ Hin) eq_refl).
Qed.

(** A line "serial, tab, state" ends with "tab, device" exactly when the
    state is "device". *)
Lemma endswith_tab_device id st :
  ~ In Byte.x09 id -> ~ In Byte.x09 st ->
  bytes_eqb (skipn (length (id ++ Byte.x09 :: st) - 7) (id ++ Byte.x09 :: st))
            (Byte.x09 :: b "device")
  = bytes_eqb st (b "device").
Proof.
  intros Hid Hst. unfold bytes_eqb.
  destruct (bool_decide_reflect (st = b "device")) as [->|Hne].
  - apply bool_decide_eq_true_2.
    assert (Hk : (length (id ++ Byte.x09 :: b "device") - 7 = length id)%nat).
    { rewrite length_app. change (length (Byte.x09 :: b "device")) with 7%nat.
      lia. }
    rewrite Hk, skipn_app, skipn_all, Nat.sub_diag. reflexivity.
  - apply bool_decide_eq_false_2. intros Heq. apply Hne.
    set (l := id ++ Byte.x09 :: st) in *.
    set (k := (length l - 7)%nat) in *.
    assert (Hl : l = firstn k l ++ Byte.x09 :: b "device")
      by (rewrite <- Heq; symmetry; apply firstn_skipn).
    assert (Hcount : count_occ Byte.byte_eq_dec l Byte.x09 = 1%nat).
    { subst l. rewrite count_occ_app. cbn [count_occ].
      destruct (Byte.byte_eq_dec Byte.x09 Byte.x09) as [_|N]; [|congruence].
      rewrite (proj1 (count_occ_not_In _ _ _) Hid),
        (proj1 (count_occ_not_In _ _ _) Hst). reflexivity. }
    assert (Hpre : ~ In Byte.x09 (firstn k l)).
    { apply (count_occ_not_In Byte.byte_eq_dec).
      rewrite Hl, count_occ_app in Hcount.
      change (count_occ Byte.byte_eq_dec (Byte.x09 :: b "device") Byte.x09)
        with 1%nat in Hcount. lia. }
    assert (Hbefore : id = firstn k l).
    { rewrite <- (before_tab_app id st Hid).
      rewrite <- (before_tab_app (firstn k l) (b "device") Hpre).
      fold l. rewrite <- Hl. reflexivity. }
    subst l. rewrite Hbefore in Hl at 1.
    apply app_inv_head in Hl. congruence.
Qed.

Lemma encode_inj s1 s2 : encode s1 = encode s2 -> s1 = s2.
Proof.
  unfold encode. intros H.
  rewrite <- (string_of_list_byte_of_string s1),
    <- (string_of_list_byte_of_string s2), H. reflexivity.
Qed.

Lemma bytes_eqb_device st :
  bytes_eqb (encode st) (b "device") = (st =? "device")%string.
Proof.
  unfold bytes_eqb.
  destruct (String.eqb_spec st "device") as [->|Hne].
  - reflexivity.
  - apply bool_decide_eq_false_2. intros H. apply Hne.
    apply encode_inj. exact H.
Qed.

(** The lines of a listing. *)
Lemma split_lines_listing entries :
  Forall (fun en : string * string =>
            printable en.1 = true /\ printable en.2 = true) entries ->
  split_lines [] (listing entries)
  = map (fun en : string * string => encode en.1 ++ Byte.x09 :: encode en.2)
        entries.
Proof.
  induction 1 as [|en entries [H1 H2] _ IH]; [reflexivity|].
  unfold listing. cbn [map concat]. fold (listing entries).
  unfold device_line. cbn [app].
  replace ((encode en.1 ++ Byte.x09 :: encode en.2 ++ [Byte.x0a])
           ++ listing entries)
    with ((encode en.1 ++ Byte.x09 :: encode en.2)
          ++ Byte.x0a :: listing entries)
    by (rewrite <- !app_assoc; cbn [app]; rewrite <- app_assoc; reflexivity).
  rewrite split_lines_line, IH; [reflexivity|].
  rewrite forallb_app. cbn [forallb].
  unfold printable in H1, H2. rewrite forallb_forall in H1, H2.
  rewrite andb_true_iff. split; [|apply andb_true_iff; split; [reflexivity|]];
    apply forallb_forall; intros c Hc; apply printable_inline; auto.
Qed.

Lemma listing_ascii entries :
  Forall (fun en : string * string =>
            printable en.1 = true /\ printable en.2 = true) entries ->
  forallb (fun c => in_range c 0x00 0x7F) (listing entries) = true.
Proof.
  induction 1 as [|en entries [H1 H2] _ IH]; [reflexivity|].
  unfold listing. cbn [map concat]. fold (listing entries).
  unfold device_line. rewrite !forallb_app, IH. cbn [forallb].
  unfold printable in H1, H2. rewrite forallb_forall in H1, H2.
  assert (Hp : forall s, (forall c, In c (list_byte_of_string s) ->
                           in_range c 0x20 0x7E = true) ->
               forallb (fun c => in_range c 0x00 0x7F) (encode s) = true).
  { intros s Hs. apply forallb_forall. intros c Hc.
    apply (inline_cases c (printable_inline c (Hs c Hc))). }
  rewrite (Hp _ H1), (Hp _ H2). reflexivity.
Qed.

(** The selection of line 133 on the lines of a listing. *)
Lemma select_devices entries :
  Forall (fun en : string * string =>
            printable en.1 = true /\ printable en.2 = true) entries ->
  map split_tab_0
    (List.filter (fun line => endswith line tab_device)
       (map string_of_list_byte
          (map (fun en : string * string =>
                  encode en.1 ++ Byte.x09 :: encode en.2) entries)))
  = map fst (List.filter (fun en => (en.2 =? "device")%string) entries).
Proof.
  induction 1 as [|en entries [H1 H2] _ IH]; [reflexivity|].
  cbn [map List.filter].
  assert (Hends : endswith (string_of_list_byte
                              (encode en.1 ++ Byte.x09 :: encode en.2))
                    tab_device
                  = (en.2 =? "device")%string).
  { unfold endswith. cbv zeta. rewrite list_byte_of_string_of_list_byte.
    change (list_byte_of_string tab_device) with (Byte.x09 :: b "device").
    change (length (Byte.x09 :: b "device")) with 7%nat.
    rewrite endswith_tab_device by (apply printable_not_In_tab; assumption).
    apply bytes_eqb_device. }
  rewrite Hends. destruct (en.2 =? "device")%string; [|exact IH].
  cbn [map]. rewrite IH. f_equal.
  unfold split_tab_0. rewrite list_byte_of_string_of_list_byte.
  rewrite before_tab_app by (apply printable_not_In_tab; assumption).
  apply string_of_list_byte_of_string.
Qed.

(** X22. The device listing is read as the host ADB server writes it.
    When the server answers [host:devices] with OKAY, a four-digit length
    and that many bytes of lines "serial, tab, state, line feed" (serials
    and states of printable ASCII characters), [list_adb_devices] returns
    the serials of exactly the entries whose state is "device", in the
    order of the listing; it has written the one request
    "000chost:devices" and closed the connection. *)
Theorem list_adb_devices_selects_devices {St} e entries rest (s : St) :
  Forall (fun en : string * string =>
            printable en.1 = true /\ printable en.2 = true) entries ->
  Z.of_nat (length (listing entries)) <= 0xFFFF ->
  host e = Some (b "OKAY"
                 ++ format_04x (Z.of_nat (length (listing entries)))
                 ++ listing entries ++ rest) ->
  list_adb_devices e s
  = (s, [HostConnect; HostWrite (b "000chost:devices"); HostClose],
     Ok (map fst (List.filter (fun en => (en.2 =? "device")%string) entries))).
Proof.
  intros Hentries Hlen Hhost.
  destruct (py_int16_format_04x (Z.of_nat (length (listing entries)))
              ltac:(lia)) as [Hl4 Hparse].
  unfold list_adb_devices. run_M. rewrite Hhost.
  rewrite (readexactly_4 (b "OKAY") _ eq_refl).
  change (bytes_eqb (b "OKAY") (b "OKAY")) with true. cbv iota.
  rewrite (readexactly_4 _ _ Hl4), Hparse, readexactly_app.
  unfold decode. rewrite (utf8_valid_ascii _ (listing_ascii _ Hentries)).
  unfold splitlines. rewrite list_byte_of_string_of_list_byte.
  rewrite (split_lines_listing _ Hentries), (select_devices _ Hentries).
  reflexivity.
Qed.

Lemma list_adb_devices_selects_devices_witness :
  list_adb_devices
    (env_listing [("emulator-5554", "device"); ("R58M", "offline");
                  ("0123", "device")]%string) tt
  = (tt, [HostConnect; HostWrite (b "000chost:devices"); HostClose],
     Ok ["emulator-5554"; "0123"]%string).
Proof.
  apply (list_adb_devices_selects_devices _
           [("emulator-5554", "device"); ("R58M", "offline");
            ("0123", "device")]%string [] tt).
  - repeat constructor.
  - vm_compute. discriminate.
  - unfold env_listing. cbn [host]. rewrite app_nil_r. reflexivity.
Defined.

(** [list_adb_devices], path by path. *)
Lemma list_adb_devices_run {St} e (s : St) :
  list_adb_devices e s =
  let sent := [HostConnect; HostWrite (b "000chost:devices")] in
  match host e with
  | None => (s, [HostConnect], Raise ConnectionError)
  | Some rd =>
      match readexactly 4 rd with
      | Raise x => (s, sent, Raise x)
      | Ok (status, rd1) =>
          if bytes_eqb status (b "OKAY") then
            match readexactly 4 rd1 with
            | Raise x => (s, sent, Raise x)
            | Ok (len_str, rd2) =>
                match py_int16 len_str with
                | Raise x => (s, sent, Raise x)
                | Ok n =>
                    match readexactly n rd2 with
                    | Raise x => (s, sent, Raise x)
                    | Ok (data, _) =>
                        match decode data with
                        | Raise x => (s, sent ++ [HostClose], Raise x)
                        | Ok text =>
                            (s, sent ++ [HostClose],
                             Ok (map split_tab_0
                                   (List.filter
                                      (fun line => endswith line tab_device)
                                      (splitlines text))))
                        end
                    end
                end
            end
          else (s, sent, Raise (PyException "Failed"))
      end
  end.
Proof.
  unfold list_adb_devices. run_M.
  destruct (host e) as [rd|]; [|reflexivity].
  destruct (readexactly 4 rd) as [[status rd1]|]; [|reflexivity].
  destruct (bytes_eqb status (b "OKAY")); [|reflexivity].
  destruct (readexactly 4 rd1) as [[len_str rd2]|]; [|reflexivity].
  destruct (py_int16 len_str) as [n|]; [|reflexivity].
  destruct (readexactly n rd2) as [[data rd3]|]; [|reflexivity].
  destruct (decode data); reflexivity.
Qed.

Lemma readexactly_raise n rd x :
  readexactly n rd = Raise x -> x <> UnicodeDecodeError.
Proof.
  unfold readexactly. destruct (n <? 0); [intros [= <-]; discriminate|].
  destruct (_ <=? _)%nat; intros [= <-]; discriminate.
Qed.

Lemma py_int16_raise l x : py_int16 l = Raise x -> x <> UnicodeDecodeError.
Proof.
  unfold py_int16. repeat case_match; intros [= <-]; discriminate.
Qed.

(** X23. [list_adb_devices] closes its connection only once the whole
    listing has arrived: the close of line 131 is among its events exactly
    when it returns or fails in decoding the listing.  On every other
    failure (connection refused, stream ended early, a status other than
    OKAY, a malformed length) the connection is left open; and a status
    other than OKAY gives the error "Failed" without the diagnostic of the
    server being read. *)
Theorem list_adb_devices_close {St} e (s : St) :
  let run := list_adb_devices e s in
  run.1.1 = s /\
  (In HostClose run.1.2 <->
   is_ok run.2 = true \/ run.2 = Raise UnicodeDecodeError) /\
  forall status rest,
    host e = Some (status ++ rest) -> length status = 4%nat ->
    status <> b "OKAY" ->
    run = (s, [HostConnect; HostWrite (b "000chost:devices")],
           Raise (PyException "Failed")).
Proof.
  cbv zeta. rewrite list_adb_devices_run. cbv zeta.
  assert (Hno : ~ In HostClose [HostConnect; HostWrite (b "000chost:devices")]).
  { intros [H|[H|[]]]; discriminate H. }
  assert (Hno1 : ~ In HostClose [HostConnect]).
  { intros [H|[]]; discriminate H. }
  assert (Hyes : In HostClose ([HostConnect; HostWrite (b "000chost:devices")]
                               ++ [HostClose])).
  { right. right. left. reflexivity. }
  destruct (host e) as [rd|].
  2:{ cbn [fst snd is_ok]. split; [reflexivity|]. split; [|discriminate].
      split; [intros H; destruct (Hno1 H)|intros [H|H]; discriminate H]. }
  split; [|split].
  - destruct (readexactly 4 rd) as [[status rd1]|]; [|reflexivity].
    destruct (bytes_eqb status (b "OKAY")); [|reflexivity].
    destruct (readexactly 4 rd1) as [[len_str rd2]|]; [|reflexivity].
    destruct (py_int16 len_str) as [n|]; [|reflexivity].
    destruct (readexactly n rd2) as [[data rd3]|]; [|reflexivity].
    destruct (decode data); reflexivity.
  - destruct (readexactly 4 rd) as [[status rd1]|x] eqn:H1.
    2:{ pose proof (readexactly_raise _ _ _ H1) as Hx. cbn [fst snd is_ok].
        split; [intros H; destruct (Hno H)|intros [H|[= H]]; congruence]. }
    destruct (bytes_eqb status (b "OKAY")).
    2:{ cbn [fst snd is_ok].
        split; [intros H; destruct (Hno H)|intros [H|H]; discriminate H]. }
    destruct (readexactly 4 rd1) as [[len_str rd2]|x] eqn:H2.
    2:{ pose proof (readexactly_raise _ _ _ H2) as Hx. cbn [fst snd is_ok].
        split; [intros H; destruct (Hno H)|intros [H|[= H]]; congruence]. }
    destruct (py_int16 len_str) as [n|x] eqn:H3.
    2:{ pose proof (py_int16_raise _ _ H3) as Hx. cbn [fst snd is_ok].
        split; [intros H; destruct (Hno H)|intros [H|[= H]]; congruence]. }
    destruct (readexactly n rd2) as [[data rd3]|x] eqn:H4.
    2:{ pose proof (readexactly_raise _ _ _ H4) as Hx. cbn [fst snd is_ok].
        split; [intros H; destruct (Hno H)|intros [H|[= H]]; congruence]. }
    unfold decode. destruct (utf8_valid data); cbn [fst snd is_ok].
    + split; [auto|]. intros _. exact Hyes.
    + split; [auto|]. intros _. exact Hyes.
  - intros status rest [= ->] Hlen Hne.
    rewrite (readexactly_4 status rest Hlen), (bytes_eqb_false _ _ Hne).
    reflexivity.
Qed.

Lemma list_adb_devices_close_witness :
  list_adb_devices (Env true true (Some (b "FAIL0004oops"))) tt
  = (tt, [HostConnect; HostWrite (b "000chost:devices")],
     Raise (PyException "Failed")).
Proof.
  apply (list_adb_devices_close (Env true true (Some (b "FAIL0004oops"))) tt)
    with (status := b "FAIL") (rest := b "0004oops").
  - reflexivity.
  - reflexivity.
  - discriminate.
Defined.

Lemma before_tab_id_bytes l :
  forallb (fun c => negb (is_break c)) l = true ->
  forallb id_byte (before_tab l) = true.
Proof.
  induction l as [|c l IH]; [reflexivity|].
  cbn [forallb before_tab]. rewrite andb_true_iff. intros [Hc Hl].
  destruct (bool_decide (c = Byte.x09)) eqn:Htab; [reflexivity|].
  cbn [forallb]. unfold id_byte at 1. rewrite Htab, Hc. exact (IH Hl).
Qed.

(** No line of [splitlines] holds a one-byte line boundary. *)
Lemma split_lines_no_break n : forall s cur,
  (length s <= n)%nat ->
  forallb (fun c => negb (is_break c)) cur = true ->
  forallb (forallb (fun c => negb (is_break c))) (split_lines cur s) = true.
Proof.
  induction n as [|n IH]; intros s cur Hn Hcur.
  - destruct s; [|cbn [length] in Hn; lia].
    cbn [split_lines]. destruct cur; [reflexivity|].
    cbn [forallb]. rewrite andb_true_r.
    apply forallb_forall. intros c Hc. apply in_rev in Hc.
    rewrite forallb_forall in Hcur. exact (Hcur c Hc).
  - assert (Hrev : forallb (fun c => negb (is_break c)) (rev cur) = true).
    { apply forallb_forall. intros c Hc. apply in_rev in Hc.
      rewrite forallb_forall in Hcur. exact (Hcur c Hc). }
    destruct s as [|c t].
    { cbn [split_lines]. destruct cur; [reflexivity|].
      cbn [forallb]. rewrite andb_true_r. exact Hrev. }
    cbn [length] in Hn.
    assert (Ht : forall cur', forallb (fun c => negb (is_break c)) cur' = true ->
              forallb (forallb (fun c => negb (is_break c)))
                (split_lines cur' t) = true)
      by (intros cur' Hc'; apply IH; [lia|exact Hc']).
    cbn [split_lines].
    destruct (in_range c 0x0D 0x0D).
    { destruct t as [|c1 t1].
      - cbn [forallb]. rewrite Hrev. reflexivity.
      - destruct (in_range c1 0x0A 0x0A); cbn [forallb]; rewrite Hrev;
          cbn [andb]; [|apply Ht; reflexivity].
        apply IH; [cbn [length] in Hn; lia|reflexivity]. }
    destruct (is_break c) eqn:Hbr.
    { cbn [forallb]. rewrite Hrev. apply Ht. reflexivity. }
    assert (Hpush : forallb (fun c => negb (is_break c)) (c :: cur) = true)
      by (cbn [forallb]; rewrite Hbr, Hcur; reflexivity).
    destruct (in_range c 0xC2 0xC2).
    { destruct t as [|c1 t1]; [apply Ht, Hpush|].
      destruct (in_range c1 0x85 0x85); [|apply Ht, Hpush].
      cbn [forallb]. rewrite Hrev.
      apply IH; [cbn [length] in Hn; lia|reflexivity]. }
    destruct (in_range c 0xE2 0xE2); [|apply Ht, Hpush].
    destruct t as [|c1 [|c2 t2]]; try (apply Ht, Hpush).
    destruct (in_range c1 0x80 0x80 && in_range c2 0xA8 0xA9);
      [|apply Ht, Hpush].
    cbn [forallb]. rewrite Hrev.
    apply IH; [cbn [length] in Hn; lia|reflexivity].
Qed.

(** X24. The serials [list_adb_devices] returns are clean: whatever the
    host ADB server sent, no serial returned holds a tab, a line feed, a
    carriage return or another one-byte line boundary, so that each fits
    in one [host:transport:<serial>] request line. *)
Theorem list_adb_devices_serials_clean {St} e (s s' : St) es ids serial :
  list_adb_devices e s = (s', es, Ok ids) ->
  In serial ids ->
  forallb id_byte (list_byte_of_string serial) = true.
Proof.
  rewrite list_adb_devices_run. cbv zeta.
  destruct (host e) as [rd|]; [|discriminate].
  destruct (readexactly 4 rd) as [[status rd1]|]; [|discriminate].
  destruct (bytes_eqb status (b "OKAY")); [|discriminate].
  destruct (readexactly 4 rd1) as [[len_str rd2]|]; [|discriminate].
  destruct (py_int16 len_str) as [n|]; [|discriminate].
  destruct (readexactly n rd2) as [[data rd3]|]; [|discriminate].
  destruct (decode data) as [text|]; [|discriminate].
  intros [= _ _ <-] Hin.
  apply in_map_iff in Hin as (line & <- & Hline).
  apply filter_In in Hline as [Hline _].
  unfold splitlines in Hline.
  apply in_map_iff in Hline as (l & <- & Hl).
  unfold split_tab_0. rewrite !list_byte_of_string_of_list_byte.
  apply before_tab_id_bytes.
  pose proof (split_lines_no_break _ (list_byte_of_string text) []
                (Nat.le_refl _) eq_refl) as Hall.
  rewrite forallb_forall in Hall. exact (Hall l Hl).
Qed.

Lemma list_adb_devices_serials_clean_witness :
  forallb id_byte (list_byte_of_string "0123") = true.
Proof.
  apply (list_adb_devices_serials_clean
           (env_listing [("emulator-5554", "device"); ("R58M", "offline");
                         ("0123", "device")]%string) tt tt
           [HostConnect; HostWrite (b "000chost:devices"); HostClose]
           ["emulator-5554"; "0123"]%string "0123").
  - vm_compute. reflexivity.
  - right. left. reflexivity.
Defined.

(** ** The scrcpy tunnel *)

Section Tunnel.
Import ScrcpyTcpProxy.

Lemma socket_eqb_refl k : socket_eqb k k = true.
Proof. destruct k; reflexivity. Qed.

Lemma written_app k es1 es2 :
  written k (es1 ++ es2) = written k es1 ++ written k es2.
Proof.
  induction es1 as [|ev es1 IH]; [reflexivity|].
  destruct ev; cbn [app written]; rewrite IH, ?app_assoc; reflexivity.
Qed.

Lemma closes_app k es1 es2 :
  closes k (es1 ++ es2) = (closes k es1 + closes k es2)%nat.
Proof.
  induction es1 as [|ev es1 IH]; [reflexivity|].
  destruct ev; cbn [app closes]; rewrite IH; lia.
Qed.

(** [forward_data] on its destination. *)
Lemma forward_data_dst dst reads :
  exists n,
    written dst (forward_data dst reads)
      = concat (map read_bytes (firstn n reads)) /\
    closes dst (forward_data dst reads) = 1%nat /\
    (forallb delivered reads = true -> n = length reads).
Proof.
  induction reads as [|[[data|] drained] reads IH].
  - exists 0%nat. cbn. rewrite socket_eqb_refl. auto.
  - cbn [forward_data].
    destruct (bool_decide (data = [])) eqn:Hd.
    + exists 0%nat. cbn [written closes firstn map concat forallb delivered].
      rewrite socket_eqb_refl, Hd. destruct drained; repeat split; discriminate.
    + destruct drained.
      * destruct IH as (n & Hw & Hc & Hall). exists (S n).
        cbn [written closes firstn map concat forallb delivered length].
        rewrite socket_eqb_refl, Hw, Hc, Hd. cbn [negb andb].
        repeat split. intros H. rewrite (Hall H). reflexivity.
      * exists 1%nat.
        cbn [written closes firstn map concat forallb delivered length].
        rewrite socket_eqb_refl, firstn_O. cbn [map concat read_bytes fst].
        repeat split; discriminate.
  - exists 0%nat. cbn. rewrite socket_eqb_refl. repeat split; discriminate.
Qed.

(** [forward_data] on another connection. *)
Lemma forward_data_other dst k reads :
  socket_eqb dst k = false ->
  written k (forward_data dst reads) = [] /\
  closes k (forward_data dst reads) = 0%nat.
Proof.
  intros Hk. induction reads as [|[[data|] drained] reads [IHw IHc]].
  - cbn. rewrite Hk. auto.
  - cbn [forward_data]. destruct (bool_decide (data = [])).
    + cbn. rewrite Hk. auto.
    + destruct drained; cbn [written closes]; rewrite Hk, ?IHw, ?IHc; auto.
  - cbn. rewrite Hk. auto.
Qed.

(** X25. [forward_data] is a transparent, one-way pipe.  What it writes on
    its destination is, byte for byte and in order, what an initial run of
    the reads of its source returned, and all of it when every read
    delivers data that is then drained; it touches no other connection;
    and however the loop ends (end of the source, an error of the read, an
    error of [drain()]), it closes its destination exactly once. *)
Theorem forward_data_transparent dst reads :
  let es := forward_data dst reads in
  (exists n, written dst es = concat (map read_bytes (firstn n reads))) /\
  (forallb delivered reads = true ->
   written dst es = concat (map read_bytes reads)) /\
  closes dst es = 1%nat /\
  forall k, socket_eqb dst k = false ->
            written k es = [] /\ closes k es = 0%nat.
Proof.
  cbv zeta. destruct (forward_data_dst dst reads) as (n & Hw & Hc & Hall).
  split; [exists n; exact Hw|]. split; [|split; [exact Hc|]].
  - intros H. rewrite Hw, (Hall H), firstn_all. reflexivity.
  - intros k Hk. apply forward_data_other, Hk.
Qed.

Lemma forward_data_transparent_witness :
  written Client
    (forward_data Client [(ProxyChannel.ReadBytes (b "vid"), true);
                          (ProxyChannel.ReadBytes (b "eo"), true)])
  = b "video".
Proof.
  rewrite (proj1 (proj2 (forward_data_transparent Client
                           [(ProxyChannel.ReadBytes (b "vid"), true);
                            (ProxyChannel.ReadBytes (b "eo"), true)])))
    by reflexivity.
  reflexivity.
Defined.

Ltac tunnel_goal :=
  cbn; unfold not; repeat split; intros;
  repeat match goal with
         | H : _ /\ _ |- _ => destruct H
         | H : _ \/ _ |- _ => destruct H
         | H : False |- _ => destruct H
         | H : match ?k with Client => _ | _ => _ end = false |- _ =>
             is_var k; destruct k; try discriminate H
         end;
  try discriminate; try tauto; try reflexivity; try congruence; auto.

(** [ensure_scrcpy_server_running], path by path. *)
Lemma ensure_run c p :
  let p' := (ensure_scrcpy_server_running c p).1 in
  let es := (ensure_scrcpy_server_running c p).2 in
  device_id p' = device_id p /\
  server_started p' = server_started p || acknowledged c /\
  (server_started p = true -> p' = p /\ es = []) /\
  (In KeepAlive es <-> server_started p = false /\ acknowledged c = true) /\
  (forall k, socket_eqb Shell k = false ->
             written k es = [] /\ closes k es = 0%nat /\ ~ In (Connect k) es) /\
  (server_started p = false -> hd_error es = Some (Connect Shell)).
Proof.
  cbv zeta. unfold ensure_scrcpy_server_running, acknowledged.
  destruct p as [dev started]. cbn [server_started device_id].
  destruct started, (connects c), (transport_status c) as [s1|],
    (service_status c) as [s2|];
    try destruct (bytes_eqb s1 (b "OKAY"));
    try destruct (bytes_eqb s2 (b "OKAY")); tunnel_goal.
Qed.
Lemma ensure_steps_whole c p :
  ensure_steps 5 c Entered p
  = ((ensure_scrcpy_server_running c p).1,
     (ensure_scrcpy_server_running c p).2, Left).
Proof.
  unfold ensure_scrcpy_server_running. destruct p as [dev started].
  destruct started, (connects c) eqn:Hc, (transport_status c) as [s1|] eqn:H1,
    (service_status c) as [s2|] eqn:H2;
    try destruct (bytes_eqb s1 (b "OKAY")) eqn:E1;
    try destruct (bytes_eqb s2 (b "OKAY")) eqn:E2;
    repeat (progress (cbn [ensure_steps ensure_step server_started device_id
                          negb set_server_started app fst snd];
                     rewrite ?Hc, ?H1, ?H2, ?E1, ?E2));
    reflexivity.
Qed.

(** X26. [ensure_scrcpy_server_running] tests [server_started] on entry
    and sets it only at its end, after both requests were answered OKAY
    and the wait of two seconds.  A call that runs alone starts the
    server exactly when the flag was clear and both requests were
    acknowledged, and leaves the flag set exactly if it was set or the
    server was started.  But the server is not started once: of two calls
    on a clear flag, both acknowledged, the second made while the first
    is suspended between its test and its set, both start the server;
    only when the second is made before the first or after its return is
    the server started once in all. *)
Theorem server_started_test_and_set c1 c2 p :
  ensure_steps 5 c1 Entered p
    = ((ensure_scrcpy_server_running c1 p).1,
       (ensure_scrcpy_server_running c1 p).2, Left) /\
  server_started (ensure_scrcpy_server_running c1 p).1
    = server_started p || acknowledged c1 /\
  starts (ensure_scrcpy_server_running c1 p).2
    = (if negb (server_started p) && acknowledged c1 then 1 else 0)%nat /\
  (server_started p = false ->
   acknowledged c1 = true -> acknowledged c2 = true ->
   forall j, (j <= 5)%nat ->
     starts (overlapping j c1 c2 p).2
     = (if (1 <=? j) && (j <=? 4) then 2 else 1)%nat).
Proof.
  split; [apply ensure_steps_whole|].
  split; [apply (ensure_run c1 p)|]. split.
  - unfold ensure_scrcpy_server_running, acknowledged.
    destruct p as [dev started].
    destruct started, (connects c1), (transport_status c1) as [s1|],
      (service_status c1) as [s2|];
      try destruct (bytes_eqb s1 (b "OKAY"));
      try destruct (bytes_eqb s2 (b "OKAY")); reflexivity.
  - intros Hp A1 A2 j Hj.
    destruct p as [dev started]. cbn [server_started] in Hp. subst started.
    destruct c1 as [k1 t1 s1], c2 as [k2 t2 s2].
    unfold acknowledged in A1, A2.
    cbn [connects transport_status service_status] in A1, A2.
    destruct k1, k2; try discriminate.
    destruct t1 as [t1|], s1 as [s1|], t2 as [t2|], s2 as [s2|];
      try discriminate.
    cbn [andb] in A1, A2.
    apply andb_true_iff in A1 as [E1 F1]. apply andb_true_iff in A2 as [E2 F2].
    unfold overlapping.
    destruct j as [|[|[|[|[|[|j]]]]]]; [| | | | | |lia];
      repeat (progress (cbn [ensure_steps ensure_step server_started device_id
                             negb set_server_started app fst snd connects
                             transport_status service_status];
                        rewrite ?E1, ?F1, ?E2, ?F2));
      reflexivity.
Qed.

Lemma server_started_test_and_set_witness :
  let ok := Conn true (Some (b "OKAY")) (Some (b "OKAY")) in
  starts (overlapping 1 ok ok (init "dev1")).2 = 2%nat.
Proof.
  cbv zeta.
  apply (server_started_test_and_set
           (Conn true (Some (b "OKAY")) (Some (b "OKAY")))
           (Conn true (Some (b "OKAY")) (Some (b "OKAY")))
           (init "dev1")); try reflexivity.
  lia.
Defined.
Lemma keep_server_alive_run reads p :
  keep_server_alive reads p
  = if existsb session_end reads
    then (set_server_started false p, [Close Shell], true)
    else (p, [], false).
Proof.
  induction reads as [|[|data|] reads IH]; cbn [keep_server_alive existsb
    session_end orb]; try reflexivity; try exact IH.
  destruct (bool_decide (data = [])); [reflexivity|exact IH].
Qed.

(** X27. The shell session of the server ends on the end of its stream or
    on an error of the read, never on a timeout or on output: over any
    sequence of reads, [_keep_server_alive] is still running, with nothing
    done, unless one of them is an end or an error; when it is over it has
    closed the shell connection and cleared [server_started], so that the
    next tunnel connection starts the server again. *)
Theorem keep_server_alive_restarts reads p c :
  let run := keep_server_alive reads p in
  run = (if existsb session_end reads
         then (set_server_started false p, [Close Shell], true)
         else (p, [], false)) /\
  (run.2 = true ->
   hd_error (ensure_scrcpy_server_running c run.1.1).2 = Some (Connect Shell)).
Proof.
  cbv zeta. rewrite keep_server_alive_run. split; [reflexivity|].
  destruct (existsb session_end reads); [|discriminate].
  intros _. cbn [fst snd].
  apply (ensure_run c (set_server_started false p)). reflexivity.
Qed.

Lemma keep_server_alive_restarts_witness :
  hd_error
    (ensure_scrcpy_server_running (Conn true None None)
       (keep_server_alive [Timeout; Output (b "log"); Lost]
          (Tunnel "dev1" true)).1.1).2
  = Some (Connect Shell).
Proof.
  apply (keep_server_alive_restarts [Timeout; Output (b "log"); Lost]
           (Tunnel "dev1" true) (Conn true None None)).
  reflexivity.
Defined.

(** What [ensure_scrcpy_server_running] leaves of the other connections. *)
Lemma ensure_other c p k :
  socket_eqb Shell k = false ->
  written k (ensure_scrcpy_server_running c p).2 = [] /\
  closes k (ensure_scrcpy_server_running c p).2 = 0%nat.
Proof.
  intros Hk. destruct (ensure_run c p) as (_ & _ & _ & _ & Hother & _).
  destruct (Hother k Hk) as (Hw & Hc & _). auto.
Qed.

Ltac tunnel_paths e p :=
  unfold handle_scrcpy_connection, acknowledged;
  pose proof (ensure_other (shell e) p Client eq_refl) as [Hwc Hcc];
  pose proof (ensure_other (shell e) p Adb eq_refl) as [Hwa Hca];
  pose proof (proj1 (ensure_run (shell e) p)) as Hdev;
  destruct (ensure_scrcpy_server_running (shell e) p) as [p1 es0];
  cbn [fst snd] in *;
  destruct (connects (adb e)), (transport_status (adb e)) as [s1|],
    (service_status (adb e)) as [s2|];
    try destruct (bytes_eqb s1 (b "OKAY"));
    try destruct (bytes_eqb s2 (b "OKAY"));
    cbn [negb andb fst snd].

(** X28. A tunnel connection always cleans up.  However
    [handle_scrcpy_connection] ends (server not started, connection to the
    host ADB server refused, a request refused or unanswered, or the end of
    forwarding), its last actions are the close of the client connection
    and, if the connection to the host ADB server was opened, the close of
    that connection; the device the tunnel serves does not change. *)
Theorem tunnel_always_cleans_up e p :
  let run := handle_scrcpy_connection e p in
  (exists es', run.2 = es' ++ cleanup (connects (adb e))) /\
  (1 <= closes Client run.2)%nat /\
  (if connects (adb e) then (1 <= closes Adb run.2)%nat
   else closes Adb run.2 = 0%nat) /\
  device_id run.1 = device_id p.
Proof.
  cbv zeta. tunnel_paths e p;
    (split; [eexists; rewrite ?app_assoc; reflexivity|]);
    rewrite ?closes_app, ?Hcc, ?Hca; cbn [closes cleanup socket_eqb];
    repeat split; try lia; try exact Hdev.
Qed.

(** X29. The tunnel is transparent, and opens only when both requests are
    acknowledged.  When the host ADB server answers OKAY to the transport
    request and to "localabstract:scrcpy", what the device side receives
    after the two requests is what an initial run of the reads from the
    client returned, and what the client receives is what an initial run
    of the reads from the device returned, byte for byte, all of it when
    every read delivers: no framing is added in either direction.
    Otherwise the client receives nothing, and the host ADB server nothing
    beyond the requests. *)
Theorem tunnel_transparent e p :
  let es := (handle_scrcpy_connection e p).2 in
  let req1 := request_bytes ("host:transport:" ++ device_id p) in
  let req2 := request_bytes "localabstract:scrcpy" in
  if acknowledged (adb e) then
    (exists n, written Adb es
               = req1 ++ req2 ++ concat (map read_bytes (firstn n (up e)))) /\
    (exists n, written Client es
               = concat (map read_bytes (firstn n (down e)))) /\
    (forallb delivered (up e) = true ->
     written Adb es = req1 ++ req2 ++ concat (map read_bytes (up e))) /\
    (forallb delivered (down e) = true ->
     written Client es = concat (map read_bytes (down e)))
  else
    written Client es = [] /\
    (written Adb es = [] \/ written Adb es = req1 \/
     written Adb es = req1 ++ req2).
Proof.
  cbv zeta.
  destruct (forward_data_dst Adb (up e)) as (nu & Hwu & _ & Hallu).
  destruct (forward_data_dst Client (down e)) as (nd & Hwd & _ & Halld).
  destruct (forward_data_other Adb Client (up e) eq_refl) as [Hou _].
  destruct (forward_data_other Client Adb (down e) eq_refl) as [Hod _].
  tunnel_paths e p; rewrite ?written_app, ?Hwc, ?Hwa, ?Hdev;
    cbn [written cleanup request socket_eqb app];
    rewrite ?Hou, ?Hod, ?app_nil_r; cbn [app].
  all: try (split; [reflexivity|]; rewrite ?app_nil_r; tauto).
  rewrite Hwu, Hwd, <- !app_assoc.
  split; [exists nu; reflexivity|]. split; [exists nd; reflexivity|].
  split; intros H; [rewrite (Hallu H)|rewrite (Halld H)];
    rewrite firstn_all; reflexivity.
Qed.

Lemma tunnel_transparent_witness :
  written Client
    (handle_scrcpy_connection
       (Session (Conn true (Some (b "OKAY")) (Some (b "OKAY")))
          (Conn true (Some (b "OKAY")) (Some (b "OKAY")))
          [(ProxyChannel.ReadBytes (b "ctl"), true)]
          [(ProxyChannel.ReadBytes (b "vid"), true);
           (ProxyChannel.ReadBytes (b "eo"), true)])
       (init "dev1")).2
  = b "video".
Proof.
  pose proof (tunnel_transparent
       (Session (Conn true (Some (b "OKAY")) (Some (b "OKAY")))
          (Conn true (Some (b "OKAY")) (Some (b "OKAY")))
          [(ProxyChannel.ReadBytes (b "ctl"), true)]
          [(ProxyChannel.ReadBytes (b "vid"), true);
           (ProxyChannel.ReadBytes (b "eo"), true)])
       (init "dev1")) as H.
  cbv zeta in H. cbn [acknowledged adb connects transport_status
    service_status andb] in H.
  change (bytes_eqb (b "OKAY") (b "OKAY")) with true in H. cbn [andb] in H.
  destruct H as (_ & _ & _ & H). exact (H eq_refl).
Defined.

End Tunnel.

(** ** The servers of main *)







